(** * Encrypted journal store (journal.py): a shallow embedding

    The development follows the Python source top-down:
    - [PyVal]     the Python values that travel through [json] and [**kwargs];
    - [Clock]     [datetime.now().strftime(..)] and [datetime.strptime(..)];
    - [Sys]       the file system, console, clock and entropy as one world,
                  threaded through a state-and-exception monad;
    - [Journal]   [JournalEntry] and [JournalManager], parameterised by the
                  two external libraries ([cryptography.fernet] and [json]).
    Python [int] is [Z]; [str] and [bytes] are [string] (the texts the
    journal writes, timestamps and tokens, are ASCII); methods take the
    object they mutate and return it. *)

From Stdlib Require Import ZArith Lia Bool Ascii String.
From stdpp Require Import base option list strings gmap countable.

Local Open Scope Z_scope.
Set Warnings "-register-all".

(* ===================================================================== *)
(** ** Python values *)
(* ===================================================================== *)

Module PyVal.

(** Values that [json.loads] can return and that the attributes of a
    [JournalEntry] therefore range over.  A Python [dict] with [str] keys is
    an association list in insertion order; [PyFloat] carries the binary64
    bit pattern, which no code of the journal inspects. *)
Inductive pyval : Type :=
| PyNone
| PyBool (b : bool)
| PyInt (n : Z)
| PyFloat (bits : Z)
| PyStr (s : string)
| PyList (l : list pyval)
| PyDict (d : list (string * pyval)).

(** Python truth value ([if tags], [tags if tags else []]). *)
Definition truthy (v : pyval) : bool :=
  match v with
  | PyNone => false
  | PyBool b => b
  | PyInt n => negb (n =? 0)
  | PyFloat bits => negb ((bits =? 0) || (bits =? 2 ^ 63))
  | PyStr s => negb (String.eqb s "")
  | PyList l => match l with [] => false | _ => true end
  | PyDict d => match d with [] => false | _ => true end
  end.

(** [d.get(k)] on an insertion-ordered dict. *)
Fixpoint dict_get (k : string) (d : list (string * pyval)) : option pyval :=
  match d with
  | [] => None
  | (k', v) :: d' => if String.eqb k k' then Some v else dict_get k d'
  end.

Definition dict_keys (d : list (string * pyval)) : list string := map fst d.

(** *** Values [json] carries faithfully

    [json.loads(json.dumps(v))] gives [v] back when [v] is a value Python
    can build and [json] can print and re-read: no dict holds one key twice,
    an [int] stays below the 4300 digits [str(int)] accepts, a [float] is a
    64-bit pattern other than a NaN, and the nesting stays well below the
    interpreter's recursion limit. *)

Fixpoint nodup_keys (seen : list string) (ks : list string) : bool :=
  match ks with
  | [] => true
  | k :: ks' =>
      negb (existsb (String.eqb k) seen) && nodup_keys (k :: seen) ks'
  end.

Definition float_is_nan (bits : Z) : bool :=
  ((bits / 2 ^ 52) mod 2 ^ 11 =? 2047) && negb (bits mod 2 ^ 52 =? 0).

Definition plain_float (bits : Z) : bool :=
  (0 <=? bits) && (bits <? 2 ^ 64) && negb (float_is_nan bits).

Definition plain_int (n : Z) : bool := Z.abs n <? 10 ^ 4300.

Fixpoint depth (v : pyval) : nat :=
  match v with
  | PyList l => S (fold_right (fun x d => Nat.max (depth x) d) O l)
  | PyDict d => S (fold_right (fun kv d' => Nat.max (depth (snd kv)) d') O d)
  | _ => O
  end.

Fixpoint plain_parts (v : pyval) : bool :=
  match v with
  | PyInt n => plain_int n
  | PyFloat bits => plain_float bits
  | PyList l => forallb plain_parts l
  | PyDict d =>
      nodup_keys [] (map fst d) && forallb (fun kv => plain_parts (snd kv)) d
  | _ => true
  end.

Definition wf_pyval (v : pyval) : bool :=
  plain_parts v && (depth v <? 100)%nat.

End PyVal.
Export PyVal.

(* ===================================================================== *)
(** ** Wall-clock timestamps *)
(* ===================================================================== *)

Module Clock.

(** What [datetime.now()] returns, field by field. *)
Record datetime : Type := mk_datetime {
  year : Z; month : Z; day : Z; hour : Z; minute : Z; second : Z
}.

(** A calendar date: what [datetime.strptime(s, "%Y-%m-%d")] carries (its
    time of day is midnight). *)
Record ymd : Type := mk_ymd { y_of : Z; m_of : Z; d_of : Z }.

Definition calendar_date (t : datetime) : ymd :=
  mk_ymd (year t) (month t) (day t).

Definition is_leap (y : Z) : bool :=
  (y mod 4 =? 0) && (negb (y mod 100 =? 0) || (y mod 400 =? 0)).

Definition days_in_month (y m : Z) : Z :=
  if m =? 2 then (if is_leap y then 29 else 28)
  else if (m =? 4) || (m =? 6) || (m =? 9) || (m =? 11) then 30
  else 31.

(** Timestamps with a four-digit year, for which [%Y] prints four digits
    on every platform. *)
Definition valid_datetime (t : datetime) : bool :=
  (1000 <=? year t) && (year t <=? 9999) &&
  (1 <=? month t) && (month t <=? 12) &&
  (1 <=? day t) && (day t <=? days_in_month (year t) (month t)) &&
  (0 <=? hour t) && (hour t <=? 23) &&
  (0 <=? minute t) && (minute t <=? 59) &&
  (0 <=? second t) && (second t <=? 59).

(** *** Formatting: [strftime("%Y-%m-%d %H:%M:%S")] *)

Definition digit_char (d : Z) : ascii := ascii_of_nat (48 + Z.to_nat d).

Definition pad2 (n : Z) : string :=
  String (digit_char (n / 10)) (String (digit_char (n mod 10)) "").

Definition pad4 (n : Z) : string :=
  String (digit_char (n / 1000))
    (String (digit_char (n / 100 mod 10))
      (String (digit_char (n / 10 mod 10))
        (String (digit_char (n mod 10)) ""))).

Definition strftime (t : datetime) : string :=
  pad4 (year t) +:+ "-" +:+ pad2 (month t) +:+ "-" +:+ pad2 (day t) +:+ " " +:+
  pad2 (hour t) +:+ ":" +:+ pad2 (minute t) +:+ ":" +:+ pad2 (second t).

(** *** Parsing: [strptime(s, "%Y-%m-%d")]

    [_strptime] compiles the format to the regular expression
    [(\d\d\d\d)-(1[0-2]|0[1-9]|[1-9])-(3[0-1]|[1-2]\d|0[1-9]|[1-9]| [1-9])],
    matches it at the start of the input, rejects leftover input, and then
    builds the date, which rejects year 0 and a day past the month's end.
    Every rejection is a [ValueError]: [None] here.  Digits are the ASCII
    digits. *)

Definition digit_val (c : ascii) : option Z :=
  let n := Z.of_nat (nat_of_ascii c) in
  if (48 <=? n) && (n <=? 57) then Some (n - 48) else None.

(** One regex alternative: the value it captures and the unread input. *)
Definition alt : Type := string -> option (Z * string).

(** Two characters: a digit in [lo1..hi1], then a digit in [lo2..hi2]. *)
Definition two_digits (lo1 hi1 lo2 hi2 : Z) : alt := fun s =>
  match s with
  | String c1 (String c2 rest) =>
      match digit_val c1, digit_val c2 with
      | Some a, Some b =>
          if (lo1 <=? a) && (a <=? hi1) && (lo2 <=? b) && (b <=? hi2)
          then Some (10 * a + b, rest) else None
      | _, _ => None
      end
  | _ => None
  end.

(** One character: a digit in [1..9]. *)
Definition one_digit : alt := fun s =>
  match s with
  | String c rest =>
      match digit_val c with
      | Some a => if (1 <=? a) && (a <=? 9) then Some (a, rest) else None
      | None => None
      end
  | _ => None
  end.

(** A space, then a digit in [1..9]. *)
Definition space_digit : alt := fun s =>
  match s with
  | String " "%char rest => one_digit rest
  | _ => None
  end.

(** Ordered alternation with backtracking into the continuation [k]. *)
Fixpoint first_alt {A} (alts : list alt) (k : Z -> string -> option A)
    (s : string) : option A :=
  match alts with
  | [] => None
  | a :: alts' =>
      match a s with
      | Some (v, rest) =>
          match k v rest with
          | Some r => Some r
          | None => first_alt alts' k s
          end
      | None => first_alt alts' k s
      end
  end.

Definition year_re {A} (k : Z -> string -> option A) (s : string) : option A :=
  match s with
  | String c1 (String c2 (String c3 (String c4 rest))) =>
      match digit_val c1, digit_val c2, digit_val c3, digit_val c4 with
      | Some a, Some b, Some c, Some d =>
          k (1000 * a + 100 * b + 10 * c + d) rest
      | _, _, _, _ => None
      end
  | _ => None
  end.

Definition month_alts : list alt :=
  [two_digits 1 1 0 2; two_digits 0 0 1 9; one_digit].

Definition day_alts : list alt :=
  [two_digits 3 3 0 1; two_digits 1 2 0 9; two_digits 0 0 1 9;
   one_digit; space_digit].

Definition dash {A} (k : string -> option A) (s : string) : option A :=
  match s with
  | String "-"%char rest => k rest
  | _ => None
  end.

(** The regex match: the captured fields and the unread input. *)
Definition match_ymd (s : string) : option (ymd * string) :=
  year_re (fun y s1 =>
    dash (fun s2 =>
      first_alt month_alts (fun m s3 =>
        dash (fun s4 =>
          first_alt day_alts (fun d s5 => Some (mk_ymd y m d, s5)) s4) s3) s2) s1) s.

Definition strptime (s : string) : option ymd :=
  match match_ymd s with
  | Some (r, "") =>
      if (1 <=? y_of r) && (d_of r <=? days_in_month (y_of r) (m_of r))
      then Some r else None
  | _ => None
  end.

(** [a <= b] on [datetime] objects at midnight: field by field. *)
Definition ymd_le (a b : ymd) : bool :=
  (y_of a <? y_of b) ||
  ((y_of a =? y_of b) &&
   ((m_of a <? m_of b) || ((m_of a =? m_of b) && (d_of a <=? d_of b)))).

(** [s[:n]] *)
Definition py_slice_to (n : nat) (s : string) : string := substring 0 n s.

End Clock.
Export Clock.

(* ===================================================================== *)
(** ** The world outside the interpreter *)
(* ===================================================================== *)

Module Sys.

(** Exceptions ([Exception] subclasses) that reach the journal's handlers. *)
Inductive exn : Type :=
| OSError (path : string)
| ValueError (msg : string)
| TypeError (msg : string)
| InvalidToken
| JSONDecodeError
| OtherError (msg : string).

(** Outcome of a call: a value, or an exception on its way up. *)
Inductive result (A : Type) : Type :=
| Ok (a : A)
| Raise (e : exn).
Arguments Ok {A} a.
Arguments Raise {A} e.

(** Lines the store prints. *)
Inductive message : Type :=
| ErrorLoadingJournal (e : exn)
| ErrorSavingJournal (e : exn)
| InvalidDateFormat
| NoMatchingEntries
| SearchTable (rows : list (string * pyval * pyval)).

(** How a write to a path goes wrong: [open(path, 'w')] raises and the file
    is as before, or the file is truncated and the write stops after
    [written] characters. *)
Inductive write_fault : Type :=
| OpenFails
| WriteFails (written : nat).

Record World : Type := mk_World {
  files : gmap string string;              (* path |-> content *)
  read_faults : string -> bool;            (* reading this path raises *)
  write_faults : string -> option write_fault;
  console : list message;                  (* printed so far *)
  clock : nat -> datetime;                 (* answers of datetime.now() *)
  ticks : nat;                             (* how many were consumed *)
  entropy : nat                            (* os.urandom / time.time state *)
}.

Definition with_files (f : gmap string string) (w : World) : World :=
  mk_World f (read_faults w) (write_faults w) (console w)
    (clock w) (ticks w) (entropy w).

Definition with_console (c : list message) (w : World) : World :=
  mk_World (files w) (read_faults w) (write_faults w) c
    (clock w) (ticks w) (entropy w).

Definition with_ticks (n : nat) (w : World) : World :=
  mk_World (files w) (read_faults w) (write_faults w) (console w)
    (clock w) n (entropy w).

Definition with_entropy (n : nat) (w : World) : World :=
  mk_World (files w) (read_faults w) (write_faults w) (console w)
    (clock w) (ticks w) n.

(** *** State and exceptions *)

Definition M (A : Type) : Type := World -> result A * World.

Definition ret {A} (a : A) : M A := fun w => (Ok a, w).

Definition raise {A} (e : exn) : M A := fun w => (Raise e, w).

Definition bind {A B} (c : M A) (k : A -> M B) : M B := fun w =>
  match c w with
  | (Ok a, w') => k a w'
  | (Raise e, w') => (Raise e, w')
  end.

(** [try: c  except Exception as e: h e] *)
Definition try_except {A} (c : M A) (h : exn -> M A) : M A := fun w =>
  match c w with
  | (Ok a, w') => (Ok a, w')
  | (Raise e, w') => h e w'
  end.

Definition lift {A} (r : result A) : M A := fun w => (r, w).

Declare Scope py_scope.
Delimit Scope py_scope with py.
Notation "x <- c ;; k" := (bind c (fun x => k))
  (at level 100, c at next level, right associativity) : py_scope.
Notation "c ;;; k" := (bind c (fun _ => k))
  (at level 100, right associativity) : py_scope.

(** *** System calls *)

(** [os.path.exists(path)] *)
Definition path_exists (path : string) : M bool := fun w =>
  (Ok (bool_decide (is_Some (files w !! path))), w).

(** [with open(path, 'r') as f: f.read()] (and ['rb']) *)
Definition read_file (path : string) : M string := fun w =>
  if read_faults w path then (Raise (OSError path), w)
  else match files w !! path with
       | Some content => (Ok content, w)
       | None => (Raise (OSError path), w)
       end.

(** [with open(path, 'w') as f: f.write(data)] (and ['wb']) *)
Definition write_file (path data : string) : M unit := fun w =>
  match write_faults w path with
  | None => (Ok tt, with_files (<[path := data]> (files w)) w)
  | Some OpenFails => (Raise (OSError path), w)
  | Some (WriteFails n) =>
      (Raise (OSError path),
       with_files (<[path := substring 0 n data]> (files w)) w)
  end.

(** [print(line)] *)
Definition print (line : message) : M unit := fun w =>
  (Ok tt, with_console (console w ++ [line]) w).

(** [datetime.now()] *)
Definition datetime_now : M datetime := fun w =>
  (Ok (clock w (ticks w)), with_ticks (S (ticks w)) w).

(** A draw from the operating system's randomness. *)
Definition draw : M nat := fun w =>
  (Ok (entropy w), with_entropy (S (entropy w)) w).

End Sys.
Export Sys.

(* ===================================================================== *)
(** ** journal.py *)
(* ===================================================================== *)

Module Journal.

Local Open Scope py_scope.

(** The two external libraries, by what the journal calls.
    - [Fernet(key)] raises [ValueError] unless the key is valid;
    - [Fernet.generate_key()] and [encrypt] draw on the system's randomness
      (the [nat] argument); [decrypt] raises [InvalidToken];
    - [json.dumps] and [json.loads] raise on what they cannot handle.
    [fernet_encrypt] and [fernet_decrypt] include the [str.encode()] and
    [bytes.decode()] of [_encrypt] and [_decrypt]. *)
Class Libs : Type := {
  fernet_valid_key : string -> bool;
  fernet_generate_key : nat -> string;
  fernet_encrypt : string -> nat -> string -> result string;
  fernet_decrypt : string -> string -> result string;
  json_dumps : pyval -> result string;
  json_loads : string -> result pyval
}.

(** What the libraries promise: generated keys are valid; under a valid key
    a token is a non-empty string that decrypts to the plaintext; a value
    that is [wf_pyval] is dumped to a text that loads back to the same
    value. *)
Class LibLaws (L : Libs) : Prop := {
  generate_key_valid : forall seed,
    fernet_valid_key (fernet_generate_key seed) = true;
  encrypt_decrypt : forall k seed m,
    fernet_valid_key k = true ->
    exists tok, fernet_encrypt k seed m = Ok tok /\
                tok <> "" /\ fernet_decrypt k tok = Ok m;
  dumps_loads : forall v,
    wf_pyval v = true ->
    exists s, json_dumps v = Ok s /\ json_loads s = Ok v
}.

(** *** class JournalEntry *)

Record JournalEntry : Type := mk_JournalEntry {
  title : pyval;
  content : pyval;
  mood : pyval;
  mood_rating : pyval;
  tags : pyval;
  completed_tasks : pyval;
  forgettable_thing : pyval;
  date : string
}.

(** [JournalEntry.__init__] *)
Definition JournalEntry_init
    (title content mood mood_rating tags completed_tasks forgettable_thing : pyval)
    : M JournalEntry :=
  now <- datetime_now ;;
  ret (mk_JournalEntry title content mood mood_rating
         (if truthy tags then tags else PyList [])
         (if truthy completed_tasks then completed_tasks else PyList [])
         forgettable_thing
         (strftime now)).

(** [JournalEntry.to_dict] *)
Definition to_dict (self : JournalEntry) : pyval :=
  PyDict [ ("title", title self);
           ("content", content self);
           ("mood", mood self);
           ("mood_rating", mood_rating self);
           ("tags", tags self);
           ("completed_tasks", completed_tasks self);
           ("forgettable_thing", forgettable_thing self);
           ("date", PyStr (date self)) ].

(** Parameters of [__init__] after [self]. *)
Definition init_params : list string :=
  ["title"; "content"; "mood"; "mood_rating"; "tags"; "completed_tasks";
   "forgettable_thing"].

(** [JournalEntry] called with [**kw] for a dict [kw]: a key that names no
    parameter is a [TypeError], so is a missing parameter without default. *)
Definition JournalEntry_kwargs (kw : list (string * pyval)) : M JournalEntry :=
  match List.find (fun kv => negb (existsb (String.eqb (fst kv)) init_params)) kw with
  | Some (k, _) =>
      raise (TypeError
               ("JournalEntry.__init__() got an unexpected keyword argument '"
                +:+ k +:+ "'"))
  | None =>
      match dict_get "title" kw, dict_get "content" kw,
            dict_get "mood" kw, dict_get "mood_rating" kw with
      | Some t, Some c, Some m, Some r =>
          JournalEntry_init t c m r
            (default PyNone (dict_get "tags" kw))
            (default PyNone (dict_get "completed_tasks" kw))
            (default PyNone (dict_get "forgettable_thing" kw))
      | _, _, _, _ =>
          raise (TypeError
                   "JournalEntry.__init__() missing required positional arguments")
      end
  end.

(** [JournalEntry] called with [**entry] *)
Definition JournalEntry_splat (entry : pyval) : M JournalEntry :=
  match entry with
  | PyDict kw => JournalEntry_kwargs kw
  | _ => raise (TypeError "argument after ** must be a mapping")
  end.

(** [iter(data)]: what [for entry in data] walks over. *)
Definition py_iter (data : pyval) : result (list pyval) :=
  match data with
  | PyList l => Ok l
  | PyDict d => Ok (map (fun kv => PyStr (fst kv)) d)
  | PyStr s => Ok (map (fun c => PyStr (String c "")) (list_ascii_of_string s))
  | _ => Raise (TypeError "object is not iterable")
  end.

(** The list comprehension over [items]: one constructor call per item, in
    order, stopping at the first that raises. *)
Fixpoint build_entries (items : list pyval) : M (list JournalEntry) :=
  match items with
  | [] => ret []
  | entry :: rest =>
      e <- JournalEntry_splat entry ;;
      es <- build_entries rest ;;
      ret (e :: es)
  end.

(** *** class JournalManager *)

(** The object [Fernet(key)] builds. *)
Record Fernet : Type := mk_Fernet { fernet_key : string }.

Record JournalManager : Type := mk_JournalManager {
  username : string;
  filename : string;
  key : string;
  cipher : Fernet;
  entries : list JournalEntry
}.

Definition set_entries (es : list JournalEntry) (self : JournalManager)
    : JournalManager :=
  mk_JournalManager (username self) (filename self) (key self) (cipher self) es.

(** The store [__init__] builds before it calls [load_entries]. *)
Definition fresh_store (user k : string) : JournalManager :=
  mk_JournalManager user ("journal_" +:+ user +:+ ".json") k (mk_Fernet k) [].

Section WithLibs.
Context {L : Libs}.

(** [Fernet(key)] *)
Definition Fernet_new (k : string) : result Fernet :=
  if fernet_valid_key k then Ok (mk_Fernet k)
  else Raise (ValueError "Fernet key must be 32 url-safe base64-encoded bytes.").

(** [JournalManager._get_or_create_key] *)
Definition _get_or_create_key (username : string) : M string :=
  let key_file := "key_" +:+ username +:+ ".key" in
  ex <- path_exists key_file ;;
  if ex : bool then read_file key_file
  else
    seed <- draw ;;
    let key := fernet_generate_key seed in
    (write_file key_file key ;;;
     ret key).

(** [JournalManager._encrypt] *)
Definition _encrypt (self : JournalManager) (data : string) : M string :=
  seed <- draw ;;
  lift (fernet_encrypt (fernet_key (cipher self)) seed data).

(** [JournalManager._decrypt] *)
Definition _decrypt (self : JournalManager) (data : string) : M string :=
  lift (fernet_decrypt (fernet_key (cipher self)) data).

(** The [try] block of [load_entries]. *)
Definition load_entries_body (self : JournalManager) : M JournalManager :=
  ex <- path_exists (filename self) ;;
  if ex : bool then
    encrypted_data <- read_file (filename self) ;;
    if negb (String.eqb encrypted_data "") then
      decrypted_data <- _decrypt self encrypted_data ;;
      data <- lift (json_loads decrypted_data) ;;
      items <- lift (py_iter data) ;;
      es <- build_entries items ;;
      ret (set_entries es self)
    else ret (set_entries [] self)
  else ret self.

(** [JournalManager.load_entries] *)
Definition load_entries (self : JournalManager) : M JournalManager :=
  try_except (load_entries_body self)
    (fun e => print (ErrorLoadingJournal e) ;;;
              ret (set_entries [] self)).

(** The [try] block of [save_entries]. *)
Definition save_entries_body (self : JournalManager) : M unit :=
  data <- lift (json_dumps (PyList (map to_dict (entries self)))) ;;
  encrypted_data <- _encrypt self data ;;
  (write_file (filename self) encrypted_data ;;;
   let backup_file := "backup_" +:+ filename self in
   write_file backup_file encrypted_data).

(** [JournalManager.save_entries] *)
Definition save_entries (self : JournalManager) : M unit :=
  try_except (save_entries_body self)
    (fun e => print (ErrorSavingJournal e)).

(** [JournalManager.__init__] *)
Definition JournalManager_init (username : string) : M JournalManager :=
  let filename := "journal_" +:+ username +:+ ".json" in
  key <- _get_or_create_key username ;;
  cipher <- lift (Fernet_new key) ;;
  load_entries (mk_JournalManager username filename key cipher []).

(** [main] opens the store with [JournalManager(username)] outside any
    [try]: an exception [__init__] lets through ends the process. *)
Definition main_opens_store (username : string) : M JournalManager :=
  JournalManager_init username.

(** [JournalManager.add_entry]; the method returns [None]. *)
Definition add_entry (self : JournalManager) (entry : JournalEntry)
    : M JournalManager :=
  let self' := set_entries (entries self ++ [entry]) self in
  (save_entries self' ;;;
   ret self').

(** [JournalManager.edit_entry]: the returned flag and the manager after
    the call. *)
Definition edit_entry (self : JournalManager) (index : Z)
    (new_entry : JournalEntry) : M (bool * JournalManager) :=
  if (0 <=? index) && (index <? Z.of_nat (length (entries self))) then
    let self' :=
      set_entries (<[Z.to_nat index := new_entry]> (entries self)) self in
    (save_entries self' ;;;
     ret (true, self'))
  else ret (false, self).

(** [JournalManager.delete_entry] *)
Definition delete_entry (self : JournalManager) (index : Z)
    : M (bool * JournalManager) :=
  if (0 <=? index) && (index <? Z.of_nat (length (entries self))) then
    let self' :=
      set_entries (delete (Z.to_nat index) (entries self)) self in
    (save_entries self' ;;;
     ret (true, self'))
  else ret (false, self).

End WithLibs.

(** *** search_entries, option 2 (by date range) *)

(** [datetime.strptime(entry.date[:10], "%Y-%m-%d")] *)
Definition entry_day (entry : JournalEntry) : option ymd :=
  strptime (py_slice_to 10 (date entry)).

(** The comprehension
    [[entry for entry in self.entries
       if start <= datetime.strptime(entry.date[:10], "%Y-%m-%d") <= end]]. *)
Fixpoint entries_between (start end_ : ymd) (es : list JournalEntry)
    : result (list JournalEntry) :=
  match es with
  | [] => Ok []
  | entry :: rest =>
      match entry_day entry with
      | None => Raise (ValueError "time data does not match format")
      | Some d =>
          match entries_between start end_ rest with
          | Ok found =>
              Ok (if ymd_le start d && ymd_le d end_ then entry :: found
                  else found)
          | Raise e => Raise e
          end
      end
  end.

(** The [try] block of option 2: [found], or the [ValueError]. *)
Definition date_range_found (self : JournalManager)
    (start_date end_date : string) : result (list JournalEntry) :=
  match strptime start_date with
  | None => Raise (ValueError "time data does not match format")
  | Some start =>
      match strptime end_date with
      | None => Raise (ValueError "time data does not match format")
      | Some end_ => entries_between start end_ (entries self)
      end
  end.

(** [search_entries] when the user picks option 2 and types [start_date]
    and [end_date]: the method prints and returns [None]. *)
Definition search_entries_by_date (self : JournalManager)
    (start_date end_date : string) : M unit :=
  match date_range_found self start_date end_date with
  | Raise _ => print InvalidDateFormat
  | Ok [] => print NoMatchingEntries
  | Ok found =>
      print (SearchTable
               (map (fun e => (date e, title e, mood e)) found))
  end.

(** *** Vocabulary of the specification *)

(** Number of keys of a record. *)
Definition record_size (v : pyval) : nat :=
  match v with
  | PyDict d => length d
  | _ => O
  end.

(** [record[k]] *)
Definition record_get (k : string) (v : pyval) : option pyval :=
  match v with
  | PyDict d => dict_get k d
  | _ => None
  end.

Definition is_digit (c : ascii) : bool :=
  match digit_val c with Some _ => true | None => false end.

(** The text has the form [YYYY-MM-DD HH:MM:SS]. *)
Definition is_timestamp (s : string) : bool :=
  match s with
  | String y1 (String y2 (String y3 (String y4 (String "-"%char
      (String m1 (String m2 (String "-"%char
        (String d1 (String d2 (String " "%char
          (String h1 (String h2 (String ":"%char
            (String n1 (String n2 (String ":"%char
              (String s1 (String s2 "")))))))))))))))))) =>
      forallb is_digit [y1; y2; y3; y4; m1; m2; d1; d2; h1; h2; n1; n2; s1; s2]
  | _ => false
  end.

(** An entry whose [date] the constructor wrote from a valid reading of
    the clock. *)
Definition constructed (entry : JournalEntry) : Prop :=
  exists t, valid_datetime t = true /\ date entry = strftime t.

(** Every reading of the clock is a valid timestamp. *)
Definition sane_clock (w : World) : Prop :=
  forall n, valid_datetime (clock w n) = true.

(** [start <= day <= end] *)
Definition within (start end_ : ymd) (entry : JournalEntry) : bool :=
  match entry_day entry with
  | Some d => ymd_le start d && ymd_le d end_
  | None => false
  end.

End Journal.
Export Journal.

(* ===================================================================== *)
(** ** A reference implementation of the library interface *)
(* ===================================================================== *)

(** Stand-ins with the interface of [Libs], simple enough to run inside
    Rocq: they show that [LibLaws] can be met and let the model be evaluated
    on concrete worlds.  A key is valid when it has the shape of
    [Fernet.generate_key()]'s output (43 characters of the url-safe base64
    alphabet and one padding character); a token is the key followed by the
    plaintext; the text of a value is its [Countable] code in binary. *)
Module Reference.

Definition is_b64url (c : ascii) : bool :=
  let n := nat_of_ascii c in
  ((65 <=? n) && (n <=? 90) || (97 <=? n) && (n <=? 122) ||
   (48 <=? n) && (n <=? 57) || (n =? 45) || (n =? 95))%nat.

Fixpoint valid_key_chars (n : nat) (s : string) : bool :=
  match n, s with
  | O, String "="%char "" => true
  | S n', String c s' => is_b64url c && valid_key_chars n' s'
  | _, _ => false
  end.

Definition ref_valid_key (k : string) : bool := valid_key_chars 43 k.

Fixpoint repeat_char (n : nat) (c : ascii) (tail : string) : string :=
  match n with
  | O => tail
  | S n' => String c (repeat_char n' c tail)
  end.

Definition ref_generate_key (seed : nat) : string :=
  repeat_char 43 (if Nat.even seed then "A"%char else "k"%char) "=".

Definition ref_encrypt (k : string) (seed : nat) (m : string) : result string :=
  Ok (k +:+ m).

Fixpoint strip_prefix (p s : string) : option string :=
  match p, s with
  | "", _ => Some s
  | String a p', String b s' =>
      if Ascii.eqb a b then strip_prefix p' s' else None
  | _, _ => None
  end.

Definition ref_decrypt (k : string) (tok : string) : result string :=
  match strip_prefix k tok with
  | Some m => Ok m
  | None => Raise InvalidToken
  end.

(** Values as generic trees, which stdpp knows how to count. *)
Definition leaf : Type := unit + bool + Z + Z + string.

Fixpoint to_tree (v : pyval) : gen_tree leaf :=
  match v with
  | PyNone => GenLeaf (inl (inl (inl (inl tt))))
  | PyBool b => GenLeaf (inl (inl (inl (inr b))))
  | PyInt n => GenLeaf (inl (inl (inr n)))
  | PyFloat bits => GenLeaf (inl (inr bits))
  | PyStr s => GenLeaf (inr s)
  | PyList l => GenNode 0 (map to_tree l)
  | PyDict d =>
      GenNode 1
        (map (fun kv => GenNode 2 [GenLeaf (inr (fst kv)); to_tree (snd kv)]) d)
  end.

Fixpoint of_tree (t : gen_tree leaf) : option pyval :=
  match t with
  | GenLeaf (inl (inl (inl (inl tt)))) => Some PyNone
  | GenLeaf (inl (inl (inl (inr b)))) => Some (PyBool b)
  | GenLeaf (inl (inl (inr n))) => Some (PyInt n)
  | GenLeaf (inl (inr bits)) => Some (PyFloat bits)
  | GenLeaf (inr s) => Some (PyStr s)
  | GenNode 0 ts => PyList <$> mapM of_tree ts
  | GenNode 1 ts =>
      PyDict <$>
        mapM (fun t' =>
                match t' with
                | GenNode 2 [GenLeaf (inr k); tv] =>
                    (fun v => (k, v)) <$> of_tree tv
                | _ => None
                end) ts
  | _ => None
  end.

Fixpoint pos_to_bits (p : positive) : string :=
  match p with
  | xH => ""
  | xO p' => String "0"%char (pos_to_bits p')
  | xI p' => String "1"%char (pos_to_bits p')
  end.

Fixpoint bits_to_pos (s : string) : option positive :=
  match s with
  | "" => Some xH
  | String "0"%char s' => xO <$> bits_to_pos s'
  | String "1"%char s' => xI <$> bits_to_pos s'
  | _ => None
  end.

Definition ref_dumps (v : pyval) : result string :=
  Ok (pos_to_bits (encode (to_tree v))).

Definition ref_loads (s : string) : result pyval :=
  match bits_to_pos s with
  | Some p =>
      match @decode (gen_tree leaf) _ _ p with
      | Some t =>
          match of_tree t with
          | Some v => Ok v
          | None => Raise JSONDecodeError
          end
      | None => Raise JSONDecodeError
      end
  | None => Raise JSONDecodeError
  end.

#[export] Instance ref_libs : Libs := {|
  fernet_valid_key := ref_valid_key;
  fernet_generate_key := ref_generate_key;
  fernet_encrypt := ref_encrypt;
  fernet_decrypt := ref_decrypt;
  json_dumps := ref_dumps;
  json_loads := ref_loads
|}.

End Reference.

(* ===================================================================== *)
(** ** Sample journals *)
(* ===================================================================== *)

(** Concrete stores and worlds on which the theorems below are exercised,
    run with the reference libraries. *)
Module Samples.
Import Reference.

Definition noon : datetime := mk_datetime 2024 3 7 12 0 0.

Definition entry_A : JournalEntry :=
  mk_JournalEntry (PyStr "A") (PyStr "first day") (PyStr "happy") (PyInt 8)
    (PyList [PyStr "work"]) (PyList []) PyNone "2024-03-07 09:05:00".

Definition entry_B : JournalEntry :=
  mk_JournalEntry (PyStr "B") (PyStr "second day") (PyStr "sad") (PyInt 2)
    (PyList []) (PyList [PyStr "laundry"]) (PyStr "the rain")
    "2024-03-09 18:30:00".

Definition key_A : string := ref_generate_key 0.

(** The store of user [ann] holding [entries]. *)
Definition ann (es : list JournalEntry) : JournalManager :=
  mk_JournalManager "ann" "journal_ann.json" key_A (mk_Fernet key_A) es.

(** A healthy machine with the given files. *)
Definition machine (fs : gmap string string) : World :=
  mk_World fs (fun _ => false) (fun _ => None) [] (fun _ => noon) 0 0.


(** The same machine, where the disk fills up while [path] is written. *)
Definition disk_full (path : string) (fs : gmap string string) : World :=
  mk_World fs (fun _ => false)
    (fun p => if String.eqb p path then Some (WriteFails 3) else None)
    [] (fun _ => noon) 0 0.

(** The same machine, where reading [path] fails. *)
Definition unreadable (path : string) (fs : gmap string string) : World :=
  mk_World fs (fun p => String.eqb p path) (fun _ => None)
    [] (fun _ => noon) 0 0.

Definition ann_key_file : gmap string string := {[ "key_ann.key" := key_A ]}.

Definition ann_corrupt_key : gmap string string :=
  {[ "key_ann.key" := "not a key" ]}.

Definition ann_garbled_journal : gmap string string :=
  <[ "journal_ann.json" := "garbage" ]> ann_key_file.


End Samples.

(* ===================================================================== *)
(** ** Records that fit the constructor *)
(* ===================================================================== *)

Module Records.

(** A dict that [JournalEntry] accepts as keyword arguments: every key names
    a parameter, and the four parameters without default are there. *)
Definition fits (kw : list (string * pyval)) : bool :=
  forallb (fun kv => existsb (String.eqb (fst kv)) init_params) kw &&
  match dict_get "title" kw, dict_get "content" kw,
        dict_get "mood" kw, dict_get "mood_rating" kw with
  | Some _, Some _, Some _, Some _ => true
  | _, _, _, _ => false
  end.

(** [d.get(k)], with [None] for a missing key. *)
Definition get_or_none (k : string) (kw : list (string * pyval)) : pyval :=
  default PyNone (dict_get k kw).

(** The entry the constructor makes of such a dict at time [t]. *)
Definition entry_from (kw : list (string * pyval)) (t : datetime)
    : JournalEntry :=
  mk_JournalEntry
    (get_or_none "title" kw) (get_or_none "content" kw)
    (get_or_none "mood" kw) (get_or_none "mood_rating" kw)
    (if truthy (get_or_none "tags" kw)
     then get_or_none "tags" kw else PyList [])
    (if truthy (get_or_none "completed_tasks" kw)
     then get_or_none "completed_tasks" kw else PyList [])
    (get_or_none "forgettable_thing" kw)
    (strftime t).

(** The entries made of [records], one reading of the clock each, starting
    at reading [n]. *)
Fixpoint entries_from (clock : nat -> datetime) (n : nat)
    (records : list (list (string * pyval))) : list JournalEntry :=
  match records with
  | [] => []
  | kw :: rest => entry_from kw (clock n) :: entries_from clock (S n) rest
  end.

End Records.
Export Records.

(* ===================================================================== *)
(** ** Python string methods *)
(* ===================================================================== *)

(** The [str] methods the forms of the journal call, on texts of Latin-1
    characters (a character is its code point, 0 to 255). *)
Module PyStrings.

Definition code (c : ascii) : nat := nat_of_ascii c.

Definition among (codes : list nat) (c : ascii) : bool :=
  existsb (Nat.eqb (code c)) codes.

(** [c.isspace()]: what [str.strip()] removes. *)
Definition is_space : ascii -> bool :=
  among [9; 10; 11; 12; 13; 28; 29; 30; 31; 32; 133; 160]%nat.

(** What [int(s)] skips around the number. *)
Definition is_int_space : ascii -> bool :=
  among [9; 10; 11; 12; 13; 32; 133; 160]%nat.

Fixpoint lstrip_with (p : ascii -> bool) (s : string) : string :=
  match s with
  | String c rest => if p c then lstrip_with p rest else s
  | "" => ""
  end.

Fixpoint rstrip_with (p : ascii -> bool) (s : string) : string :=
  match s with
  | String c rest =>
      match rstrip_with p rest with
      | "" => if p c then "" else String c ""
      | kept => String c kept
      end
  | "" => ""
  end.

(** [s.strip()] *)
Definition strip (s : string) : string :=
  rstrip_with is_space (lstrip_with is_space s).

(** [s.split(sep)] for a one-character separator. *)
Fixpoint split_on (sep : ascii) (s : string) : list string :=
  match s with
  | "" => [""]
  | String c rest =>
      if Ascii.eqb c sep then "" :: split_on sep rest
      else match split_on sep rest with
           | piece :: pieces => String c piece :: pieces
           | [] => [String c ""]
           end
  end.

(** [sep.join(pieces)] *)
Fixpoint join (sep : string) (pieces : list string) : string :=
  match pieces with
  | [] => ""
  | [piece] => piece
  | piece :: rest => piece +:+ sep +:+ join sep rest
  end.

Definition lower_char (c : ascii) : ascii :=
  let n := code c in
  if ((65 <=? n) && (n <=? 90) ||
      (192 <=? n) && (n <=? 222) && negb (n =? 215))%nat
  then ascii_of_nat (n + 32) else c.

(** [s.lower()] *)
Fixpoint lower (s : string) : string :=
  match s with
  | "" => ""
  | String c rest => String (lower_char c) (lower rest)
  end.

Fixpoint starts_with (prefix s : string) : bool :=
  match prefix, s with
  | "", _ => true
  | String a p, String b r => Ascii.eqb a b && starts_with p r
  | _, "" => false
  end.

(** [needle in haystack] *)
Fixpoint contains (needle haystack : string) : bool :=
  starts_with needle haystack ||
  match haystack with
  | "" => false
  | String _ rest => contains needle rest
  end.

(** The digits of [int(s)]: a digit, then digits, each optionally preceded
    by one underscore.  Returns the value and the number of digits. *)
Fixpoint int_digits (acc : Z) (count : nat) (s : string) : option (Z * nat) :=
  match s with
  | "" => Some (acc, count)
  | String c rest =>
      match digit_val c with
      | Some d => int_digits (10 * acc + d) (S count) rest
      | None =>
          if Ascii.eqb c "_" then
            match rest with
            | String c' _ =>
                match digit_val c' with
                | Some _ => int_digits acc count rest
                | None => None
                end
            | "" => None
            end
          else None
      end
  end.

Definition int_unsigned (s : string) : option Z :=
  match s with
  | String c _ =>
      match digit_val c with
      | Some _ =>
          match int_digits 0 0 s with
          | Some (v, count) => if (count <=? 4300)%nat then Some v else None
          | None => None
          end
      | None => None
      end
  | "" => None
  end.

(** [int(s)] for a [str]; [None] is [ValueError]. *)
Definition py_int (s : string) : option Z :=
  match rstrip_with is_int_space (lstrip_with is_int_space s) with
  | String "+" rest => int_unsigned rest
  | String "-" rest => Z.opp <$> int_unsigned rest
  | body => int_unsigned body
  end.

End PyStrings.
Export PyStrings.

(* ===================================================================== *)
(** ** search_entries, options 1 and 3 *)
(* ===================================================================== *)

Module Queries.

(** [v.lower()]: only a [str] has the method. *)
Definition py_lower (v : pyval) : result string :=
  match v with
  | PyStr s => Ok (lower s)
  | _ => Raise (OtherError "AttributeError: object has no attribute 'lower'")
  end.

(** [[t.lower() for t in items]] *)
Fixpoint lower_all (items : list pyval) : result (list string) :=
  match items with
  | [] => Ok []
  | t :: rest =>
      match py_lower t with
      | Raise e => Raise e
      | Ok t' =>
          match lower_all rest with
          | Raise e => Raise e
          | Ok rest' => Ok (t' :: rest')
          end
      end
  end.

(** [x in names] for a list of [str] *)
Definition among_names (x : string) (names : list string) : bool :=
  existsb (String.eqb x) names.

(** Option 1:
    [[entry for entry in self.entries if mood.lower() in entry.mood.lower()]],
    with [needle] for [mood.lower()]. *)
Fixpoint mood_matches (needle : string) (es : list JournalEntry)
    : result (list JournalEntry) :=
  match es with
  | [] => Ok []
  | entry :: rest =>
      match py_lower (mood entry) with
      | Raise e => Raise e
      | Ok m =>
          match mood_matches needle rest with
          | Ok found => Ok (if contains needle m then entry :: found else found)
          | Raise e => Raise e
          end
      end
  end.

Definition mood_found (self : JournalManager) (mood : string)
    : result (list JournalEntry) :=
  mood_matches (lower mood) (entries self).

(** [tag.lower() in [t.lower() for t in entry.tags]], with [needle] for
    [tag.lower()]. *)
Definition has_tag (needle : string) (entry : JournalEntry) : result bool :=
  match py_iter (tags entry) with
  | Raise e => Raise e
  | Ok items =>
      match lower_all items with
      | Raise e => Raise e
      | Ok names => Ok (among_names needle names)
      end
  end.

(** Option 3. *)
Fixpoint tag_matches (needle : string) (es : list JournalEntry)
    : result (list JournalEntry) :=
  match es with
  | [] => Ok []
  | entry :: rest =>
      match has_tag needle entry with
      | Raise e => Raise e
      | Ok hit =>
          match tag_matches needle rest with
          | Ok found => Ok (if hit then entry :: found else found)
          | Raise e => Raise e
          end
      end
  end.

Definition tag_found (self : JournalManager) (tag : string)
    : result (list JournalEntry) :=
  tag_matches (lower tag) (entries self).

(** *** Vocabulary *)

(** The entry's mood is the text [m]. *)
Definition mood_is (m : string) (entry : JournalEntry) : Prop :=
  mood entry = PyStr m.

(** The entry's tags are the texts [names], in this order. *)
Definition tags_are (names : list string) (entry : JournalEntry) : Prop :=
  tags entry = PyList (map PyStr names).

End Queries.
Export Queries.

(* ===================================================================== *)
(** ** The diagnostic of load_entries on stdout *)
(* ===================================================================== *)

(** Python's [print] encodes its text for stdout and raises
    [UnicodeEncodeError] when the encoding of stdout lacks a character of
    the text.  [Sys.print] above is the print to a stdout that has every
    character.  The line [load_entries] prints from its handler carries the
    text of the exception, and with it characters read from the journal
    file; here are [load_entries] and [__init__] with that print on a
    stdout that may lack characters. *)
Module Stdout.

Local Open Scope py_scope.

(** The characters the encoding of stdout has.  Characters are Latin-1 code
    points: UTF-8 has them all (what it lacks, the lone surrogates, lies
    beyond them), ASCII has those below 128, cp1252 lacks five. *)
Class Encoder : Type := { encodes : ascii -> bool }.

Definition utf8_stdout : Encoder := {| encodes := fun _ => true |}.


Definition cp1252_stdout : Encoder :=
  {| encodes := fun c => negb (among [129; 141; 143; 144; 157]%nat c) |}.


(** stdout can encode the text. *)
Definition printable {E : Encoder} (text : string) : bool :=
  forallb encodes (list_ascii_of_string text).

Definition UnicodeEncodeError : exn := OtherError "UnicodeEncodeError".

(** *** repr of a str *)

(** [c.isprintable()] *)
Definition is_printable (c : ascii) : bool :=
  let n := code c in
  ((32 <=? n) && (n <=? 126) || (161 <=? n) && negb (n =? 173))%nat.

Definition hex_digit (n : nat) : ascii :=
  nth n (list_ascii_of_string "0123456789abcdef") "0"%char.

(** One character inside [repr(s)], [quote] being the quote around it. *)
Definition repr_char (quote c : ascii) : string :=
  if Ascii.eqb c "\"%char then "\\"
  else if Ascii.eqb c quote then String "\"%char (String quote "")
  else if Ascii.eqb c "009"%char then "\t"
  else if Ascii.eqb c "010"%char then "\n"
  else if Ascii.eqb c "013"%char then "\r"
  else if is_printable c then String c ""
  else String "\"%char
         (String "x"%char
            (String (hex_digit (code c / 16))
               (String (hex_digit (code c mod 16)) ""))).

Fixpoint repr_chars (quote : ascii) (s : string) : string :=
  match s with
  | "" => ""
  | String c rest => repr_char quote c +:+ repr_chars quote rest
  end.

(** [repr(s)]: single quotes, unless [s] has a single quote and no double
    one. *)
Definition py_repr (s : string) : string :=
  let quote :=
    if contains "'" s && negb (contains (String "034"%char "") s)
    then "034"%char else "'"%char in
  String quote (repr_chars quote s +:+ String quote "").

(** *** The text of the diagnostic *)

(** [str(e)].  An [OSError] shows its number and text, which are ASCII and
    not told apart here, and the [repr] of the file name; the
    [JSONDecodeError]s of [json] show a fixed text and a position;
    [InvalidToken] has no text. *)
Definition str_exn (e : exn) : string :=
  match e with
  | OSError path => "[Errno] " +:+ py_repr path
  | ValueError msg => msg
  | TypeError msg => msg
  | InvalidToken => ""
  | JSONDecodeError => "Expecting value: line 1 column 1 (char 0)"
  | OtherError msg => msg
  end.

(** [Fore.RED + f"Error loading journal: {str(e)}"] *)
Definition loading_text (e : exn) : string :=
  String "027"%char "[31m" +:+ "Error loading journal: " +:+ str_exn e.

Section WithLibs.
Context {L : Libs} {E : Encoder}.

(** [print(text)], which shows [line]. *)
Definition print (text : string) (line : message) : M unit := fun w =>
  if printable text then Sys.print line w
  else (Raise UnicodeEncodeError, w).

(** [JournalManager.load_entries] *)
Definition load_entries (self : JournalManager) : M JournalManager :=
  try_except (load_entries_body self)
    (fun e => print (loading_text e) (ErrorLoadingJournal e) ;;;
              ret (set_entries [] self)).

(** [JournalManager.__init__] *)
Definition JournalManager_init (username : string) : M JournalManager :=
  let filename := "journal_" +:+ username +:+ ".json" in
  key <- _get_or_create_key username ;;
  cipher <- lift (Fernet_new key) ;;
  load_entries (mk_JournalManager username filename key cipher []).

(** [main] calls [JournalManager(username)] outside any [try]. *)
Definition main_opens_store (username : string) : M JournalManager :=
  JournalManager_init username.

End WithLibs.

End Stdout.

(* ===================================================================== *)
(** ** The terminal *)
(* ===================================================================== *)

(** The forms of the journal talk to a person: they print lines and read
    typed lines.  A session is the world of the store, the lines that will
    be typed, and the lines printed by the forms (colour codes left out; the
    store's own diagnostics stay on the world's console). *)
Module Terminal.

Inductive line : Type :=
| Say (text : string)                              (* print of a literal *)
| SayWith (text : string) (values : list pyval)    (* print of an f-string *)
| Ask (prompt : string)                            (* prompt of input() *)
| AskWith (prompt : string) (values : list pyval)
| Table (rows : list (list pyval)).                (* print(table) *)

Record Session : Type := mk_Session {
  world : World;
  keyboard : list string;
  screen : list line
}.

Definition T (A : Type) : Type := Session -> result A * Session.

Definition tret {A} (a : A) : T A := fun s => (Ok a, s).

Definition traise {A} (e : exn) : T A := fun s => (Raise e, s).

Definition tbind {A B} (c : T A) (k : A -> T B) : T B := fun s =>
  match c s with
  | (Ok a, s') => k a s'
  | (Raise e, s') => (Raise e, s')
  end.

Definition tlift {A} (r : result A) : T A := fun s => (r, s).

(** A call into the store. *)
Definition in_store {A} (c : M A) : T A := fun s =>
  let (r, w') := c (world s) in
  (r, mk_Session w' (keyboard s) (screen s)).

(** [try: c  except ValueError: h] *)
Definition except_ValueError {A} (c : T A) (h : T A) : T A := fun s =>
  match c s with
  | (Raise (ValueError _), s') => h s'
  | other => other
  end.

Declare Scope term_scope.
Delimit Scope term_scope with term.
Notation "x <- c ;; k" := (tbind c (fun x => k))
  (at level 100, c at next level, right associativity) : term_scope.
Notation "c ;;; k" := (tbind c (fun _ => k))
  (at level 100, right associativity) : term_scope.

(** [print(..)] *)
Definition say (l : line) : T unit := fun s =>
  (Ok tt, mk_Session (world s) (keyboard s) (screen s ++ [l])).

Definition EOFError : exn := OtherError "EOFError".

(** [input(prompt)] and [getpass.getpass(prompt)]: the prompt is shown and
    the next typed line is returned; with no line left, [EOFError]. *)
Definition prompt_for (p : line) : T string := fun s =>
  match keyboard s with
  | [] => (Raise EOFError, mk_Session (world s) [] (screen s ++ [p]))
  | typed :: rest => (Ok typed, mk_Session (world s) rest (screen s ++ [p]))
  end.

Definition input (prompt : string) : T string := prompt_for (Ask prompt).

Definition input_with (prompt : string) (values : list pyval) : T string :=
  prompt_for (AskWith prompt values).

(** [int(typed)] *)
Definition to_int (typed : string) : T Z :=
  match py_int typed with
  | Some n => tret n
  | None => traise (ValueError "invalid literal for int() with base 10")
  end.

(** [while True: body], where [body] answers [Some a] to leave the loop
    with [a] and [None] to go round again.  Every loop of the journal reads
    a typed line each time round, so it goes round at most once per line
    left to type, and once more to meet the end of the input. *)
Fixpoint loop {A} (rounds : nat) (body : T (option A)) : T A := fun s =>
  match rounds with
  | O => (Raise EOFError, s)
  | S n =>
      match body s with
      | (Ok (Some a), s') => (Ok a, s')
      | (Ok None, s') => loop n body s'
      | (Raise e, s') => (Raise e, s')
      end
  end.

Definition while_true {A} (body : T (option A)) : T A := fun s =>
  loop (S (length (keyboard s))) body s.

Definition getpass (prompt : string) : T string := prompt_for (Ask prompt).

(** [while cond(x): x = body(x)], for the loops that read a typed line
    each time round. *)
Fixpoint while_rounds {X} (rounds : nat) (cond : X -> bool)
    (body : X -> T X) (x : X) : T X := fun s =>
  if cond x then
    match rounds with
    | O => (Raise EOFError, s)
    | S n =>
        match body x s with
        | (Ok x', s') => while_rounds n cond body x' s'
        | (Raise e, s') => (Raise e, s')
        end
    end
  else (Ok x, s).

Definition while_ {X} (cond : X -> bool) (body : X -> T X) (x : X) : T X :=
  fun s => while_rounds (S (length (keyboard s))) cond body x s.

(** *** Vocabulary *)

(** A step that only talks: whatever it reads and prints, it leaves the
    world as it is. *)
Definition quiet {A} (c : T A) : Prop :=
  forall s, world (snd (c s)) = world s.

(** A body reads: a round after which the loop goes on has taken a typed
    line. *)
Definition reads {A} (body : T (option A)) : Prop :=
  forall s s', body s = (Ok None, s') ->
    (length (keyboard s') < length (keyboard s))%nat.

(** A step takes typed lines and never gives one back. *)
Definition takes {A} (c : T A) : Prop :=
  forall s, (length (keyboard (snd (c s))) <= length (keyboard s))%nat.

(** A step removes no file and changes none: every file is still there
    after it, with its content. *)
Definition spares_files {A} (c : T A) : Prop :=
  forall s, files (world s) ⊆ files (world (snd (c s))).

(** Whenever the step returns, what it returns is as [P] says. *)
Definition returns_only {A} (c : T A) (P : A -> Prop) : Prop :=
  forall s a s', c s = (Ok a, s') -> P a.

(** A result is a value or a [TypeError]. *)
Definition fails_by_type {A} (r : result A) : Prop :=
  match r with
  | Ok _ => True
  | Raise e => exists msg, e = TypeError msg
  end.

(** A step that prints and then returns or raises a [TypeError]: it reads
    nothing and leaves the world as it is. *)
Definition shows {A} (c : T A) : Prop :=
  forall s, exists r lines,
    c s = (r, mk_Session (world s) (keyboard s) (screen s ++ lines)) /\
    fails_by_type r.

(** A step that only prints: it returns normally, reads nothing and
    leaves the world as it is. *)
Definition prints {A} (c : T A) : Prop :=
  forall s, exists a lines,
    c s = (Ok a, mk_Session (world s) (keyboard s) (screen s ++ lines)).

End Terminal.
Export Terminal.

(* ===================================================================== *)
(** ** The forms of journal.py *)
(* ===================================================================== *)

(** [display], [view_all_entries], [_get_valid_rating], [get_random_quote]
    and the functions of the menu.  Printed texts are the source's, without
    colour codes and leading blank lines. *)
Module App.

Local Open Scope term_scope.

(** *** Operators on Python values *)

Definition float_sign (bits : Z) : bool := 2 ^ 63 <=? bits mod 2 ^ 64.
Definition float_exponent (bits : Z) : Z := (bits / 2 ^ 52) mod 2 ^ 11.
Definition float_fraction (bits : Z) : Z := bits mod 2 ^ 52.

(** The value of a finite float, times [2 ^ 1075]. *)
Definition float_scaled (bits : Z) : Z :=
  let magnitude :=
    if float_exponent bits =? 0 then 2 * float_fraction bits
    else (2 ^ 52 + float_fraction bits) * 2 ^ float_exponent bits in
  if float_sign bits then - magnitude else magnitude.

Definition float_lt_int (bits n : Z) : bool :=
  if float_is_nan bits then false
  else if float_exponent bits =? 2047 then float_sign bits
  else float_scaled bits <? n * 2 ^ 1075.

Definition float_gt_int (bits n : Z) : bool :=
  if float_is_nan bits then false
  else if float_exponent bits =? 2047 then negb (float_sign bits)
  else n * 2 ^ 1075 <? float_scaled bits.

(** [v < n] and [v > n] for an [int] literal [n]. *)
Definition py_lt (v : pyval) (n : Z) : result bool :=
  match v with
  | PyInt a => Ok (a <? n)
  | PyBool b => Ok ((if b then 1 else 0) <? n)
  | PyFloat bits => Ok (float_lt_int bits n)
  | _ => Raise (TypeError "'<' not supported between these instances")
  end.

Definition py_gt (v : pyval) (n : Z) : result bool :=
  match v with
  | PyInt a => Ok (n <? a)
  | PyBool b => Ok (n <? (if b then 1 else 0))
  | PyFloat bits => Ok (float_gt_int bits n)
  | _ => Raise (TypeError "'>' not supported between these instances")
  end.

(** ["text" + v] *)
Definition str_plus (v : pyval) : result string :=
  match v with
  | PyStr s => Ok s
  | _ => Raise (TypeError "can only concatenate str to str")
  end.

Fixpoint all_str (items : list pyval) : result (list string) :=
  match items with
  | [] => Ok []
  | PyStr s :: rest =>
      match all_str rest with
      | Ok names => Ok (s :: names)
      | Raise e => Raise e
      end
  | _ :: _ => Raise (TypeError "sequence item: expected str instance")
  end.

(** [sep.join(v)] *)
Definition py_join (sep : string) (v : pyval) : result string :=
  match py_iter v with
  | Raise e => Raise e
  | Ok items =>
      match all_str items with
      | Ok names => Ok (join sep names)
      | Raise e => Raise e
      end
  end.

(** [(content[:50] + '...') if len(content) > 50 else content], then
    ["Preview: " + preview]: only a [str] gets through (for a dict of more
    than 50 keys the slice fails, with a [TypeError] up to Python 3.11). *)
Definition preview_of (content : pyval) : result string :=
  match content with
  | PyStr s =>
      Ok (if (50 <? String.length s)%nat then substring 0 50 s +:+ "..."
          else s)
  | _ => Raise (TypeError "can only concatenate str to str")
  end.

(** [content[:20]] inside a prompt (the slice of a dict fails with a
    [TypeError] up to Python 3.11). *)
Definition py_slice_20 (content : pyval) : result pyval :=
  match content with
  | PyStr s => Ok (PyStr (substring 0 20 s))
  | PyList l => Ok (PyList (take 20 l))
  | _ => Raise (TypeError "object is not subscriptable")
  end.

(** [typed or current] *)
Definition typed_or (typed : string) (current : pyval) : pyval :=
  if String.eqb typed "" then current else PyStr typed.

(** [[piece.strip() for piece in typed.split(',')] if typed else current] *)
Definition pieces_or (typed : string) (current : pyval) : pyval :=
  if String.eqb typed "" then current
  else PyList (map (fun piece => PyStr (strip piece)) (split_on "," typed)).

Definition rule : string :=
  "==================================================".

(** *** JournalEntry.display *)

Fixpoint say_tasks (i : Z) (tasks : list pyval) : T unit :=
  match tasks with
  | [] => tret tt
  | task :: rest =>
      (say (SayWith "{i}. {task}" [PyInt i; task]) ;;;
       say_tasks (i + 1) rest)
  end.

Definition display (self : JournalEntry) (show_full : bool) : T unit :=
  (say (Say rule) ;;;
   say (SayWith "Title: {self.title}" [title self]) ;;;
   say (SayWith "Date: {self.date}" [PyStr (date self)]) ;;;
   say (SayWith "Mood: {self.mood} (Rating: {self.mood_rating}/10)"
          [mood self; mood_rating self]) ;;;
   (low <- tlift (py_lt (mood_rating self) 4) ;;
    if low : bool
    then say (Say "You seem down. Remember: This too shall pass!")
    else
      high <- tlift (py_gt (mood_rating self) 7) ;;
      if high : bool
      then say (Say "Great mood! Keep the positivity going!")
      else tret tt) ;;;
   (if show_full then
      (say (Say "Content:") ;;;
       (text <- tlift (str_plus (content self)) ;; say (Say text)) ;;;
       (if truthy (tags self) then
          joined <- tlift (py_join ", " (tags self)) ;;
          say (Say ("Tags: " +:+ joined))
        else tret tt) ;;;
       (if truthy (completed_tasks self) then
          (say (Say "Completed Tasks:") ;;;
           (tasks <- tlift (py_iter (completed_tasks self)) ;;
            say_tasks 1 tasks))
        else tret tt) ;;;
       (if truthy (forgettable_thing self) then
          thing <- tlift (str_plus (forgettable_thing self)) ;;
          say (Say ("Thing to Forget: " +:+ thing))
        else tret tt))
    else
      preview <- tlift (preview_of (content self)) ;;
      say (Say ("Preview: " +:+ preview))) ;;;
   say (Say rule)).

(** *** JournalManager.view_all_entries *)

(** The rows added to the table: number, date, title, mood, and the
    rating that the row shows as [{entry.mood_rating}/10]. *)
Fixpoint table_rows (i : Z) (es : list JournalEntry) : list (list pyval) :=
  match es with
  | [] => []
  | entry :: rest =>
      [PyInt i; PyStr (date entry); title entry; mood entry;
       mood_rating entry] :: table_rows (i + 1) rest
  end.

Definition in_bounds (choice : Z) (es : list JournalEntry) : bool :=
  (0 <=? choice) && (choice <? Z.of_nat (length es)).

(** [self.entries[choice]] for a [choice] that is not negative. *)
Definition entry_at (es : list JournalEntry) (choice : Z) : T JournalEntry :=
  match es !! Z.to_nat choice with
  | Some entry => tret entry
  | None => traise (OtherError "IndexError: list index out of range")
  end.

Definition view_all_entries (self : JournalManager) (show_full : bool)
    : T unit :=
  match entries self with
  | [] => say (Say "No entries found!")
  | _ =>
      (say (Table (table_rows 1 (entries self))) ;;;
       if show_full then
         except_ValueError
           (typed <- input "Enter entry number to view (0 to cancel): " ;;
            n <- to_int typed ;;
            let choice := n - 1 in
            if in_bounds choice (entries self) then
              entry <- entry_at (entries self) choice ;;
              display entry true
            else tret tt)
           (say (Say "Invalid input!"))
       else tret tt)
  end.

(** *** JournalManager._get_valid_rating *)

Definition _get_valid_rating : T Z :=
  while_true
    (except_ValueError
       (typed <- input "Rate your mood (1-10): " ;;
        rating <- to_int typed ;;
        if (1 <=? rating) && (rating <=? 10) then tret (Some rating)
        else (say (Say "Rating must be between 1-10!") ;;;
              tret None))
       (say (Say "Please enter a number!") ;;;
        tret None)).

(** *** JournalManager.get_random_quote *)

Definition quotes : list string :=
  [ "The only way to do great work is to love what you do. - Steve Jobs";
    "Life is what happens when you're busy making other plans. - John Lennon";
    "The future belongs to those who believe in the beauty of their dreams. - Eleanor Roosevelt";
    "In the middle of every difficulty lies opportunity. - Albert Einstein";
    "You miss 100% of the shots you don't take. - Wayne Gretzky" ].

(** [random.choice(quotes)], the choice drawn from the world. *)
Definition get_random_quote : M string :=
  bind draw (fun n => ret (nth (n mod 5) quotes "")).

(** *** Reading a text file *)

(** What [open(path, 'r')] makes of the line ends of a file: a carriage
    return, alone or before a line feed, is read as a line feed. *)
Fixpoint universal_newlines (s : string) : string :=
  match s with
  | EmptyString => EmptyString
  | String c rest =>
      if Ascii.eqb c "013"%char then
        match rest with
        | String c' rest' =>
            if Ascii.eqb c' "010"%char
            then String "010"%char (universal_newlines rest')
            else String "010"%char (universal_newlines rest)
        | EmptyString => String "010"%char EmptyString
        end
      else String c (universal_newlines rest)
  end.

(** *** The functions of the menu *)

Section WithLibs.
Context {L : Libs}.

(** [not typed.strip()] *)
Definition blank (typed : string) : bool := String.eqb (strip typed) "".

(** [create_new_entry]; the manager after the call is returned. *)
Definition create_new_entry (journal_manager : JournalManager)
    : T JournalManager :=
  (say (Say "--- Create New Journal Entry ---") ;;;
   (quote <- in_store get_random_quote ;; say (Say quote)) ;;;
   first_title <- input "Enter title: " ;;
   new_title <-
     while_ blank
       (fun _ => (say (Say "Title cannot be empty!") ;;;
                  input "Enter title: "))
       first_title ;;
   first_content <- input "Enter your thoughts: " ;;
   new_content <-
     while_ blank
       (fun _ => (say (Say "Content cannot be empty!") ;;;
                  input "Enter your thoughts: "))
       first_content ;;
   new_mood <-
     input "Enter your current mood (e.g., happy, sad, anxious): " ;;
   new_rating <- _get_valid_rating ;;
   (say (Say "Additional Options (press enter to skip):") ;;;
    typed_tags <- input "Enter tags (comma separated): " ;;
    let new_tags := pieces_or typed_tags (PyList []) in
    typed_tasks <- input "Enter completed tasks (comma separated): " ;;
    let new_tasks := pieces_or typed_tasks (PyList []) in
    forgettable <- input "Enter something you'd like to forget: " ;;
    entry <-
      in_store
        (JournalEntry_init (PyStr new_title) (PyStr new_content)
           (PyStr new_mood) (PyInt new_rating) new_tags new_tasks
           (if String.eqb forgettable "" then PyNone
            else PyStr forgettable)) ;;
    after <- in_store (add_entry journal_manager entry) ;;
    (say (Say "Entry saved successfully!") ;;;
     tret after))).

(** The [while True] of [edit_existing_entry] that asks for the rating. *)
Definition ask_new_rating (old_entry : JournalEntry) : T pyval :=
  while_true
    (rating_input <-
       input_with "Mood Rating [{old_entry.mood_rating}]: "
         [mood_rating old_entry] ;;
     if String.eqb rating_input "" then tret (Some (mood_rating old_entry))
     else
       except_ValueError
         (rating <- to_int rating_input ;;
          if (1 <=? rating) && (rating <=? 10)
          then tret (Some (PyInt rating))
          else (say (Say "Rating must be between 1-10!") ;;;
                tret None))
         (say (Say "Please enter a number!") ;;;
          tret None)).

(** The questions of [edit_existing_entry] about the entry at [choice],
    and the replacement. *)
Definition edit_chosen (journal_manager : JournalManager) (choice : Z)
    : T JournalManager :=
  old_entry <- entry_at (entries journal_manager) choice ;;
  (say (Say "Editing Entry:") ;;;
   display old_entry true ;;;
   say (Say "Enter new values (press enter to keep current):") ;;;
   typed_title <-
     input_with "Title [{old_entry.title}]: " [title old_entry] ;;
   let new_title := typed_or typed_title (title old_entry) in
   shown <- tlift (py_slice_20 (content old_entry)) ;;
   typed_content <-
     input_with "Content [{old_entry.content[:20]}...]: " [shown] ;;
   let new_content := typed_or typed_content (content old_entry) in
   typed_mood <- input_with "Mood [{old_entry.mood}]: " [mood old_entry] ;;
   let new_mood := typed_or typed_mood (mood old_entry) in
   new_rating <- ask_new_rating old_entry ;;
   shown_tags <- tlift (py_join ", " (tags old_entry)) ;;
   typed_tags <-
     input_with "Tags [{', '.join(old_entry.tags)}]: " [PyStr shown_tags] ;;
   let new_tags := pieces_or typed_tags (tags old_entry) in
   shown_tasks <- tlift (py_join ", " (completed_tasks old_entry)) ;;
   typed_tasks <-
     input_with "Tasks [{', '.join(old_entry.completed_tasks)}]: "
       [PyStr shown_tasks] ;;
   let new_tasks := pieces_or typed_tasks (completed_tasks old_entry) in
   typed_thing <-
     input_with "Forgettable [{old_entry.forgettable_thing}]: "
       [forgettable_thing old_entry] ;;
   let new_thing := typed_or typed_thing (forgettable_thing old_entry) in
   new_entry <-
     in_store
       (JournalEntry_init new_title new_content new_mood new_rating
          new_tags new_tasks new_thing) ;;
   answer <- in_store (edit_entry journal_manager choice new_entry) ;;
   ((if fst answer then say (Say "Entry updated successfully!")
     else say (Say "Failed to update entry!")) ;;;
    tret (snd answer))).

(** [edit_existing_entry].  The manager changes in [edit_entry] alone,
    after which nothing raises: where the function ends by an exception or
    in the handler, the manager is the one it was given. *)
Definition edit_existing_entry (journal_manager : JournalManager)
    : T JournalManager :=
  match entries journal_manager with
  | [] => (say (Say "No entries to edit!") ;;; tret journal_manager)
  | _ =>
      (view_all_entries journal_manager false ;;;
       except_ValueError
         (typed <- input "Enter entry number to edit (0 to cancel): " ;;
          n <- to_int typed ;;
          let choice := n - 1 in
          if choice =? -1 then tret journal_manager
          else if in_bounds choice (entries journal_manager)
          then edit_chosen journal_manager choice
          else (say (Say "Invalid entry number!") ;;;
                tret journal_manager))
         (say (Say "Please enter a valid number!") ;;;
          tret journal_manager))
  end.

(** The module's [delete_entry], the form in front of
    [JournalManager.delete_entry]. *)
Definition delete_entry (journal_manager : JournalManager)
    : T JournalManager :=
  match entries journal_manager with
  | [] => (say (Say "No entries to delete!") ;;; tret journal_manager)
  | _ =>
      (view_all_entries journal_manager false ;;;
       except_ValueError
         (typed <- input "Enter entry number to delete (0 to cancel): " ;;
          n <- to_int typed ;;
          let choice := n - 1 in
          if choice =? -1 then tret journal_manager
          else if in_bounds choice (entries journal_manager) then
            entry <- entry_at (entries journal_manager) choice ;;
            (display entry true ;;;
             confirm <-
               input "Are you sure you want to delete this entry? (y/n): " ;;
             if String.eqb (lower confirm) "y" then
               answer <-
                 in_store (Journal.delete_entry journal_manager choice) ;;
               ((if fst answer then say (Say "Entry deleted successfully!")
                 else say (Say "Failed to delete entry!")) ;;;
                tret (snd answer))
             else tret journal_manager)
          else tret journal_manager)
         (say (Say "Please enter a valid number!") ;;;
          tret journal_manager))
  end.

End WithLibs.

(** *** authenticate_user *)

Definition user_file (username : string) : string :=
  "user_" +:+ username +:+ ".txt".

(** One round of the [while True] of [authenticate_user]: [Some r] where
    the function returns [r], [None] where the loop goes on. *)
Definition authenticate_round : T (option (option string)) :=
  (say (Say "1. Login") ;;;
   say (Say "2. Create new user") ;;;
   say (Say "3. Exit") ;;;
   choice <- input "Enter choice (1-3): " ;;
   if String.eqb choice "1" then
     username <- input "Username: " ;;
     password <- getpass "Password: " ;;
     found <- in_store (path_exists (user_file username)) ;;
     if found : bool then
       text <- in_store (read_file (user_file username)) ;;
       let stored_password := strip (universal_newlines text) in
       if String.eqb password stored_password
       then tret (Some (Some username))
       else (say (Say "Invalid password!") ;;;
             tret None)
     else (say (Say "User not found!") ;;;
           tret None)
   else if String.eqb choice "2" then
     username <- input "Choose username: " ;;
     found <- in_store (path_exists (user_file username)) ;;
     if found : bool then
       (say (Say "Username already exists!") ;;;
        tret None)
     else
       password <- getpass "Choose password: " ;;
       confirm <- getpass "Confirm password: " ;;
       if String.eqb password confirm then
         (in_store (write_file (user_file username) password) ;;;
          say (Say "User created successfully!") ;;;
          tret (Some (Some username)))
       else (say (Say "Passwords don't match!") ;;;
             tret None)
   else if String.eqb choice "3" then tret (Some None)
   else (say (Say "Invalid choice!") ;;;
         tret None)).

(** [authenticate_user]: the user name, or [None] for option 3. *)
Definition authenticate_user : T (option string) :=
  (say (Say rule) ;;;
   say (Say "PERSONAL JOURNAL LOGIN") ;;;
   say (Say rule) ;;;
   while_true authenticate_round).

(** *** Vocabulary *)

(** A value is a text. *)
Definition is_text (v : pyval) : bool :=
  match v with
  | PyStr _ => true
  | _ => false
  end.

(** A value is a list of texts. *)
Definition is_texts (v : pyval) : bool :=
  match v with
  | PyList items => forallb is_text items
  | _ => false
  end.

(** A rating from 1 to 10. *)
Definition is_rating (v : pyval) : bool :=
  match v with
  | PyInt n => (1 <=? n) && (n <=? 10)
  | _ => false
  end.

(** An entry as the forms make it: texts for title, content and mood, a
    rating from 1 to 10, lists of texts, and a text or [None] to forget. *)
Definition form_entry (e : JournalEntry) : bool :=
  is_text (title e) && is_text (content e) && is_text (mood e) &&
  is_rating (mood_rating e) &&
  is_texts (tags e) && is_texts (completed_tasks e) &&
  match forgettable_thing e with
  | PyNone | PyStr _ => true
  | _ => false
  end.

(** A journal of such entries. *)
Definition well_formed (es : list JournalEntry) : Prop :=
  Forall (fun e => form_entry e = true) es.

(** The entry with another date. *)
Definition restamped (e : JournalEntry) (now : string) : JournalEntry :=
  mk_JournalEntry (title e) (content e) (mood e) (mood_rating e) (tags e)
    (completed_tasks e) (forgettable_thing e) now.

(** What a typed line is as a rating: the number, when [int] reads one
    from 1 to 10. *)
Definition valid_rating (typed : string) : option Z :=
  match py_int typed with
  | Some n => if (1 <=? n) && (n <=? 10) then Some n else None
  | None => None
  end.

(** What [_get_valid_rating] shows: its prompt, what it answers to a line
    that is no rating, and the screen of a dialogue in which the lines
    [bad] are turned down and the next one is taken. *)
Definition rating_prompt : line := Ask "Rate your mood (1-10): ".

Definition rating_complaint (typed : string) : line :=
  match py_int typed with
  | Some _ => Say "Rating must be between 1-10!"
  | None => Say "Please enter a number!"
  end.

Definition rating_dialogue (bad : list string) : list line :=
  flat_map (fun typed => [rating_prompt; rating_complaint typed]) bad
  ++ [rating_prompt].

(** The entry a typed entry number picks: [int(typed) - 1] when it is an
    index of the journal. *)
Definition picks (typed : string) (es : list JournalEntry) : option nat :=
  match py_int typed with
  | Some n => if in_bounds (n - 1) es then Some (Z.to_nat (n - 1)) else None
  | None => None
  end.

End App.

(* ===================================================================== *)
(** ** More sample journals *)
(* ===================================================================== *)

Module MoreSamples.
Import Reference Samples.

(** A journal written by hand, without [date] keys. *)
Definition handmade_records : list (list (string * pyval)) :=
  [ [("title", PyStr "A"); ("content", PyStr "first day");
     ("mood", PyStr "happy"); ("mood_rating", PyInt 8)];
    [("title", PyStr "B"); ("content", PyStr "second day");
     ("mood", PyStr "sad"); ("mood_rating", PyInt 2);
     ("tags", PyList [PyStr "rain"])] ].

Definition handmade_text : string :=
  pos_to_bits (encode (to_tree (PyList (map PyDict handmade_records)))).

Definition handmade_token : string := key_A +:+ handmade_text.

Definition ann_handmade_journal : gmap string string :=
  <[ "journal_ann.json" := handmade_token ]> ann_key_file.

(** The token of a journal that holds [entry_B] alone. *)
Definition token_of_B : string :=
  key_A +:+ pos_to_bits (encode (to_tree (PyList [to_dict entry_B]))).

(** A session at a world, with the lines that will be typed. *)
Definition typing (w : World) (typed : list string) : Session :=
  mk_Session w typed [].

(** What [ann] types into the form for a new entry: a blank title first,
    and a rating in words before the number. *)
Definition rain_answers : list string :=
  ["  "; "Rain"; "It rained all day."; "calm"; "six"; "6";
   "weather, home "; ""; ""; "9"].

(** The entry the form makes of it at noon. *)
Definition entry_rain : JournalEntry :=
  mk_JournalEntry (PyStr "Rain") (PyStr "It rained all day.") (PyStr "calm")
    (PyInt 6) (PyList [PyStr "weather"; PyStr "home"]) (PyList []) PyNone
    "2024-03-07 12:00:00".

(** The files of [ann] once she has signed up with the password
    [secret]. *)
Definition ann_account : gmap string string :=
  <[ "user_ann.txt" := "secret" ]> ann_key_file.

(** What [ann] types to edit her second entry: a new title, a new rating
    after one that is out of range, and new tags. *)
Definition edit_answers : list string :=
  ["2"; "Second thoughts"; ""; ""; "12"; "9"; "rain , home"; ""; ""].

(** The entry the form puts in place of [entry_B] at noon. *)
Definition entry_B_edited : JournalEntry :=
  mk_JournalEntry (PyStr "Second thoughts") (PyStr "second day")
    (PyStr "sad") (PyInt 9) (PyList [PyStr "rain"; PyStr "home"])
    (PyList [PyStr "laundry"]) (PyStr "the rain") "2024-03-07 12:00:00".



End MoreSamples.

(* ===================================================================== *)
(** ** Facts about timestamps *)
(* ===================================================================== *)

Module ClockFacts.

(** Case analysis on an integer known to lie in [lo..hi]. *)
Ltac enum_range x lo hi :=
  let rec go l :=
    first
      [ (exfalso; lia)
      | destruct (Z.eq_dec x l) as [-> | ?];
        [ | let l' := eval compute in (l + 1) in go l' ] ]
  in go lo.

Lemma app_String (c : ascii) (s r : string) :
  String c s +:+ r = String c (s +:+ r).
Proof. reflexivity. Qed.

Lemma app_empty (r : string) : "" +:+ r = r.
Proof. reflexivity. Qed.

Ltac norm_app := rewrite ?app_String, ?app_empty.

Lemma digit_val_char (d : Z) :
  0 <= d <= 9 -> digit_val (digit_char d) = Some d.
Proof.
  intros Hd. enum_range d 0 9; reflexivity.
Qed.

Lemma digits4 (y : Z) :
  0 <= y ->
  1000 * (y / 1000) + 100 * (y / 100 mod 10) + 10 * (y / 10 mod 10) + y mod 10 = y.
Proof.
  intros Hy.
  assert (y / 100 = 10 * (y / 1000) + (y / 100) mod 10).
  { replace (y / 1000) with (y / 100 / 10)
      by (rewrite Z.div_div; [reflexivity | lia | lia]).
    pose proof (Z.div_mod (y / 100) 10). lia. }
  assert (y / 10 = 10 * (y / 100) + (y / 10) mod 10).
  { replace (y / 100) with (y / 10 / 10)
      by (rewrite Z.div_div; [reflexivity | lia | lia]).
    pose proof (Z.div_mod (y / 10) 10). lia. }
  pose proof (Z.div_mod y 10). lia.
Qed.

Lemma slice_strftime (t : datetime) :
  py_slice_to 10 (strftime t) =
  pad4 (year t) +:+ String "-"%char (pad2 (month t) +:+ String "-"%char (pad2 (day t))).
Proof. reflexivity. Qed.

Lemma year_re_pad4 {A} (y : Z) (k : Z -> string -> option A) (rest : string) :
  1000 <= y <= 9999 -> year_re k (pad4 y +:+ rest) = k y rest.
Proof.
  intros Hy. unfold pad4, year_re. norm_app.
  rewrite !digit_val_char by (Z.to_euclidean_division_equations; lia).
  f_equal. apply digits4. lia.
Qed.


Lemma month_re_pad2 {A} (m : Z) (K : Z -> string -> option A) (rest : string) :
  1 <= m <= 12 ->
  first_alt month_alts (fun v s => dash (K v) s)
    (pad2 m +:+ String "-"%char rest) = K m rest.
Proof.
  intros Hm. enum_range m 1 12; lazy; destruct (K _ rest); reflexivity.
Qed.

Lemma day_re_pad2 {A} (d : Z) (f : Z -> A) :
  1 <= d <= 31 ->
  first_alt day_alts (fun v s => Some (f v, s)) (pad2 d) = Some (f d, "").
Proof.
  intros Hd. enum_range d 1 31; reflexivity.
Qed.

Lemma days_in_month_le_31 (y m : Z) : days_in_month y m <= 31.
Proof.
  unfold days_in_month.
  repeat match goal with |- context [if ?b then _ else _] => destruct b end; lia.
Qed.

(** The calendar date of a timestamp is read back from the first ten
    characters of its text. *)
Lemma strptime_strftime (t : datetime) :
  valid_datetime t = true ->
  strptime (py_slice_to 10 (strftime t)) = Some (calendar_date t).
Proof.
  unfold valid_datetime. rewrite !andb_true_iff, !Z.leb_le.
  intros Hv. destruct t as [y m d hh mm ss]; cbn [year month day hour minute second] in *.
  pose proof (days_in_month_le_31 y m).
  rewrite slice_strftime. cbn [year month day].
  unfold strptime, match_ymd.
  rewrite year_re_pad4 by lia.
  unfold dash at 1.
  rewrite (month_re_pad2 m (fun v s4 => first_alt day_alts (fun d0 s5 => Some (mk_ymd y v d0, s5)) s4)) by lia.
  rewrite (day_re_pad2 d (fun v => mk_ymd y m v)) by lia.
  cbn [y_of m_of d_of].
  replace (1 <=? y) with true by (symmetry; apply Z.leb_le; lia).
  replace (d <=? days_in_month y m) with true by (symmetry; apply Z.leb_le; lia).
  reflexivity.
Qed.

Example strptime_ex1 : strptime "2024-02-29" = Some (mk_ymd 2024 2 29).
Proof. reflexivity. Qed.
Example strptime_ex2 : strptime "2023-02-29" = None.
Proof. reflexivity. Qed.
Example strptime_ex3 : strptime "2024-1-5" = Some (mk_ymd 2024 1 5).
Proof. reflexivity. Qed.
Example strptime_ex4 : strptime "2024-13-05" = None.
Proof. reflexivity. Qed.
Example strptime_ex5 : strptime "2024-10-32" = None.
Proof. reflexivity. Qed.
Example strptime_ex6 : strptime "2024-10-31" = Some (mk_ymd 2024 10 31).
Proof. reflexivity. Qed.
Example strptime_ex7 : strptime "2024-10- 3" = Some (mk_ymd 2024 10 3).
Proof. reflexivity. Qed.
Example strftime_ex : strftime (mk_datetime 2024 3 7 9 5 0) = "2024-03-07 09:05:00".
Proof. reflexivity. Qed.
Example slice_ex : py_slice_to 10 (strftime (mk_datetime 2024 3 7 9 5 0)) = "2024-03-07".
Proof. reflexivity. Qed.

End ClockFacts.

(* ===================================================================== *)
(** ** The reference libraries obey the laws *)
(* ===================================================================== *)

Module ReferenceFacts.
Import Reference ClockFacts.

(** Induction on values, through the lists and dicts nested in them. *)
Lemma pyval_nested_ind (P : pyval -> Prop) :
  P PyNone ->
  (forall b, P (PyBool b)) ->
  (forall n, P (PyInt n)) ->
  (forall bits, P (PyFloat bits)) ->
  (forall s, P (PyStr s)) ->
  (forall l, Forall P l -> P (PyList l)) ->
  (forall d, Forall (fun kv => P (snd kv)) d -> P (PyDict d)) ->
  forall v, P v.
Proof.
  intros HNone HBool HInt HFloat HStr HList HDict.
  fix IH 1. intros [| b | n | bits | s | l | d].
  - exact HNone.
  - apply HBool.
  - apply HInt.
  - apply HFloat.
  - apply HStr.
  - apply HList. induction l as [| v l IHl]; constructor; [apply IH | exact IHl].
  - apply HDict. induction d as [| [k v] d IHd]; constructor;
      [apply IH | exact IHd].
Qed.

Lemma of_to_tree (v : pyval) : of_tree (to_tree v) = Some v.
Proof.
  induction v as [| b | n | bits | s | l IH | d IH] using pyval_nested_ind;
    try reflexivity.
  - cbn. replace (mapM of_tree (map to_tree l)) with (Some l); [reflexivity |].
    induction IH as [| v l Hv _ IHl]; [reflexivity |].
    cbn. rewrite Hv. cbn. rewrite <- IHl. reflexivity.
  - cbn.
    match goal with
    | |- PyDict <$> ?m = _ => replace m with (Some d); [reflexivity |]
    end.
    induction IH as [| [k v] d Hv _ IHd]; [reflexivity |].
    cbn in *. rewrite Hv. cbn. rewrite <- IHd. reflexivity.
Qed.

Lemma bits_of_pos (p : positive) : bits_to_pos (pos_to_bits p) = Some p.
Proof.
  induction p as [p IH | p IH |]; cbn; rewrite ?IH; reflexivity.
Qed.

Lemma ref_loads_dumps (v : pyval) :
  exists s, ref_dumps v = Ok s /\ ref_loads s = Ok v.
Proof.
  eexists. split; [reflexivity |].
  unfold ref_loads. rewrite bits_of_pos, decode_encode, of_to_tree.
  reflexivity.
Qed.

Lemma strip_prefix_app (k m : string) : strip_prefix k (k +:+ m) = Some m.
Proof.
  induction k as [| c k IH]; [destruct m; reflexivity |].
  rewrite app_String. cbn. rewrite Ascii.eqb_refl. exact IH.
Qed.

Lemma ref_generate_key_valid (seed : nat) :
  ref_valid_key (ref_generate_key seed) = true.
Proof.
  unfold ref_generate_key. destruct (Nat.even seed); reflexivity.
Qed.

Lemma ref_decrypt_encrypt (k : string) (seed : nat) (m : string) :
  ref_valid_key k = true ->
  exists tok, ref_encrypt k seed m = Ok tok /\
              tok <> "" /\ ref_decrypt k tok = Ok m.
Proof.
  intros Hvalid. eexists. split; [reflexivity |]. split.
  - destruct k as [| c k]; [discriminate |].
    rewrite app_String. discriminate.
  - unfold ref_decrypt. rewrite strip_prefix_app. reflexivity.
Qed.

#[export] Instance ref_laws : LibLaws ref_libs.
Proof.
  constructor.
  - exact ref_generate_key_valid.
  - exact ref_decrypt_encrypt.
  - intros v _. apply ref_loads_dumps.
Qed.

End ReferenceFacts.

(* ===================================================================== *)
(** ** Facts about the store *)
(* ===================================================================== *)

Module StoreFacts.
Import ClockFacts.

Section Generic.
Context {L : Libs}.

Ltac break_kinds :=
  repeat match goal with
  | H : _ /\ _ |- _ => destruct H
  | H : _ \/ _ |- _ => destruct H
  | H : exists _, _ |- _ => destruct H
  end.

(** The block raised [e]: name the exception. *)
Ltac raised :=
  let Hk := fresh in
  intros [? Hk]; try discriminate; injection Hk as ? ?; subst.

(** The causes are given: replay them. *)
Ltac caught :=
  let Hk := fresh in
  intros Hk; break_kinds;
  repeat (simplify_eq;
          match goal with
          | H : ?a = _, H' : ?a = _ |- _ => rewrite H in H'
          end);
  simplify_eq; try congruence; try (eexists; reflexivity).

Lemma with_ticks_id (w : World) : with_ticks (ticks w) w = w.
Proof. destruct w; reflexivity. Qed.

Lemma with_ticks_twice (n k : nat) (w : World) :
  with_ticks n (with_ticks k w) = with_ticks n w.
Proof. reflexivity. Qed.

(** Building entries only reads the clock. *)
Lemma JournalEntry_splat_ticks (entry : pyval) (w : World) :
  exists r n, JournalEntry_splat entry w = (r, with_ticks n w).
Proof.
  destruct entry; cbn;
    try (eexists _, (ticks w); rewrite with_ticks_id; reflexivity).
  unfold JournalEntry_kwargs.
  repeat match goal with
  | |- context [match ?x with _ => _ end] => destruct x
  end; cbn;
    try (eexists _, (ticks w); rewrite with_ticks_id; reflexivity).
  eexists _, _. reflexivity.
Qed.

Lemma build_entries_ticks (items : list pyval) (w : World) :
  exists r n, build_entries items w = (r, with_ticks n w).
Proof.
  revert w. induction items as [| entry rest IH]; intros w; cbn.
  - eexists _, (ticks w). rewrite with_ticks_id. reflexivity.
  - unfold bind.
    destruct (JournalEntry_splat_ticks entry w) as (r & n & ->).
    destruct r as [e | x]; [| eexists _, _; reflexivity].
    destruct (IH (with_ticks n w)) as (r' & n' & ->).
    rewrite with_ticks_twice.
    destruct r'; eexists _, _; reflexivity.
Qed.

(** The [try] block of [load_entries] changes nothing but the clock's
    position. *)
Lemma load_entries_body_ticks (self : JournalManager) (w : World) :
  exists r n, load_entries_body self w = (r, with_ticks n w).
Proof.
  unfold load_entries_body, bind, path_exists, read_file, _decrypt, lift, ret.
  destruct (bool_decide _);
    [| eexists _, (ticks w); rewrite with_ticks_id; reflexivity].
  destruct (read_faults w (filename self));
    [eexists _, (ticks w); rewrite with_ticks_id; reflexivity |].
  destruct (files w !! filename self) as [content |];
    [| eexists _, (ticks w); rewrite with_ticks_id; reflexivity].
  destruct (negb _);
    [| eexists _, (ticks w); rewrite with_ticks_id; reflexivity].
  destruct (fernet_decrypt _ _);
    [| eexists _, (ticks w); rewrite with_ticks_id; reflexivity].
  destruct (json_loads _);
    [| eexists _, (ticks w); rewrite with_ticks_id; reflexivity].
  destruct (py_iter _) as [items |];
    [| eexists _, (ticks w); rewrite with_ticks_id; reflexivity].
  destruct (build_entries_ticks items w) as (r & n & ->).
  destruct r; eexists _, _; reflexivity.
Qed.

(** [load_entries] returns normally on every store and world, and leaves
    the files as they are. *)
Lemma load_entries_total (self : JournalManager) (w : World) :
  exists m' w', load_entries self w = (Ok m', w') /\ files w' = files w.
Proof.
  unfold load_entries, try_except.
  destruct (load_entries_body_ticks self w) as (r & n & ->).
  destruct r as [m' | e].
  - eexists _, _. split; reflexivity.
  - eexists _, _. split; reflexivity.
Qed.

(** [save_entries] returns [None] on every store and world. *)
Lemma save_entries_total (self : JournalManager) (w : World) :
  fst (save_entries self w) = Ok tt.
Proof.
  unfold save_entries, try_except.
  destruct (save_entries_body self w) as [[[] | e] w']; reflexivity.
Qed.


Lemma string_length_app (s1 s2 : string) :
  String.length (s1 +:+ s2) = (String.length s1 + String.length s2)%nat.
Proof.
  induction s1 as [| c s1 IH]; [reflexivity |].
  rewrite app_String. cbn [String.length]. rewrite IH. reflexivity.
Qed.

Lemma backup_name_differs (name : string) : "backup_" +:+ name <> name.
Proof.
  intros Heq. apply (f_equal String.length) in Heq.
  rewrite string_length_app in Heq. cbn in Heq. lia.
Qed.

(** The ways the [try] block of [load_entries] can raise: the data file is
    there and reading it fails; or it is read and is not empty, and the
    token does not decrypt, or the text does not parse, or the parsed value
    cannot be walked, or an item of it does not fit the constructor. *)
Lemma load_failure_kinds (self : JournalManager) (w : World) (e : exn) :
  (exists w1, load_entries_body self w = (Raise e, w1)) <->
  exists content,
    files w !! filename self = Some content /\
    ((read_faults w (filename self) = true /\ e = OSError (filename self)) \/
     (read_faults w (filename self) = false /\ content <> "" /\
      (fernet_decrypt (fernet_key (cipher self)) content = Raise e \/
       exists text,
         fernet_decrypt (fernet_key (cipher self)) content = Ok text /\
         (json_loads text = Raise e \/
          exists data,
            json_loads text = Ok data /\
            (py_iter data = Raise e \/
             exists items w1,
               py_iter data = Ok items /\
               build_entries items w = (Raise e, w1)))))).
Proof.
  unfold load_entries_body, bind, path_exists, read_file, _decrypt, lift, ret.
  destruct (files w !! filename self) as [content |] eqn:Hfile.
  2: { rewrite bool_decide_eq_false_2 by (intros [x Hx]; discriminate).
       split; [raised | caught]. }
  rewrite bool_decide_eq_true_2 by (eexists; reflexivity).
  destruct (read_faults w (filename self)) eqn:Hread; rewrite ?Hfile.
  { split; [raised | caught].
    exists content. split; [reflexivity |]. left. split; reflexivity. }
  destruct (String.eqb_spec content "") as [Hempty | Hne]; cbn [negb].
  { split; [raised | caught]. }
  destruct (fernet_decrypt _ content) as [text |] eqn:Hdec.
  2: { split; [raised | caught].
       exact (ex_intro _ content (conj eq_refl (or_intror
                (conj eq_refl (conj Hne (or_introl Hdec)))))). }
  destruct (json_loads text) as [data |] eqn:Hloads.
  2: { split; [raised | caught].
       exact (ex_intro _ content (conj eq_refl (or_intror
                (conj eq_refl (conj Hne (or_intror
                  (ex_intro _ text (conj Hdec (or_introl Hloads))))))))). }
  destruct (py_iter data) as [items |] eqn:Hiter.
  2: { split; [raised | caught].
       exact (ex_intro _ content (conj eq_refl (or_intror
                (conj eq_refl (conj Hne (or_intror
                  (ex_intro _ text (conj Hdec (or_intror
                    (ex_intro _ data (conj Hloads (or_introl Hiter)))))))))))). }
  destruct (build_entries items w) as [[es | x] w2] eqn:Hbuild.
  - split; [raised | caught].
  - split; [raised | caught].
    exists content. split; [reflexivity |]. right.
    split; [reflexivity |]. split; [exact Hne |]. right.
    exists text. split; [exact Hdec |]. right.
    exists data. split; [exact Hloads |]. right.
    eexists _, _. split; eassumption.
Qed.

(** On a stdout that has every character the print of the diagnostic
    never fails: there [Stdout.load_entries] is [load_entries]. *)
Lemma printable_on_utf8 (text : string) :
  @Stdout.printable Stdout.utf8_stdout text = true.
Proof.
  unfold Stdout.printable. induction (list_ascii_of_string text) as [| c l IH];
    [reflexivity | exact IH].
Qed.

Lemma load_entries_on_utf8 (self : JournalManager) (w : World) :
  @Stdout.load_entries L Stdout.utf8_stdout self w = load_entries self w.
Proof.
  unfold Stdout.load_entries, load_entries, try_except.
  destruct (load_entries_body self w) as [[m | e] w1]; [reflexivity |].
  unfold bind, Stdout.print. rewrite printable_on_utf8. reflexivity.
Qed.

Lemma printable_app {E : Stdout.Encoder} (s1 s2 : string) :
  Stdout.printable (s1 +:+ s2) =
    Stdout.printable s1 && Stdout.printable s2.
Proof.
  unfold Stdout.printable. induction s1 as [| c s1 IH]; [reflexivity |].
  rewrite app_String. cbn [list_ascii_of_string forallb]. rewrite IH.
  apply andb_assoc.
Qed.



(** *** Index safety *)

Lemma in_range_true (index : Z) (n : nat) :
  0 <= index < Z.of_nat n ->
  (0 <=? index) && (index <? Z.of_nat n) = true.
Proof. intros H. apply andb_true_iff. split; [apply Z.leb_le | apply Z.ltb_lt]; lia. Qed.

Lemma in_range_false (index : Z) (n : nat) :
  index < 0 \/ Z.of_nat n <= index ->
  (0 <=? index) && (index <? Z.of_nat n) = false.
Proof.
  intros H. apply andb_false_iff.
  destruct H; [left; apply Z.leb_gt | right; apply Z.ltb_ge]; lia.
Qed.

Lemma edit_entry_in_range (self : JournalManager) (index : Z)
    (new_entry : JournalEntry) (w : World) :
  0 <= index < Z.of_nat (length (entries self)) ->
  let edited :=
    set_entries (<[Z.to_nat index := new_entry]> (entries self)) self in
  edit_entry self index new_entry w =
    (Ok (true, edited), snd (save_entries edited w)).
Proof.
  intros Hr edited. unfold edit_entry.
  rewrite (in_range_true _ _ Hr). unfold bind. fold edited.
  pose proof (save_entries_total edited w) as He.
  destruct (save_entries edited w) as [re we]. cbn in He. subst re.
  reflexivity.
Qed.

Lemma delete_entry_in_range (self : JournalManager) (index : Z) (w : World) :
  0 <= index < Z.of_nat (length (entries self)) ->
  let deleted :=
    set_entries (delete (Z.to_nat index) (entries self)) self in
  delete_entry self index w =
    (Ok (true, deleted), snd (save_entries deleted w)).
Proof.
  intros Hr deleted. unfold delete_entry.
  rewrite (in_range_true _ _ Hr). unfold bind. fold deleted.
  pose proof (save_entries_total deleted w) as Hd.
  destruct (save_entries deleted w) as [rd wd]. cbn in Hd. subst rd.
  reflexivity.
Qed.

Lemma edit_entry_out_of_range (self : JournalManager) (index : Z)
    (new_entry : JournalEntry) (w : World) :
  index < 0 \/ Z.of_nat (length (entries self)) <= index ->
  edit_entry self index new_entry w = (Ok (false, self), w).
Proof.
  intros Hr. unfold edit_entry. rewrite (in_range_false _ _ Hr). reflexivity.
Qed.

Lemma delete_entry_out_of_range (self : JournalManager) (index : Z) (w : World) :
  index < 0 \/ Z.of_nat (length (entries self)) <= index ->
  delete_entry self index w = (Ok (false, self), w).
Proof.
  intros Hr. unfold delete_entry. rewrite (in_range_false _ _ Hr). reflexivity.
Qed.

(** C3.  With [N] entries in the collection, [edit_entry] and [delete_entry]
    return [True] exactly for [0 <= index < N], and then the world is the one
    [save_entries] leaves for the updated collection; for any other index,
    negative ones included, they return [False], and the collection and the
    world (so every file) are as before. *)
Theorem edit_delete_index_safety (self : JournalManager) (index : Z)
    (new_entry : JournalEntry) (w : World) :
  let N := Z.of_nat (length (entries self)) in
  let edited :=
    set_entries (<[Z.to_nat index := new_entry]> (entries self)) self in
  let deleted :=
    set_entries (delete (Z.to_nat index) (entries self)) self in
  (0 <= index < N ->
     edit_entry self index new_entry w =
       (Ok (true, edited), snd (save_entries edited w)) /\
     delete_entry self index w =
       (Ok (true, deleted), snd (save_entries deleted w))) /\
  (index < 0 \/ N <= index ->
     edit_entry self index new_entry w = (Ok (false, self), w) /\
     delete_entry self index w = (Ok (false, self), w)) /\
  (fst (edit_entry self index new_entry w) = Ok (true, edited) <->
     0 <= index < N) /\
  (fst (delete_entry self index w) = Ok (true, deleted) <-> 0 <= index < N).
Proof.
  intros N edited deleted.
  split; [| split; [| split; split]].
  - intros Hr. split;
      [apply edit_entry_in_range | apply delete_entry_in_range]; exact Hr.
  - intros Hr. split;
      [apply edit_entry_out_of_range | apply delete_entry_out_of_range];
      exact Hr.
  - intros Ht.
    destruct (Z_lt_dec index 0) as [Hneg |];
      [| destruct (Z_le_dec N index) as [Hbig |]; [| lia]].
    + rewrite edit_entry_out_of_range in Ht by (left; exact Hneg).
      discriminate.
    + rewrite edit_entry_out_of_range in Ht by (right; exact Hbig).
      discriminate.
  - intros Hr. rewrite edit_entry_in_range by exact Hr. reflexivity.
  - intros Ht.
    destruct (Z_lt_dec index 0) as [Hneg |];
      [| destruct (Z_le_dec N index) as [Hbig |]; [| lia]].
    + rewrite delete_entry_out_of_range in Ht by (left; exact Hneg).
      discriminate.
    + rewrite delete_entry_out_of_range in Ht by (right; exact Hbig).
      discriminate.
  - intros Hr. rewrite delete_entry_in_range by exact Hr. reflexivity.
Qed.

(** *** Saving *)

(** C10.  [save_entries] writes the backup after the text was produced,
    encrypted and written to the primary file:
    - if [json.dumps] raises, or [encrypt] raises, no file changes;
    - if writing the primary file raises, the backup file is as before;
    - if both writes go through, the primary and the backup file hold the
      same token, the one [encrypt] returned, and nothing is printed. *)
Theorem backup_written_last (self : JournalManager) (w : World) :
  let records := PyList (map to_dict (entries self)) in
  let k := fernet_key (cipher self) in
  let backup_file := "backup_" +:+ filename self in
  let w' := snd (save_entries self w) in
  (forall e, json_dumps records = Raise e -> files w' = files w) /\
  (forall data e,
     json_dumps records = Ok data ->
     fernet_encrypt k (entropy w) data = Raise e ->
     files w' = files w) /\
  (forall data token fault,
     json_dumps records = Ok data ->
     fernet_encrypt k (entropy w) data = Ok token ->
     write_faults w (filename self) = Some fault ->
     files w' !! backup_file = files w !! backup_file) /\
  (forall data token,
     json_dumps records = Ok data ->
     fernet_encrypt k (entropy w) data = Ok token ->
     write_faults w (filename self) = None ->
     write_faults w backup_file = None ->
     files w' !! filename self = Some token /\
     files w' !! backup_file = Some token /\
     console w' = console w).
Proof.
  intros records k backup_file w'. subst w'.
  unfold save_entries, try_except, save_entries_body, bind, lift, _encrypt,
    draw, write_file.
  fold records. fold k. fold backup_file.
  split; [| split; [| split]].
  - intros e ->. reflexivity.
  - intros data e -> Henc. cbn. rewrite Henc. reflexivity.
  - intros data token fault -> Henc Hfault. cbn. rewrite Henc. cbn.
    rewrite Hfault. destruct fault; cbn; [reflexivity |].
    apply lookup_insert_ne. intros Heq. symmetry in Heq.
    exact (backup_name_differs _ Heq).
  - intros data token -> Henc Hp Hb. cbn. rewrite Henc. cbn.
    rewrite Hp. cbn. rewrite Hb. cbn.
    split; [| split; [apply lookup_insert_eq | reflexivity]].
    rewrite lookup_insert_ne by (intros Heq; exact (backup_name_differs _ Heq)).
    apply lookup_insert_eq.
Qed.


(** *** Opening a store *)

Lemma set_entries_same (self : JournalManager) :
  set_entries (entries self) self = self.
Proof. destruct self; reflexivity. Qed.

(** Whatever [load_entries] does, the store it leaves differs from the one
    it was given in its collection only. *)
Lemma load_entries_body_shape (self m' : JournalManager) (w w' : World) :
  load_entries_body self w = (Ok m', w') ->
  exists es, m' = set_entries es self.
Proof.
  unfold load_entries_body, bind, path_exists, read_file, _decrypt, lift, ret.
  destruct (bool_decide _).
  2: { intros [= <- _]. exists (entries self). symmetry. apply set_entries_same. }
  destruct (read_faults w (filename self)); [discriminate |].
  destruct (files w !! filename self) as [content |]; [| discriminate].
  destruct (negb _).
  2: { intros [= <- _]. eexists. reflexivity. }
  destruct (fernet_decrypt _ _); [| discriminate].
  destruct (json_loads _); [| discriminate].
  destruct (py_iter _) as [items |]; [| discriminate].
  destruct (build_entries items w) as [[es |] w2]; [| discriminate].
  intros [= <- _]. eexists. reflexivity.
Qed.

Lemma load_entries_shape (self : JournalManager) (w : World) :
  exists es w',
    load_entries self w = (Ok (set_entries es self), w') /\
    files w' = files w.
Proof.
  unfold load_entries, try_except.
  destruct (load_entries_body_ticks self w) as (r & n & Hbody).
  rewrite Hbody. destruct r as [m' | e].
  - destruct (load_entries_body_shape _ _ _ _ Hbody) as [es ->].
    eexists _, _. split; reflexivity.
  - eexists _, _. split; reflexivity.
Qed.

Lemma init_with_key (user k : string) (w w1 : World) :
  _get_or_create_key user w = (Ok k, w1) ->
  fernet_valid_key k = true ->
  JournalManager_init user w = load_entries (fresh_store user k) w1.
Proof.
  intros Hkey Hvalid. unfold JournalManager_init, bind.
  rewrite Hkey. unfold lift, Fernet_new. rewrite Hvalid. reflexivity.
Qed.

Lemma key_file_read (user k : string) (w : World) :
  files w !! ("key_" +:+ user +:+ ".key") = Some k ->
  read_faults w ("key_" +:+ user +:+ ".key") = false ->
  _get_or_create_key user w = (Ok k, w).
Proof.
  intros Hfile Hread.
  unfold _get_or_create_key, bind, path_exists, read_file.
  rewrite bool_decide_eq_true_2 by (rewrite Hfile; eexists; reflexivity).
  rewrite Hread, Hfile. reflexivity.
Qed.

Lemma key_file_created (user : string) (w : World) :
  files w !! ("key_" +:+ user +:+ ".key") = None ->
  write_faults w ("key_" +:+ user +:+ ".key") = None ->
  _get_or_create_key user w =
    (Ok (fernet_generate_key (entropy w)),
     with_files
       (<["key_" +:+ user +:+ ".key" := fernet_generate_key (entropy w)]> (files w))
       (with_entropy (S (entropy w)) w)).
Proof.
  intros Hfile Hwrite.
  unfold _get_or_create_key, bind, path_exists, draw, write_file, ret.
  rewrite bool_decide_eq_false_2
    by (rewrite Hfile; intros [x Hx]; discriminate).
  cbn. rewrite Hwrite. reflexivity.
Qed.

(** C2, as the code has it.  Opening a store for [user]:
    - with no key file (and the key file writable), a key is generated,
      written to the key file, and held by the store;
    - with a key file that holds a valid key, that key is held verbatim and
      no file changes;
    - with a key file that holds anything else, [Fernet(key)] raises
      [ValueError] and [__init__] lets it through to its caller: no store is
      built, and the world is as before. *)
Theorem key_lifecycle {Laws : LibLaws L} (user : string) (w : World) :
  let key_file := "key_" +:+ user +:+ ".key" in
  (files w !! key_file = None -> write_faults w key_file = None ->
     exists m w',
       JournalManager_init user w = (Ok m, w') /\
       key m = fernet_generate_key (entropy w) /\
       files w' = <[key_file := key m]> (files w)) /\
  (forall k,
     files w !! key_file = Some k -> read_faults w key_file = false ->
     fernet_valid_key k = true ->
     exists m w',
       JournalManager_init user w = (Ok m, w') /\
       key m = k /\ files w' = files w) /\
  (forall k,
     files w !! key_file = Some k -> read_faults w key_file = false ->
     fernet_valid_key k = false ->
     JournalManager_init user w =
       (Raise (ValueError "Fernet key must be 32 url-safe base64-encoded bytes."),
        w)).
Proof.
  intros key_file. subst key_file. split; [| split].
  - intros Hfile Hwrite.
    pose proof (key_file_created user w Hfile Hwrite) as Hkey.
    rewrite (init_with_key _ _ _ _ Hkey (generate_key_valid _)).
    match goal with
    | |- context [load_entries ?m ?w0] =>
        destruct (load_entries_shape m w0) as (es & w' & -> & Hfiles)
    end.
    eexists _, _. split; [reflexivity |]. split; [reflexivity |].
    exact Hfiles.
  - intros k Hfile Hread Hvalid.
    pose proof (key_file_read user k w Hfile Hread) as Hkey.
    rewrite (init_with_key _ _ _ _ Hkey Hvalid).
    destruct (load_entries_shape (fresh_store user k) w)
      as (es & w' & -> & Hfiles).
    eexists _, _. split; [reflexivity |]. split; [reflexivity | exact Hfiles].
  - intros k Hfile Hread Hinvalid.
    unfold JournalManager_init, bind.
    rewrite (key_file_read user k w Hfile Hread).
    unfold lift, Fernet_new. rewrite Hinvalid. reflexivity.
Qed.

Lemma key_file_is_not_journal (user : string) :
  "key_" +:+ user +:+ ".key" <> "journal_" +:+ user +:+ ".json".
Proof. rewrite !app_String. discriminate. Qed.




End Generic.

(** *** Records *)

(** C6, as the code has it.  [to_dict] returns a dict with exactly eight
    keys, the seven constructor parameters and [date], in this order, each
    mapped to the attribute of that name. *)
Theorem to_dict_fields (e : JournalEntry) :
  exists d,
    to_dict e = PyDict d /\
    dict_keys d = init_params ++ ["date"] /\
    NoDup (dict_keys d) /\
    record_size (to_dict e) = 8%nat /\
    record_get "title" (to_dict e) = Some (title e) /\
    record_get "content" (to_dict e) = Some (content e) /\
    record_get "mood" (to_dict e) = Some (mood e) /\
    record_get "mood_rating" (to_dict e) = Some (mood_rating e) /\
    record_get "tags" (to_dict e) = Some (tags e) /\
    record_get "completed_tasks" (to_dict e) = Some (completed_tasks e) /\
    record_get "forgettable_thing" (to_dict e) = Some (forgettable_thing e) /\
    record_get "date" (to_dict e) = Some (PyStr (date e)).
Proof.
  eexists. split; [reflexivity |]. split; [reflexivity |].
  split; [| repeat split].
  cbn. repeat (constructor; [rewrite !list_elem_of_In; cbn; intuition discriminate |]).
  constructor.
Qed.

(** *** Every entry of a store carries a constructor's timestamp *)

Section Invariant.
Context {L : Libs}.

Lemma JournalEntry_splat_constructed (entry : pyval) (w w' : World)
    (e : JournalEntry) :
  sane_clock w ->
  JournalEntry_splat entry w = (Ok e, w') -> constructed e.
Proof.
  intros Hclock. destruct entry; try discriminate.
  cbn. unfold JournalEntry_kwargs.
  repeat match goal with
  | |- context [match ?x with _ => _ end] => destruct x
  end; try discriminate.
  intros [= <- _]. exists (clock w (ticks w)).
  split; [apply Hclock | reflexivity].
Qed.

Lemma build_entries_constructed (items : list pyval) (w w' : World)
    (es : list JournalEntry) :
  sane_clock w ->
  build_entries items w = (Ok es, w') -> Forall constructed es.
Proof.
  revert w w' es. induction items as [| entry rest IH]; intros w w' es Hclock.
  - intros [= <- _]. constructor.
  - cbn. unfold bind.
    destruct (JournalEntry_splat_ticks entry w) as (r & n & Hsplat).
    rewrite Hsplat. destruct r as [e |]; [| discriminate].
    destruct (build_entries rest (with_ticks n w)) as [[es' |] w2] eqn:Hrest;
      [| discriminate].
    intros [= <- _]. constructor.
    + eapply JournalEntry_splat_constructed; eassumption.
    + eapply (IH (with_ticks n w)); [exact Hclock | exact Hrest].
Qed.

Lemma load_entries_constructed (self m' : JournalManager) (w w' : World) :
  sane_clock w -> Forall constructed (entries self) ->
  load_entries self w = (Ok m', w') -> Forall constructed (entries m').
Proof.
  intros Hclock Hself. unfold load_entries, try_except.
  destruct (load_entries_body self w) as [[m |] w1] eqn:Hbody.
  2: { intros [= <- _]. constructor. }
  intros [= <- _]. revert Hbody.
  unfold load_entries_body, bind, path_exists, read_file, _decrypt, lift, ret.
  destruct (bool_decide _); [| intros [= <- _]; exact Hself].
  destruct (read_faults w (filename self)); [discriminate |].
  destruct (files w !! filename self) as [content |]; [| discriminate].
  destruct (negb _); [| intros [= <- _]; constructor].
  destruct (fernet_decrypt _ _); [| discriminate].
  destruct (json_loads _); [| discriminate].
  destruct (py_iter _) as [items |]; [| discriminate].
  destruct (build_entries items w) as [[es |] w2] eqn:Hbuild; [| discriminate].
  intros [= <- _]. cbn. eapply build_entries_constructed; eassumption.
Qed.

(** A store just opened holds constructed entries only. *)
Lemma open_store_constructed (user : string) (m : JournalManager)
    (w w' : World) :
  sane_clock w ->
  JournalManager_init user w = (Ok m, w') -> Forall constructed (entries m).
Proof.
  intros Hclock. unfold JournalManager_init, bind.
  destruct (_get_or_create_key user w) as [[k |] w1] eqn:Hkey; [| discriminate].
  assert (Hclock1 : sane_clock w1).
  { revert Hkey.
    unfold _get_or_create_key, bind, path_exists, read_file, draw, write_file,
      ret.
    destruct (bool_decide _).
    - destruct (read_faults w _); [discriminate |].
      destruct (files w !! _); [| discriminate].
      intros [= _ <-]. exact Hclock.
    - cbn. destruct (write_faults w _) as [[| n] |]; try discriminate.
      intros [= _ <-]. exact Hclock. }
  unfold lift. destruct (Fernet_new k); [| discriminate].
  apply load_entries_constructed; [exact Hclock1 | constructor].
Qed.

(** The mutating methods keep the invariant when they are handed a
    constructed entry. *)
Lemma mutations_keep_constructed (self : JournalManager) (index : Z)
    (entry : JournalEntry) (w : World) :
  Forall constructed (entries self) -> constructed entry ->
  (forall m' w', add_entry self entry w = (Ok m', w') ->
     Forall constructed (entries m')) /\
  (forall b m' w', edit_entry self index entry w = (Ok (b, m'), w') ->
     Forall constructed (entries m')) /\
  (forall b m' w', delete_entry self index w = (Ok (b, m'), w') ->
     Forall constructed (entries m')).
Proof.
  intros Hself Hentry. split; [| split].
  - intros m' w'. unfold add_entry, bind.
    destruct (save_entries _ w) as [[[] |] w1]; [| discriminate].
    intros [= <- _]. cbn. apply Forall_app. split; [exact Hself |].
    constructor; [exact Hentry | constructor].
  - intros b m' w'. unfold edit_entry.
    destruct ((0 <=? index) && _); [| intros [= _ <- _]; exact Hself].
    unfold bind. destruct (save_entries _ w) as [[[] |] w1]; [| discriminate].
    intros [= _ <- _]. cbn. apply Forall_insert; assumption.
  - intros b m' w'. unfold delete_entry.
    destruct ((0 <=? index) && _); [| intros [= _ <- _]; exact Hself].
    unfold bind. destruct (save_entries _ w) as [[[] |] w1]; [| discriminate].
    intros [= _ <- _]. cbn. apply Forall_delete, Hself.
Qed.

End Invariant.

(** *** Searching by date range *)

Lemma entry_day_constructed (e : JournalEntry) (t : datetime) :
  valid_datetime t = true -> date e = strftime t ->
  entry_day e = Some (calendar_date t).
Proof.
  intros Hvalid Hdate. unfold entry_day. rewrite Hdate.
  apply strptime_strftime, Hvalid.
Qed.

Lemma entries_between_filter (start end_ : ymd) (es : list JournalEntry) :
  Forall constructed es ->
  entries_between start end_ es = Ok (List.filter (within start end_) es).
Proof.
  induction 1 as [| e es (t & Hvalid & Hdate) _ IH]; [reflexivity |].
  cbn [entries_between List.filter]. unfold within at 1.
  rewrite (entry_day_constructed e t Hvalid Hdate), IH. reflexivity.
Qed.




(** *** Timestamps of entries *)

Lemma is_digit_char (d : Z) : 0 <= d <= 9 -> is_digit (digit_char d) = true.
Proof. intros Hd. unfold is_digit. rewrite digit_val_char by exact Hd. reflexivity. Qed.

Lemma strftime_is_timestamp (t : datetime) :
  valid_datetime t = true -> is_timestamp (strftime t) = true.
Proof.
  unfold valid_datetime. rewrite !andb_true_iff, !Z.leb_le. intros Hv.
  pose proof (days_in_month_le_31 (year t) (month t)).
  unfold strftime, pad4, pad2. norm_app.
  unfold is_timestamp. cbn [forallb].
  rewrite !is_digit_char by (Z.to_euclidean_division_equations; lia).
  reflexivity.
Qed.

Lemma JournalEntry_init_date
    (title content mood mood_rating tags completed_tasks forgettable_thing : pyval)
    (w : World) :
  exists e,
    JournalEntry_init title content mood mood_rating tags completed_tasks
      forgettable_thing w = (Ok e, with_ticks (S (ticks w)) w) /\
    date e = strftime (clock w (ticks w)).
Proof. eexists. split; reflexivity. Qed.

(** C8.  The constructor writes [date] once, from the clock, in the form
    [YYYY-MM-DD HH:MM:SS]; no method of the store rewrites the [date] of an
    entry: [edit_entry] puts the entry it is given, with the timestamp that
    entry was constructed with, in place of the old one and leaves every
    other entry as it is; [add_entry] and [delete_entry] keep the entries
    they retain as they are. *)
Theorem date_assigned_once {L : Libs}
    (title content mood mood_rating tags completed_tasks forgettable_thing : pyval)
    (w0 : World) :
  valid_datetime (clock w0 (ticks w0)) = true ->
  exists new_entry w1,
    JournalEntry_init title content mood mood_rating tags completed_tasks
      forgettable_thing w0 = (Ok new_entry, w1) /\
    date new_entry = strftime (clock w0 (ticks w0)) /\
    is_timestamp (date new_entry) = true /\
    (forall self index w,
       0 <= index < Z.of_nat (length (entries self)) ->
       exists self' w',
         edit_entry self index new_entry w = (Ok (true, self'), w') /\
         entries self' !! Z.to_nat index = Some new_entry /\
         length (entries self') = length (entries self) /\
         forall j, j <> Z.to_nat index ->
                   entries self' !! j = entries self !! j) /\
    (forall self w,
       exists self' w',
         add_entry self new_entry w = (Ok self', w') /\
         entries self' = entries self ++ [new_entry]) /\
    (forall self index w,
       0 <= index < Z.of_nat (length (entries self)) ->
       exists self' w',
         delete_entry self index w = (Ok (true, self'), w') /\
         forall e, In e (entries self') -> In e (entries self)).
Proof.
  intros Hvalid.
  destruct (JournalEntry_init_date title content mood mood_rating tags
              completed_tasks forgettable_thing w0) as (e & Hinit & Hdate).
  exists e, (with_ticks (S (ticks w0)) w0).
  split; [exact Hinit |]. split; [exact Hdate |].
  split; [rewrite Hdate; apply strftime_is_timestamp, Hvalid |].
  split; [| split].
  - intros self index w Hr.
    eexists _, _. split; [apply edit_entry_in_range, Hr |]. cbn.
    split; [apply list_lookup_insert_eq; lia |].
    split; [apply length_insert |].
    intros j Hj. apply list_lookup_insert_ne. congruence.
  - intros self w. unfold add_entry, bind.
    pose proof (save_entries_total
                  (set_entries (entries self ++ [e]) self) w) as Hsave.
    destruct (save_entries _ w) as [r w']. cbn in Hsave. subst r.
    eexists _, _. split; reflexivity.
  - intros self index w Hr.
    eexists _, _. split; [apply delete_entry_in_range, Hr |]. cbn.
    intros x Hx. apply list_elem_of_In in Hx. apply list_elem_of_In.
    eapply list_elem_of_delete_inv, Hx.
Qed.

(** *** Saving, then opening again *)

Section RoundTrip.
Context {L : Libs} {Laws : LibLaws L}.

(** The record [to_dict] makes is refused by the constructor: [date] names
    none of its parameters. *)
Lemma constructor_refuses_record (e : JournalEntry) (w : World) :
  JournalEntry_splat (to_dict e) w =
    (Raise (TypeError
            "JournalEntry.__init__() got an unexpected keyword argument 'date'"), w).
Proof. reflexivity. Qed.

Lemma key_file_is_not_backup (user : string) :
  "key_" +:+ user +:+ ".key" <> "backup_" +:+ "journal_" +:+ user +:+ ".json".
Proof. rewrite !app_String. discriminate. Qed.

(** Saving on a healthy disk and opening again under the same key: the
    token decrypts, the text parses, and the records reach the
    constructor. *)
Lemma reload_reaches_constructor (user k : string) (es : list JournalEntry)
    (w : World) :
  let key_file := "key_" +:+ user +:+ ".key" in
  let data_file := "journal_" +:+ user +:+ ".json" in
  let backup_file := "backup_" +:+ data_file in
  let self := set_entries es (fresh_store user k) in
  fernet_valid_key k = true ->
  wf_pyval (PyList (map to_dict es)) = true ->
  files w !! key_file = Some k ->
  read_faults w key_file = false ->
  read_faults w data_file = false ->
  write_faults w data_file = None ->
  write_faults w backup_file = None ->
  exists w1,
    save_entries self w = (Ok tt, w1) /\
    console w1 = console w /\
    JournalManager_init user w1 =
      try_except
        (bind (build_entries (map to_dict es))
              (fun es' => ret (set_entries es' (fresh_store user k))))
        (fun e => bind (print (ErrorLoadingJournal e))
                       (fun _ => ret (set_entries [] (fresh_store user k))))
        w1.
Proof.
  intros key_file data_file backup_file self.
  intros Hvalid Hwf Hkeyfile Hrk Hrd Hwd Hwb.
  destruct (dumps_loads _ Hwf) as (text & Hdumps & Hloads).
  destruct (encrypt_decrypt k (entropy w) text Hvalid)
    as (token & Henc & Hnonempty & Hdec).
  (* the save *)
  assert (Hsave : save_entries self w =
    (Ok tt,
     with_files (<[backup_file := token]> (<[data_file := token]> (files w)))
       (with_entropy (S (entropy w)) w))).
  { unfold save_entries, try_except, save_entries_body, bind, lift, _encrypt,
      draw, write_file.
    cbn [entries set_entries self fresh_store cipher fernet_key filename].
    rewrite Hdumps. cbn. rewrite Henc. cbn.
    fold data_file. rewrite Hwd. cbn. fold backup_file. rewrite Hwb.
    reflexivity. }
  eexists. split; [exact Hsave |]. split; [reflexivity |].
  (* the key is read back *)
  set (w1 := with_files _ _).
  assert (Hkey : _get_or_create_key user w1 = (Ok k, w1)).
  { apply key_file_read; [| exact Hrk].
    subst w1. cbn. fold key_file.
    rewrite lookup_insert_ne
      by (intros Heq; symmetry in Heq; revert Heq; apply key_file_is_not_backup).
    rewrite lookup_insert_ne
      by (intros Heq; symmetry in Heq; revert Heq; apply key_file_is_not_journal).
    exact Hkeyfile. }
  rewrite (init_with_key _ _ _ _ Hkey Hvalid).
  (* the load *)
  assert (Hfile : files w1 !! data_file = Some token).
  { subst w1. cbn.
    rewrite lookup_insert_ne by apply backup_name_differs.
    apply lookup_insert_eq. }
  unfold load_entries, try_except, load_entries_body, bind, path_exists,
    read_file, _decrypt, lift.
  cbn [filename fresh_store cipher fernet_key]. fold data_file.
  rewrite bool_decide_eq_true_2 by (rewrite Hfile; eexists; reflexivity).
  replace (read_faults w1 data_file) with false by (symmetry; exact Hrd).
  rewrite Hfile.
  replace (negb (String.eqb token "")) with true
    by (symmetry; apply negb_true_iff, String.eqb_neq, Hnonempty).
  rewrite Hdec, Hloads. reflexivity.
Qed.

(** The one journal that survives: the empty one. *)
Lemma reload_empty_journal (user k : string) (w : World) :
  let key_file := "key_" +:+ user +:+ ".key" in
  let data_file := "journal_" +:+ user +:+ ".json" in
  let backup_file := "backup_" +:+ data_file in
  fernet_valid_key k = true ->
  files w !! key_file = Some k ->
  read_faults w key_file = false ->
  read_faults w data_file = false ->
  write_faults w data_file = None ->
  write_faults w backup_file = None ->
  exists w1 reopened w2,
    save_entries (fresh_store user k) w = (Ok tt, w1) /\
    JournalManager_init user w1 = (Ok reopened, w2) /\
    entries reopened = [] /\
    console w2 = console w.
Proof.
  intros key_file data_file backup_file Hvalid Hkeyfile Hrk Hrd Hwd Hwb.
  destruct (reload_reaches_constructor user k [] w Hvalid eq_refl Hkeyfile
              Hrk Hrd Hwd Hwb) as (w1 & Hsave & Hconsole & Hopen).
  exists w1. eexists _, _. split; [exact Hsave |].
  split; [rewrite Hopen; reflexivity |]. split; [reflexivity | exact Hconsole].
Qed.

(** C1, as the code has it.  A store that holds at least one entry is
    saved on a healthy disk and opened again under the same key: the token
    decrypts and the text parses, but the first record carries the key
    [date], the constructor raises [TypeError], [load_entries] catches it,
    and the reopened store holds no entry at all. *)
Theorem reload_loses_entries (user k : string) (e : JournalEntry)
    (es : list JournalEntry) (w : World) :
  let key_file := "key_" +:+ user +:+ ".key" in
  let data_file := "journal_" +:+ user +:+ ".json" in
  let backup_file := "backup_" +:+ data_file in
  let self := set_entries (e :: es) (fresh_store user k) in
  fernet_valid_key k = true ->
  wf_pyval (PyList (map to_dict (e :: es))) = true ->
  files w !! key_file = Some k ->
  read_faults w key_file = false ->
  read_faults w data_file = false ->
  write_faults w data_file = None ->
  write_faults w backup_file = None ->
  exists w1 reopened w2,
    save_entries self w = (Ok tt, w1) /\
    JournalManager_init user w1 = (Ok reopened, w2) /\
    entries reopened = [] /\
    entries reopened <> entries self /\
    console w2 =
      console w ++
      [ErrorLoadingJournal
         (TypeError
            "JournalEntry.__init__() got an unexpected keyword argument 'date'")].
Proof.
  intros key_file data_file backup_file self.
  intros Hvalid Hwf Hkeyfile Hrk Hrd Hwd Hwb.
  destruct (reload_reaches_constructor user k (e :: es) w Hvalid Hwf Hkeyfile
              Hrk Hrd Hwd Hwb) as (w1 & Hsave & Hconsole & Hopen).
  exists w1. eexists _, _. split; [exact Hsave |].
  split.
  { rewrite Hopen. unfold try_except, bind.
    cbn [map build_entries]. unfold bind.
    rewrite constructor_refuses_record. reflexivity. }
  split; [reflexivity |]. split; [discriminate |].
  cbn. rewrite Hconsole. reflexivity.
Qed.

End RoundTrip.

End StoreFacts.

(* ===================================================================== *)
(** ** The theorems on sample journals *)
(* ===================================================================== *)

Module Scenarios.
Import Reference Samples MoreSamples ReferenceFacts StoreFacts.

(** Two entries are saved by [ann] and the journal is opened again: the
    reopened store is empty. *)
Lemma reload_loses_entries_witness :
  exists w1 reopened w2,
    save_entries (ann [entry_A; entry_B]) (machine ann_key_file) = (Ok tt, w1) /\
    JournalManager_init "ann" w1 = (Ok reopened, w2) /\
    entries reopened = [] /\
    entries reopened <> [entry_A; entry_B] /\
    console w2 =
      [ErrorLoadingJournal
         (TypeError
            "JournalEntry.__init__() got an unexpected keyword argument 'date'")].
Proof.
  apply (reload_loses_entries "ann" key_A entry_A [entry_B]
           (machine ann_key_file)); reflexivity.
Defined.

(** The key file of [ann] holds text that is no key: [main] gets a
    [ValueError] from [JournalManager(username)], which nothing catches. *)
Lemma corrupt_key_is_uncaught :
  files (machine ann_corrupt_key) !! "key_ann.key" = Some "not a key" /\
  main_opens_store "ann" (machine ann_corrupt_key) =
    (Raise (ValueError "Fernet key must be 32 url-safe base64-encoded bytes."),
     machine ann_corrupt_key).
Proof. split; reflexivity. Qed.

Lemma key_lifecycle_witness :
  (exists m w',
     JournalManager_init "ann" (machine ∅) = (Ok m, w') /\
     key m = key_A /\
     files w' = <["key_ann.key" := key_A]> ∅) /\
  JournalManager_init "ann" (machine ann_corrupt_key) =
    (Raise (ValueError "Fernet key must be 32 url-safe base64-encoded bytes."),
     machine ann_corrupt_key).
Proof.
  destruct (key_lifecycle "ann" (machine ∅)) as (Hmissing & _ & _).
  destruct (key_lifecycle "ann" (machine ann_corrupt_key)) as (_ & _ & Hcorrupt).
  split.
  - destruct Hmissing as (m & w' & Hinit & Hkey & Hfiles); [reflexivity .. |].
    exists m, w'. split; [exact Hinit |]. split; [exact Hkey |].
    rewrite Hfiles, Hkey. reflexivity.
  - apply (Hcorrupt "not a key"); reflexivity.
Defined.

(** [edit(5, ...)] on a one-entry collection fails and changes nothing;
    [edit(0, ...)] and [delete(0)] succeed. *)
Lemma edit_delete_index_safety_witness :
  edit_entry (ann [entry_A]) 5 entry_B (machine ann_key_file) =
    (Ok (false, ann [entry_A]), machine ann_key_file) /\
  delete_entry (ann [entry_A]) (-1) (machine ann_key_file) =
    (Ok (false, ann [entry_A]), machine ann_key_file) /\
  fst (edit_entry (ann [entry_A]) 0 entry_B (machine ann_key_file)) =
    Ok (true, ann [entry_B]) /\
  fst (delete_entry (ann [entry_A]) 0 (machine ann_key_file)) =
    Ok (true, ann []).
Proof.
  destruct (edit_delete_index_safety (ann [entry_A]) 5 entry_B
              (machine ann_key_file)) as (_ & Hout5 & _ & _).
  destruct (edit_delete_index_safety (ann [entry_A]) (-1) entry_B
              (machine ann_key_file)) as (_ & Hneg & _ & _).
  destruct (edit_delete_index_safety (ann [entry_A]) 0 entry_B
              (machine ann_key_file)) as (_ & _ & Hedit & Hdel).
  split; [apply Hout5; cbn; lia |].
  split; [apply Hneg; cbn; lia |].
  split; [apply Hedit; cbn; lia | apply Hdel; cbn; lia].
Defined.





(** A record has eight keys, [date] among them. *)
Lemma record_has_eight_keys :
  record_size (to_dict entry_A) = 8%nat /\
  record_size (to_dict entry_A) <> 7%nat /\
  record_get "date" (to_dict entry_A) = Some (PyStr "2024-03-07 09:05:00").
Proof. repeat split. discriminate. Qed.




(** An entry made at noon replaces the entry of [ann] at index 0. *)
Lemma date_assigned_once_witness :
  exists new_entry,
    date new_entry = "2024-03-07 12:00:00" /\
    exists self' w',
      edit_entry (ann [entry_A]) 0 new_entry (machine ann_key_file) =
        (Ok (true, self'), w') /\
      entries self' = [new_entry].
Proof.
  destruct (date_assigned_once
              (PyStr "A") (PyStr "rewritten") (PyStr "calm") (PyInt 6)
              PyNone PyNone PyNone (machine ∅))
    as (new_entry & w1 & Hinit & Hdate & _ & Hedit & _ & _);
    [reflexivity |].
  exists new_entry. split; [rewrite Hdate; reflexivity |].
  destruct (Hedit (ann [entry_A]) 0 (machine ann_key_file))
    as (self' & w' & Hcall & Hat & Hlen & _); [cbn; lia |].
  exists self', w'. split; [exact Hcall |].
  destruct (entries self') as [| x [| y l]]; try discriminate.
  change ([x] !! Z.to_nat 0) with (Some x) in Hat.
  injection Hat as ->. reflexivity.
Defined.



(** The disk fills up while the journal of [ann] is written: the backup
    stays absent; on a healthy disk both files hold the same token. *)
Lemma backup_written_last_witness :
  files (snd (save_entries (ann [entry_A])
                (disk_full "journal_ann.json" ann_key_file)))
    !! "backup_journal_ann.json" = None /\
  exists token,
    files (snd (save_entries (ann [entry_A]) (machine ann_key_file)))
      !! "journal_ann.json" = Some token /\
    files (snd (save_entries (ann [entry_A]) (machine ann_key_file)))
      !! "backup_journal_ann.json" = Some token.
Proof.
  destruct (backup_written_last (ann [entry_A])
              (disk_full "journal_ann.json" ann_key_file))
    as (_ & _ & Hprimary & _).
  destruct (backup_written_last (ann [entry_A]) (machine ann_key_file))
    as (_ & _ & _ & Hboth).
  split.
  - etransitivity;
      [exact (Hprimary _ _ _ eq_refl eq_refl eq_refl) | reflexivity].
  - eexists.

    destruct (Hboth _ _ eq_refl eq_refl eq_refl eq_refl) as (H1 & H2 & _).
    split; [exact H1 | exact H2].
Defined.

(** The scenario of the specification: add A, add B, delete index 0, then
    an edit at index 5 of the one-entry collection. *)
Example add_add_delete_edit :
  let r1 := add_entry (ann []) entry_A (machine ann_key_file) in
  let r2 := add_entry (ann [entry_A]) entry_B (snd r1) in
  let r3 := delete_entry (ann [entry_A; entry_B]) 0 (snd r2) in
  let r4 := edit_entry (ann [entry_B]) 5 entry_A (snd r3) in
  fst r1 = Ok (ann [entry_A]) /\
  fst r2 = Ok (ann [entry_A; entry_B]) /\
  fst r3 = Ok (true, ann [entry_B]) /\
  fst r4 = Ok (false, ann [entry_B]) /\
  console (snd r4) = [].
Proof. cbv zeta. repeat split; vm_compute; reflexivity. Qed.

End Scenarios.

(* ===================================================================== *)
(** ** More facts about the store *)
(* ===================================================================== *)

Module StoreExtras.
Import ClockFacts StoreFacts.

Section WithLibs.
Context {L : Libs}.

(** X1.  [add_entry] puts the entry at the end, at index [N], and keeps the
    [N] entries before it where they are; deleting index [N] right after
    gives back the store as it was. *)
Theorem add_then_delete_last (self : JournalManager) (entry : JournalEntry)
    (w : World) :
  let N := length (entries self) in
  exists added w1 w2,
    add_entry self entry w = (Ok added, w1) /\
    length (entries added) = S N /\
    entries added !! N = Some entry /\
    (forall j, (j < N)%nat -> entries added !! j = entries self !! j) /\
    delete_entry added (Z.of_nat N) w1 = (Ok (true, self), w2).
Proof.
  intros N.
  set (added := set_entries (entries self ++ [entry]) self).
  assert (Hadd : add_entry self entry w = (Ok added, snd (save_entries added w))).
  { unfold add_entry, bind. fold added.
    pose proof (save_entries_total added w) as Hs.
    destruct (save_entries added w) as [r w1]. cbn in Hs. subst r.
    reflexivity. }
  exists added, (snd (save_entries added w)). eexists.
  split; [exact Hadd |].
  split; [cbn; rewrite length_app; cbn; lia |].
  split; [cbn; apply list_lookup_middle; reflexivity |].
  split; [intros j Hj; cbn; apply lookup_app_l; exact Hj |].
  rewrite delete_entry_in_range
    by (cbn; rewrite length_app; cbn; subst N; lia).
  cbn. rewrite Nat2Z.id. fold N.
  replace (delete N (entries self ++ [entry])) with (entries self).
  - destruct self; reflexivity.
  - subst N. rewrite delete_middle. rewrite app_nil_r. reflexivity.
Qed.

(** X2.  [delete_entry] at a valid index removes that one entry: the
    collection is one shorter, the entries before the index keep their
    index, and every entry after it moves down by one. *)
Theorem delete_shifts_down (self : JournalManager) (index : Z) (w : World) :
  0 <= index < Z.of_nat (length (entries self)) ->
  exists self' w',
    delete_entry self index w = (Ok (true, self'), w') /\
    S (length (entries self')) = length (entries self) /\
    (forall j, (j < Z.to_nat index)%nat ->
               entries self' !! j = entries self !! j) /\
    (forall j, (Z.to_nat index <= j)%nat ->
               entries self' !! j = entries self !! S j).
Proof.
  intros Hr. eexists _, _.
  split; [apply delete_entry_in_range, Hr |]. cbn.
  split; [| split].
  - rewrite length_delete by (apply lookup_lt_is_Some; lia).
    destruct (entries self); cbn in *; lia.
  - intros j Hj. apply list_lookup_delete_lt, Hj.
  - intros j Hj. apply list_lookup_delete_ge, Hj.
Qed.



(** X5.  Opening a store twice: the first opening, with no key file,
    generates and stores a key; the second reads that same key back and
    changes no file. *)
Theorem key_is_stable {Laws : LibLaws L} (user : string) (w : World) :
  let key_file := "key_" +:+ user +:+ ".key" in
  files w !! key_file = None ->
  write_faults w key_file = None ->
  read_faults w key_file = false ->
  exists first w1 second w2,
    JournalManager_init user w = (Ok first, w1) /\
    JournalManager_init user w1 = (Ok second, w2) /\
    key second = key first /\
    files w1 !! key_file = Some (key first) /\
    files w2 = files w1.
Proof.
  intros key_file Hnone Hwrite Hread. subst key_file.
  pose proof (key_file_created user w Hnone Hwrite) as Hkey.
  set (k := fernet_generate_key (entropy w)) in *.
  set (w0 := with_files _ _) in Hkey.
  pose proof (generate_key_valid (entropy w)) as Hvalid. fold k in Hvalid.
  destruct (load_entries_shape (fresh_store user k) w0)
    as (es & w1 & Hload & Hfiles1).
  assert (Hfile1 : files w1 !! ("key_" +:+ user +:+ ".key") = Some k).
  { rewrite Hfiles1. subst w0. cbn. apply lookup_insert_eq. }
  assert (Hread1 : read_faults w1 ("key_" +:+ user +:+ ".key") = false).
  { unfold load_entries, try_except in Hload.
    destruct (load_entries_body_ticks (fresh_store user k) w0)
      as (r & n & Hbody).
    rewrite Hbody in Hload. destruct r; injection Hload as _ <-; exact Hread. }
  pose proof (key_file_read user k w1 Hfile1 Hread1) as Hkey1.
  destruct (load_entries_shape (fresh_store user k) w1)
    as (es2 & w2 & Hload2 & Hfiles2).
  exists (set_entries es (fresh_store user k)), w1,
         (set_entries es2 (fresh_store user k)), w2.
  split; [rewrite (init_with_key _ _ _ _ Hkey Hvalid); exact Hload |].
  split; [rewrite (init_with_key _ _ _ _ Hkey1 Hvalid); exact Hload2 |].
  split; [reflexivity |]. split; [exact Hfile1 | exact Hfiles2].
Qed.

(** X6.  Once a key file exists, opening the store never writes: whatever
    the key file and the journal hold, and whether [__init__] returns or
    raises, every file is as before: a broken key file is never replaced by
    a fresh key. *)
Theorem open_with_key_file_writes_nothing (user : string) (w : World)
    (content : string) :
  files w !! ("key_" +:+ user +:+ ".key") = Some content ->
  files (snd (JournalManager_init user w)) = files w.
Proof.
  intros Hfile.
  pose proof (key_file_read user content w Hfile) as Hkey.
  unfold JournalManager_init, bind.
  destruct (read_faults w ("key_" +:+ user +:+ ".key")) eqn:Hread.
  { unfold _get_or_create_key, bind, path_exists, read_file.
    rewrite bool_decide_eq_true_2 by (rewrite Hfile; eexists; reflexivity).
    rewrite Hread. reflexivity. }
  rewrite (Hkey eq_refl). unfold lift.
  destruct (Fernet_new content) as [c |]; [| reflexivity].
  match goal with
  | |- context [load_entries ?m w] =>
      destruct (load_entries_shape m w) as (es & w' & -> & Hfiles)
  end.
  exact Hfiles.
Qed.

Lemma find_among_params (kw : list (string * pyval)) :
  forallb (fun kv => existsb (String.eqb (fst kv)) init_params) kw = true ->
  List.find (fun kv => negb (existsb (String.eqb (fst kv)) init_params)) kw
    = None.
Proof.
  induction kw as [| kv kw IH]; [reflexivity |].
  cbn [forallb List.find]. intros Hall.
  apply andb_true_iff in Hall as [-> Hrest]. cbn. apply IH, Hrest.
Qed.

(** X7.  Records without a [date] key (and with nothing else the
    constructor refuses) do load: each becomes an entry with the values of
    the record, and its [date] is the time of loading, read from the clock
    once per record. *)
Theorem load_stamps_entries_anew (self : JournalManager) (w : World)
    (token text : string) (records : list (list (string * pyval))) :
  files w !! filename self = Some token ->
  read_faults w (filename self) = false ->
  token <> "" ->
  fernet_decrypt (fernet_key (cipher self)) token = Ok text ->
  json_loads text = Ok (PyList (map PyDict records)) ->
  forallb fits records = true ->
  load_entries self w =
    (Ok (set_entries (entries_from (clock w) (ticks w) records) self),
     with_ticks (ticks w + length records) w).
Proof.
  intros Hfile Hread Hne Hdec Hloads Hfits.
  unfold load_entries, try_except, load_entries_body, bind, path_exists,
    read_file, _decrypt, lift.
  rewrite bool_decide_eq_true_2 by (rewrite Hfile; eexists; reflexivity).
  rewrite Hread, Hfile.
  replace (negb (String.eqb token "")) with true
    by (symmetry; apply negb_true_iff, String.eqb_neq, Hne).
  rewrite Hdec, Hloads. cbn [py_iter].
  assert (Hbuild : forall recs w0,
    forallb fits recs = true ->
    build_entries (map PyDict recs) w0 =
      (Ok (entries_from (clock w0) (ticks w0) recs),
       with_ticks (ticks w0 + length recs) w0)).
  { clear. induction recs as [| kw recs IH]; intros w0 Hf.
    - cbn. rewrite Nat.add_0_r, with_ticks_id. reflexivity.
    - cbn in Hf. apply andb_true_iff in Hf as [Hkw Hrest].
      unfold fits in Hkw. apply andb_true_iff in Hkw as [Hkeys Hreq].
      cbn [map build_entries]. unfold bind at 1.
      cbn [JournalEntry_splat]. unfold JournalEntry_kwargs.
      replace (List.find _ kw) with (@None (string * pyval)).
      2: { symmetry. apply find_among_params, Hkeys. }
      destruct (dict_get "title" kw) as [t |] eqn:Ht; [| discriminate].
      destruct (dict_get "content" kw) as [c |] eqn:Hc; [| discriminate].
      destruct (dict_get "mood" kw) as [m |] eqn:Hm; [| discriminate].
      destruct (dict_get "mood_rating" kw) as [r |] eqn:Hr; [| discriminate].
      unfold JournalEntry_init, bind, datetime_now, ret. cbn.
      rewrite (IH (with_ticks (S (ticks w0)) w0) Hrest). cbn.
      unfold entry_from, get_or_none. rewrite Ht, Hc, Hm, Hr. cbn.
      replace (S (ticks w0 + length recs)) with (ticks w0 + S (length recs))%nat
        by lia.
      reflexivity. }
  rewrite (Hbuild records w Hfits). reflexivity.
Qed.

(** X8.  The journal that a failed load left on disk does not outlive the
    next change: after the load fell back to an empty collection, an
    [add_entry] on a healthy disk replaces the primary file and the backup
    by a journal of the new entry alone. *)
Theorem add_after_failed_load_overwrites (self : JournalManager)
    (entry : JournalEntry) (w w1 : World) (e : exn) (data token : string) :
  let backup_file := "backup_" +:+ filename self in
  load_entries_body self w = (Raise e, w1) ->
  json_dumps (PyList [to_dict entry]) = Ok data ->
  fernet_encrypt (fernet_key (cipher self)) (entropy w) data = Ok token ->
  write_faults w (filename self) = None ->
  write_faults w backup_file = None ->
  exists loaded w2 added w3,
    load_entries self w = (Ok loaded, w2) /\
    add_entry loaded entry w2 = (Ok added, w3) /\
    entries added = [entry] /\
    files w3 !! filename self = Some token /\
    files w3 !! backup_file = Some token.
Proof.
  intros backup_file Hbody Hdumps Henc Hp Hb.
  destruct (load_entries_body_ticks self w) as (r & n & Hticks).
  rewrite Hbody in Hticks. injection Hticks as _ ->.
  exists (set_entries [] self). eexists. exists (set_entries [entry] self).
  eexists.
  split; [unfold load_entries, try_except; rewrite Hbody; reflexivity |].
  unfold add_entry, bind, save_entries, try_except, save_entries_body, bind,
    lift, _encrypt, draw, write_file.
  cbn. rewrite Hdumps. cbn. rewrite Henc. cbn. rewrite Hp. cbn.
  fold backup_file. rewrite Hb.
  split; [reflexivity |]. split; [reflexivity |]. cbn.
  split; [| apply lookup_insert_eq].
  rewrite lookup_insert_ne by (intros Heq; exact (backup_name_differs _ Heq)).
  apply lookup_insert_eq.
Qed.

End WithLibs.

(** X9.  The day of an entry is read back from its [date]: for an entry
    the constructor makes at a valid reading of the clock, parsing the first
    ten characters of [date] gives the calendar date of that reading. *)
Theorem constructor_day_round_trip
    (title content mood mood_rating tags completed_tasks forgettable_thing : pyval)
    (w : World) :
  valid_datetime (clock w (ticks w)) = true ->
  exists e w',
    JournalEntry_init title content mood mood_rating tags completed_tasks
      forgettable_thing w = (Ok e, w') /\
    entry_day e = Some (calendar_date (clock w (ticks w))).
Proof.
  intros Hvalid. eexists _, _. split; [reflexivity |].
  unfold entry_day. cbn. apply strptime_strftime, Hvalid.
Qed.

Lemma ymd_le_trans (a b c : ymd) :
  ymd_le a b = true -> ymd_le b c = true -> ymd_le a c = true.
Proof.
  unfold ymd_le. destruct a, b, c; cbn.
  rewrite !orb_true_iff, !andb_true_iff, !orb_true_iff, !andb_true_iff,
    !Z.ltb_lt, !Z.eqb_eq, !Z.leb_le.
  lia.
Qed.

(** X10.  A range whose start lies after its end finds nothing: the search
    answers with an empty result (the no-match line), not with an error. *)
Theorem inverted_range_finds_nothing (self : JournalManager)
    (start_date end_date : string) (start end_ : ymd) (w : World) :
  strptime start_date = Some start ->
  strptime end_date = Some end_ ->
  ymd_le start end_ = false ->
  Forall constructed (entries self) ->
  date_range_found self start_date end_date = Ok [] /\
  search_entries_by_date self start_date end_date w =
    (Ok tt, with_console (console w ++ [NoMatchingEntries]) w).
Proof.
  intros Hs He Hinv Hcons.
  assert (Hfound : date_range_found self start_date end_date = Ok []).
  { unfold date_range_found. rewrite Hs, He.
    rewrite (entries_between_filter _ _ _ Hcons). f_equal.
    induction (entries self) as [| x l IH]; [reflexivity |].
    cbn. inversion Hcons as [| ? ? _ Hl]; subst.
    replace (within start end_ x) with false; [apply IH, Hl |].
    symmetry. unfold within. destruct (entry_day x) as [d |]; [| reflexivity].
    destruct (ymd_le start d) eqn:Hsd; [| reflexivity].
    destruct (ymd_le d end_) eqn:Hde; [| reflexivity].
    rewrite (ymd_le_trans _ _ _ Hsd Hde) in Hinv. discriminate. }
  split; [exact Hfound |].
  unfold search_entries_by_date. rewrite Hfound. reflexivity.
Qed.

End StoreExtras.

(* ===================================================================== *)
(** ** Facts about searching by mood and by tag *)
(* ===================================================================== *)

Module QueryFacts.
Import ClockFacts.

Lemma starts_with_spec (p s : string) :
  starts_with p s = true <-> exists b, s = p +:+ b.
Proof.
  revert s. induction p as [| a p IH]; intros s.
  - destruct s; cbn; split; eauto.
  - destruct s as [| c s]; cbn.
    + split; [discriminate | intros [b Hb]; discriminate].
    + rewrite andb_true_iff, IH. split.
      * intros [Hac [b ->]]. apply Ascii.eqb_eq in Hac as ->.
        exists b. reflexivity.
      * intros [b Hb]. rewrite app_String in Hb. injection Hb as -> ->.
        split; [apply Ascii.eqb_refl | eauto].
Qed.

(** [needle in haystack] holds exactly when the haystack is some text, the
    needle, and some text. *)
Lemma contains_spec (needle haystack : string) :
  contains needle haystack = true <->
  exists a b, haystack = a +:+ needle +:+ b.
Proof.
  induction haystack as [| c h IH].
  - cbn. rewrite orb_false_r, starts_with_spec. split.
    + intros [b Hb]. exists "", b. exact Hb.
    + intros (a & b & Hab). destruct a as [| x a]; [eauto |].
      rewrite app_String in Hab. discriminate.
  - cbn [contains]. rewrite orb_true_iff, starts_with_spec, IH. split.
    + intros [[b Hb] | (a & b & Hab)].
      * exists "", b. exact Hb.
      * exists (String c a), b. rewrite app_String, Hab. reflexivity.
    + intros (a & b & Hab). destruct a as [| x a].
      * left. exists b. exact Hab.
      * right. rewrite app_String in Hab. injection Hab as _ ->. eauto.
Qed.

Lemma starts_with_empty (s : string) : starts_with "" s = true.
Proof. destruct s; reflexivity. Qed.

Lemma contains_empty (s : string) : contains "" s = true.
Proof. destruct s; cbn; rewrite ?starts_with_empty; reflexivity. Qed.

Lemma mood_matches_filter (needle : string) (es : list JournalEntry) :
  Forall (fun e => exists m, mood_is m e) es ->
  mood_matches needle es =
    Ok (List.filter
          (fun e => match mood e with
                    | PyStr m => contains needle (lower m)
                    | _ => false
                    end) es).
Proof.
  induction 1 as [| e es [m Hm] _ IH]; [reflexivity |].
  cbn [mood_matches List.filter]. unfold mood_is in Hm. rewrite Hm, IH.
  reflexivity.
Qed.

(** X11.  Searching by mood is a substring match that ignores letter case:
    on a journal whose moods are texts, the search finds exactly the entries
    whose lower-cased mood contains the lower-cased query as a contiguous
    piece, in the order of the journal. *)
Theorem mood_search_matches_substrings (self : JournalManager)
    (query : string) :
  Forall (fun e => exists m, mood_is m e) (entries self) ->
  exists found,
    mood_found self query = Ok found /\
    sublist found (entries self) /\
    forall e, In e found <->
      In e (entries self) /\
      exists m a b, mood_is m e /\ lower m = a +:+ lower query +:+ b.
Proof.
  intros Hmoods. eexists. split; [apply mood_matches_filter, Hmoods |].
  split.
  { clear. induction (entries self) as [| e es IH]; [constructor |].
    cbn. destruct (match mood e with PyStr m => _ | _ => false end);
      [apply sublist_skip | apply sublist_cons]; exact IH. }
  intros e. rewrite filter_In. split.
  - intros [Hin Hhit]. split; [exact Hin |].
    destruct (mood e) as [| | | | m | |] eqn:Hm; try discriminate.
    apply contains_spec in Hhit as (a & b & Hab). exists m, a, b.
    split; [exact Hm | exact Hab].
  - intros (Hin & m & a & b & Hm & Hab). split; [exact Hin |].
    unfold mood_is in Hm. rewrite Hm. apply contains_spec. eauto.
Qed.

(** X12.  An empty query matches every mood: typing nothing at the mood
    prompt lists the whole journal. *)
Theorem empty_mood_query_finds_all (self : JournalManager) :
  Forall (fun e => exists m, mood_is m e) (entries self) ->
  mood_found self "" = Ok (entries self).
Proof.
  intros Hmoods. unfold mood_found.
  rewrite (mood_matches_filter _ _ Hmoods). f_equal.
  change (lower "") with "".
  revert Hmoods. generalize (entries self) as es.
  induction 1 as [| e es [m Hm] _ IH]; [reflexivity |].
  cbn [List.filter]. unfold mood_is in Hm.
  rewrite Hm, contains_empty, IH. reflexivity.
Qed.

Lemma lower_all_names (names : list string) :
  lower_all (map PyStr names) = Ok (map lower names).
Proof.
  induction names as [| t names IH]; [reflexivity |].
  cbn. rewrite IH. reflexivity.
Qed.

Lemma has_tag_names (needle : string) (e : JournalEntry)
    (names : list string) :
  tags_are names e ->
  has_tag needle e = Ok (among_names needle (map lower names)).
Proof.
  intros Htags. unfold has_tag, tags_are in *. rewrite Htags. cbn [py_iter].
  rewrite lower_all_names. reflexivity.
Qed.

Lemma among_names_spec (needle : string) (names : list string) :
  among_names needle (map lower names) = true <->
  exists t, In t names /\ lower t = needle.
Proof.
  unfold among_names. rewrite existsb_exists. split.
  - intros (x & Hx & Heq). apply in_map_iff in Hx as (t & <- & Ht).
    apply String.eqb_eq in Heq. eauto.
  - intros (t & Ht & <-). exists (lower t).
    split; [apply in_map, Ht | apply String.eqb_refl].
Qed.

(** X13.  Searching by tag matches whole tags, ignoring letter case: on a
    journal whose tags are lists of texts, the search finds exactly the
    entries one of whose tags, lower-cased, equals the lower-cased query; a
    piece of a tag does not match. *)
Theorem tag_search_matches_whole_tags (self : JournalManager)
    (query : string) :
  Forall (fun e => exists names, tags_are names e) (entries self) ->
  exists found,
    tag_found self query = Ok found /\
    sublist found (entries self) /\
    forall e, In e found <->
      In e (entries self) /\
      exists names t,
        tags_are names e /\ In t names /\ lower t = lower query.
Proof.
  intros Htags. unfold tag_found.
  induction Htags as [| e es [names Hnames] _ IH].
  - exists []. split; [reflexivity |]. split; [constructor |].
    intros e. cbn. tauto.
  - destruct IH as (found & Hfound & Hsub & Hspec).
    cbn [tag_matches]. rewrite (has_tag_names _ _ _ Hnames), Hfound.
    destruct (among_names (lower query) (map lower names)) eqn:Hhit.
    + exists (e :: found). split; [reflexivity |].
      split; [apply sublist_skip, Hsub |].
      intros x. cbn [In]. rewrite Hspec. split.
      * intros [<- | [Hin Hx]]; [| tauto].
        split; [left; reflexivity |].
        apply among_names_spec in Hhit as (t & Ht & Hlow). eauto.
      * intros [[<- | Hin] Hx]; [left; reflexivity | right; tauto].
    + exists found. split; [reflexivity |].
      split; [apply sublist_cons, Hsub |].
      intros x. cbn [In]. rewrite Hspec. split; [tauto |].
      intros [[<- | Hin] Hx]; [| tauto].
      destruct Hx as (names' & t & Hnames' & Ht & Hlow).
      unfold tags_are in *. rewrite Hnames in Hnames'.
      injection Hnames' as Heq.
      apply (f_equal (map (fun v => match v with PyStr s => s | _ => "" end)))
        in Heq.
      rewrite !map_map in Heq. cbn in Heq. rewrite !map_id in Heq. subst.
      assert (among_names (lower query) (map lower names') = true)
        by (apply among_names_spec; eauto).
      congruence.
Qed.

End QueryFacts.

(* ===================================================================== *)
(** ** The further facts on sample journals *)
(* ===================================================================== *)

Module MoreScenarios.
Import Reference Samples MoreSamples ReferenceFacts StoreFacts StoreExtras
  QueryFacts.

Lemma strip_prefix_app_ok (k m : string) : ref_decrypt k (k +:+ m) = Ok m.
Proof. unfold ref_decrypt. rewrite strip_prefix_app. reflexivity. Qed.

(** Deleting index 0 of [A; B] leaves [B] at index 0. *)
Lemma delete_shifts_down_witness :
  exists self' w',
    delete_entry (ann [entry_A; entry_B]) 0 (machine ann_key_file) =
      (Ok (true, self'), w') /\
    entries self' !! 0%nat = Some entry_B.
Proof.
  destruct (delete_shifts_down (ann [entry_A; entry_B]) 0
              (machine ann_key_file))
    as (self' & w' & Hdel & _ & _ & Hshift); [cbn; lia |].
  exists self', w'. split; [exact Hdel |].
  rewrite (Hshift 0%nat) by (cbn; lia). reflexivity.
Defined.



(** [ann] opens her journal for the first time, then again. *)
Lemma key_is_stable_witness :
  exists first w1 second w2,
    JournalManager_init "ann" (machine ∅) = (Ok first, w1) /\
    JournalManager_init "ann" w1 = (Ok second, w2) /\
    key second = key first /\
    files w1 !! "key_ann.key" = Some (key first) /\
    files w2 = files w1.
Proof.
  apply (key_is_stable "ann" (machine ∅)); reflexivity.
Defined.

(** The key file of [ann] is broken; opening leaves it as it is. *)
Lemma open_with_key_file_writes_nothing_witness :
  files (snd (JournalManager_init "ann" (machine ann_corrupt_key))) =
    ann_corrupt_key.
Proof.
  apply (open_with_key_file_writes_nothing "ann" (machine ann_corrupt_key)
           "not a key").
  reflexivity.
Defined.

(** The hand-written journal loads; both entries are dated at noon, the
    time of loading. *)
Lemma load_stamps_entries_anew_witness :
  exists loaded w',
    load_entries (fresh_store "ann" key_A) (machine ann_handmade_journal) =
      (Ok loaded, w') /\
    map date (entries loaded) =
      ["2024-03-07 12:00:00"; "2024-03-07 12:00:00"] /\
    map title (entries loaded) = [PyStr "A"; PyStr "B"].
Proof.
  eexists _, _. split.
  - apply (load_stamps_entries_anew (fresh_store "ann" key_A)
             (machine ann_handmade_journal) handmade_token handmade_text
             handmade_records).
    + reflexivity.
    + reflexivity.
    + discriminate.
    + apply (strip_prefix_app_ok key_A handmade_text).
    + destruct (ref_loads_dumps (PyList (map PyDict handmade_records)))
        as (s & [= <-] & Hloads). exact Hloads.
    + reflexivity.
  - split; reflexivity.
Defined.

(** The journal of [ann] is garbled; she opens it and adds [B]: the garbled
    file and its backup are replaced by the token of [B] alone. *)
Lemma add_after_failed_load_overwrites_witness :
  exists loaded w2 added w3,
    load_entries (fresh_store "ann" key_A) (machine ann_garbled_journal) =
      (Ok loaded, w2) /\
    add_entry loaded entry_B w2 = (Ok added, w3) /\
    entries added = [entry_B] /\
    files w3 !! "journal_ann.json" = Some token_of_B /\
    files w3 !! "backup_journal_ann.json" = Some token_of_B.
Proof.
  apply (add_after_failed_load_overwrites (fresh_store "ann" key_A) entry_B
           (machine ann_garbled_journal) (machine ann_garbled_journal)
           InvalidToken
           (pos_to_bits (encode (to_tree (PyList [to_dict entry_B]))))
           token_of_B); reflexivity.
Defined.

(** An entry made at noon on March 7th, 2024. *)
Lemma constructor_day_round_trip_witness :
  exists e w',
    JournalEntry_init (PyStr "A") (PyStr "x") (PyStr "calm") (PyInt 5)
      PyNone PyNone PyNone (machine ∅) = (Ok e, w') /\
    entry_day e = Some (mk_ymd 2024 3 7).
Proof.
  apply (constructor_day_round_trip (PyStr "A") (PyStr "x") (PyStr "calm")
           (PyInt 5) PyNone PyNone PyNone (machine ∅)).
  reflexivity.
Defined.

(** From March 9th back to March 1st: nothing is found. *)
Lemma inverted_range_finds_nothing_witness :
  date_range_found (ann [entry_A; entry_B]) "2024-03-09" "2024-03-01" = Ok [].
Proof.
  apply (inverted_range_finds_nothing (ann [entry_A; entry_B])
           "2024-03-09" "2024-03-01" (mk_ymd 2024 3 9) (mk_ymd 2024 3 1)
           (machine ∅)); try reflexivity.
  repeat constructor.
  - exists (mk_datetime 2024 3 7 9 5 0). split; reflexivity.
  - exists (mk_datetime 2024 3 9 18 30 0). split; reflexivity.
Defined.

Lemma sample_moods_are_texts :
  Forall (fun e => exists m, mood_is m e) [entry_A; entry_B].
Proof.
  repeat constructor; [exists "happy" | exists "sad"]; reflexivity.
Qed.

Lemma sample_tags_are_texts :
  Forall (fun e => exists names, tags_are names e) [entry_A; entry_B].
Proof.
  repeat constructor; [exists ["work"] | exists []]; reflexivity.
Qed.

(** The query [APP] finds the entry whose mood is [happy]. *)
Lemma mood_search_matches_substrings_witness :
  exists found,
    mood_found (ann [entry_A; entry_B]) "APP" = Ok found /\
    In entry_A found.
Proof.
  destruct (mood_search_matches_substrings (ann [entry_A; entry_B]) "APP"
              sample_moods_are_texts) as (found & Hfound & _ & Hspec).
  exists found. split; [exact Hfound |].
  apply Hspec. split; [left; reflexivity |].
  exists "happy", "h", "y". split; reflexivity.
Defined.

(** The query [APP] finds the first sample entry and not the second. *)
Example mood_query_app :
  mood_found (ann [entry_A; entry_B]) "APP" = Ok [entry_A].
Proof. reflexivity. Qed.

(** An empty query lists both entries. *)
Lemma empty_mood_query_finds_all_witness :
  mood_found (ann [entry_A; entry_B]) "" = Ok [entry_A; entry_B].
Proof.
  apply (empty_mood_query_finds_all (ann [entry_A; entry_B])).
  exact sample_moods_are_texts.
Defined.

(** The query [WORK] finds the entry tagged [work]. *)
Lemma tag_search_matches_whole_tags_witness :
  exists found,
    tag_found (ann [entry_A; entry_B]) "WORK" = Ok found /\
    In entry_A found.
Proof.
  destruct (tag_search_matches_whole_tags (ann [entry_A; entry_B]) "WORK"
              sample_tags_are_texts) as (found & Hfound & _ & Hspec).
  exists found. split; [exact Hfound |].
  apply Hspec. split; [left; reflexivity |].
  exists ["work"], "work". split; [reflexivity |].
  split; [left; reflexivity | reflexivity].
Defined.

(** A piece of a tag does not match: [wor] finds nothing. *)
Example tag_piece_finds_nothing :
  tag_found (ann [entry_A; entry_B]) "wor" = Ok [].
Proof. reflexivity. Qed.

End MoreScenarios.

(* ===================================================================== *)
(** ** Facts about the forms *)
(* ===================================================================== *)

Module FormFacts.
Import StoreFacts App.

(** *** Running a form step by step *)

Lemma tbind_ok {A B} (c : T A) (k : A -> T B) (s s' : Session) (b : B) :
  tbind c k s = (Ok b, s') ->
  exists a s1, c s = (Ok a, s1) /\ k a s1 = (Ok b, s').
Proof.
  unfold tbind. destruct (c s) as [[a | e] s1]; [eauto | discriminate].
Qed.

Lemma in_store_ok {A} (c : M A) (s s' : Session) (a : A) :
  in_store c s = (Ok a, s') ->
  exists w', c (world s) = (Ok a, w') /\
             s' = mk_Session w' (keyboard s) (screen s).
Proof.
  unfold in_store. destruct (c (world s)) as [r w'].
  intros [= -> <-]. eauto.
Qed.

Lemma quiet_run {A} (c : T A) (s s' : Session) (r : result A) :
  quiet c -> c s = (r, s') -> world s' = world s.
Proof. intros Hq Hc. specialize (Hq s). rewrite Hc in Hq. exact Hq. Qed.

Lemma quiet_tret {A} (a : A) : quiet (tret a).
Proof. intros s. reflexivity. Qed.

Lemma quiet_traise {A} (e : exn) : quiet (@traise A e).
Proof. intros s. reflexivity. Qed.

Lemma quiet_tlift {A} (r : result A) : quiet (tlift r).
Proof. intros s. reflexivity. Qed.

Lemma quiet_say (l : line) : quiet (say l).
Proof. intros s. reflexivity. Qed.

Lemma quiet_prompt_for (p : line) : quiet (prompt_for p).
Proof. intros s. unfold prompt_for. destruct (keyboard s); reflexivity. Qed.

Lemma quiet_input (p : string) : quiet (input p).
Proof. apply quiet_prompt_for. Qed.

Lemma quiet_input_with (p : string) (vs : list pyval) :
  quiet (input_with p vs).
Proof. apply quiet_prompt_for. Qed.

Lemma quiet_getpass (p : string) : quiet (getpass p).
Proof. apply quiet_prompt_for. Qed.

Lemma quiet_to_int (typed : string) : quiet (to_int typed).
Proof. intros s. unfold to_int. destruct (py_int typed); reflexivity. Qed.

Lemma quiet_tbind {A B} (c : T A) (k : A -> T B) :
  quiet c -> (forall a, quiet (k a)) -> quiet (tbind c k).
Proof.
  intros Hc Hk s. unfold tbind.
  specialize (Hc s). destruct (c s) as [[a | e] s1]; cbn in Hc.
  - rewrite Hk. exact Hc.
  - exact Hc.
Qed.

Lemma quiet_except {A} (c h : T A) :
  quiet c -> quiet h -> quiet (except_ValueError c h).
Proof.
  intros Hc Hh s. unfold except_ValueError.
  specialize (Hc s). destruct (c s) as [[a | e] s1]; cbn in Hc;
    [exact Hc |].
  destruct e; try exact Hc. rewrite Hh. exact Hc.
Qed.

Lemma quiet_loop {A} (n : nat) (body : T (option A)) :
  quiet body -> quiet (loop n body).
Proof.
  intros Hb. induction n as [| n IH]; intros s; [reflexivity |].
  cbn [loop]. specialize (Hb s).
  destruct (body s) as [[[a |] | e] s1]; cbn in Hb; try exact Hb.
  rewrite IH. exact Hb.
Qed.

Lemma quiet_while_true {A} (body : T (option A)) :
  quiet body -> quiet (while_true body).
Proof. intros Hb s. unfold while_true. apply quiet_loop, Hb. Qed.

Lemma quiet_while_rounds {X} (n : nat) (cond : X -> bool) (body : X -> T X)
    (x : X) :
  (forall x, quiet (body x)) -> quiet (while_rounds n cond body x).
Proof.
  intros Hb. revert x.
  induction n as [| n IH]; intros x s; cbn [while_rounds];
    destruct (cond x); try reflexivity.
  specialize (Hb x s). destruct (body x s) as [[x' | e] s1]; cbn in Hb;
    [| exact Hb].
  rewrite IH. exact Hb.
Qed.

Lemma quiet_while {X} (cond : X -> bool) (body : X -> T X) (x : X) :
  (forall x, quiet (body x)) -> quiet (while_ cond body x).
Proof. intros Hb s. unfold while_. apply quiet_while_rounds, Hb. Qed.

Lemma quiet_if {A} (b : bool) (c1 c2 : T A) :
  quiet c1 -> quiet c2 -> quiet (if b then c1 else c2).
Proof. destruct b; auto. Qed.

Create HintDb quiet.
#[export] Hint Resolve quiet_tret quiet_traise quiet_tlift quiet_say
  quiet_input quiet_input_with quiet_getpass quiet_to_int quiet_prompt_for
  : quiet.

Ltac quiet_steps :=
  repeat first
    [ apply quiet_tbind; [| intros ?]
    | apply quiet_except
    | apply quiet_while_true
    | apply quiet_while; intros ?
    | apply quiet_if
    | solve [auto with quiet] ].

(** *** While loops *)

(** A loop left normally was left with its condition false. *)
Lemma while_rounds_post {X} (n : nat) (cond : X -> bool) (body : X -> T X)
    (x y : X) (s s' : Session) :
  while_rounds n cond body x s = (Ok y, s') -> cond y = false.
Proof.
  revert x s. induction n as [| n IH]; intros x s; cbn [while_rounds];
    destruct (cond x) eqn:Hc.
  - discriminate.
  - intros [= <- _]. exact Hc.
  - destruct (body x s) as [[x' | e] s1]; [apply IH | discriminate].
  - intros [= <- _]. exact Hc.
Qed.

(** With a body that reads, the rounds granted are never used up. *)
Lemma loop_enough {A} (body : T (option A)) :
  reads body ->
  forall n m s,
    (length (keyboard s) < n)%nat -> (length (keyboard s) < m)%nat ->
    loop n body s = loop m body s.
Proof.
  intros Hr. induction n as [| n IH]; intros m s Hn Hm; [lia |].
  destruct m as [| m]; [lia |]. cbn [loop].
  destruct (body s) as [[[a |] | e] s1] eqn:Hb; try reflexivity.
  apply Hr in Hb. apply IH; lia.
Qed.

Lemma while_rounds_enough {X} (cond : X -> bool) (body : X -> T X) :
  (forall x s x' s', body x s = (Ok x', s') ->
     (length (keyboard s') < length (keyboard s))%nat) ->
  forall n m x s,
    (length (keyboard s) < n)%nat -> (length (keyboard s) < m)%nat ->
    while_rounds n cond body x s = while_rounds m cond body x s.
Proof.
  intros Hr. induction n as [| n IH]; intros m x s Hn Hm; [lia |].
  destruct m as [| m]; [lia |]. cbn [while_rounds].
  destruct (cond x); [| reflexivity].
  destruct (body x s) as [[x' | e] s1] eqn:Hb; [| reflexivity].
  apply Hr in Hb. apply IH; lia.
Qed.

(** The loops of [create_new_entry] take a typed line each time round, so
    the rounds granted to them are never used up either. *)
Lemma ask_again_reads (complaint prompt : string) (x' : string)
    (s s' : Session) :
  tbind (say (Say complaint)) (fun _ => input prompt) s = (Ok x', s') ->
  (length (keyboard s') < length (keyboard s))%nat.
Proof.
  destruct s as [w kb sc]. unfold tbind, say, input, prompt_for.
  cbn [world keyboard screen]. destruct kb as [| typed rest];
    [discriminate |].
  intros [= _ <-]. cbn. lia.
Qed.

(** [while True: body] is one round of [body], and the loop again if the
    round did not leave it. *)
Lemma while_true_unfold {A} (body : T (option A)) (s : Session) :
  reads body ->
  while_true body s =
    match body s with
    | (Ok (Some a), s') => (Ok a, s')
    | (Ok None, s') => while_true body s'
    | (Raise e, s') => (Raise e, s')
    end.
Proof.
  intros Hr. unfold while_true.
  change (loop (S (length (keyboard s))) body s)
    with (match body s with
          | (Ok (Some a), s') => (Ok a, s')
          | (Ok None, s') => loop (length (keyboard s)) body s'
          | (Raise e, s') => (Raise e, s')
          end).
  destruct (body s) as [[[a |] | e] s1] eqn:Hb; try reflexivity.
  pose proof (Hr _ _ Hb). apply loop_enough; [exact Hr | lia | lia].
Qed.

(** *** _get_valid_rating *)

(** One round of the loop, on a typed line. *)
Lemma rating_round (w : World) (typed : string) (rest : list string)
    (sc : list line) :
  except_ValueError
    (tbind (input "Rate your mood (1-10): ") (fun typed =>
     tbind (to_int typed) (fun rating =>
       if (1 <=? rating) && (rating <=? 10) then tret (Some rating)
       else tbind (say (Say "Rating must be between 1-10!"))
              (fun _ => tret None))))
    (tbind (say (Say "Please enter a number!")) (fun _ => tret None))
    (mk_Session w (typed :: rest) sc) =
  match valid_rating typed with
  | Some n => (Ok (Some n), mk_Session w rest (sc ++ [rating_prompt]))
  | None =>
      (Ok None,
       mk_Session w rest ((sc ++ [rating_prompt]) ++ [rating_complaint typed]))
  end.
Proof.
  unfold except_ValueError, tbind, input, prompt_for, to_int, valid_rating,
    rating_complaint, rating_prompt. cbn [keyboard world screen].
  destruct (py_int typed) as [n |]; [| reflexivity].
  unfold tret. destruct ((1 <=? n) && (n <=? 10)); reflexivity.
Qed.

Lemma valid_rating_range (typed : string) (n : Z) :
  valid_rating typed = Some n -> 1 <= n <= 10.
Proof.
  unfold valid_rating. destruct (py_int typed) as [k |]; [| discriminate].
  destruct ((1 <=? k) && (k <=? 10)) eqn:Hk; [| discriminate].
  intros [= <-]. apply andb_true_iff in Hk. lia.
Qed.

Lemma rating_loop_run (n : nat) (w : World) (bad : list string)
    (good : string) (v : Z) (rest : list string) (sc : list line) :
  Forall (fun typed => valid_rating typed = None) bad ->
  valid_rating good = Some v ->
  (length bad < n)%nat ->
  loop n
    (except_ValueError
       (tbind (input "Rate your mood (1-10): ") (fun typed =>
        tbind (to_int typed) (fun rating =>
          if (1 <=? rating) && (rating <=? 10) then tret (Some rating)
          else tbind (say (Say "Rating must be between 1-10!"))
                 (fun _ => tret None))))
       (tbind (say (Say "Please enter a number!")) (fun _ => tret None)))
    (mk_Session w (bad ++ good :: rest) sc) =
  (Ok v, mk_Session w rest (sc ++ rating_dialogue bad)).
Proof.
  intros Hbad Hgood. revert n sc.
  induction Hbad as [| typed bad Htyped _ IH]; intros n sc Hn;
    (destruct n as [| n]; [cbn in Hn; lia |]); cbn [loop app].
  - rewrite rating_round, Hgood. reflexivity.
  - rewrite rating_round, Htyped. rewrite IH by (cbn in Hn; lia).
    unfold rating_dialogue. cbn [flat_map app].
    rewrite <- !app_assoc. reflexivity.
Qed.

(** X14.  [_get_valid_rating] returns the first typed line that [int]
    reads as a number from 1 to 10: the lines before it are used up, each
    answered by the complaint that fits it, the lines after it are left to
    type, and the world is as it was. *)
Theorem rating_is_first_valid_line (s : Session) (bad : list string)
    (good : string) (n : Z) (rest : list string) :
  keyboard s = bad ++ good :: rest ->
  Forall (fun typed => valid_rating typed = None) bad ->
  valid_rating good = Some n ->
  _get_valid_rating s =
    (Ok n, mk_Session (world s) rest (screen s ++ rating_dialogue bad)) /\
  1 <= n <= 10.
Proof.
  intros Hkb Hbad Hgood. split; [| exact (valid_rating_range _ _ Hgood)].
  destruct s as [w kb sc]. cbn [keyboard world screen] in *. subst kb.
  unfold _get_valid_rating, while_true. cbn [keyboard].
  apply rating_loop_run; [exact Hbad | exact Hgood |].
  rewrite length_app. cbn [length]. lia.
Qed.

Lemma rating_loop_outcomes (kb : list string) :
  forall (n : nat) (w : World) (sc : list line),
  (length kb < n)%nat ->
  let run :=
    loop n
      (except_ValueError
         (tbind (input "Rate your mood (1-10): ") (fun typed =>
          tbind (to_int typed) (fun rating =>
            if (1 <=? rating) && (rating <=? 10) then tret (Some rating)
            else tbind (say (Say "Rating must be between 1-10!"))
                   (fun _ => tret None))))
         (tbind (say (Say "Please enter a number!")) (fun _ => tret None)))
      (mk_Session w kb sc) in
  match fst run with
  | Ok v =>
      exists bad good rest,
        kb = bad ++ good :: rest /\
        Forall (fun typed => valid_rating typed = None) bad /\
        valid_rating good = Some v /\
        keyboard (snd run) = rest
  | Raise e =>
      e = EOFError /\ Forall (fun typed => valid_rating typed = None) kb /\
      keyboard (snd run) = []
  end.
Proof.
  induction kb as [| typed kb IH]; intros n w sc Hn;
    (destruct n as [| n]; [cbn in Hn; lia |]); cbn [loop].
  - cbn. split; [reflexivity | split; [constructor | reflexivity]].
  - rewrite rating_round. destruct (valid_rating typed) as [v |] eqn:Hv.
    + cbn [fst snd keyboard]. exists [], typed, kb.
      split; [reflexivity | split; [constructor | split; [exact Hv | reflexivity]]].
    + specialize (IH n w ((sc ++ [rating_prompt]) ++ [rating_complaint typed])).
      cbn zeta in IH. cbn [length] in Hn.
      specialize (IH ltac:(lia)).
      destruct (loop n _ _) as [[v | e] s1]; cbn [fst snd] in *.
      * destruct IH as (bad & good & rest & -> & Hbad & Hgood & Hrest).
        exists (typed :: bad), good, rest.
        split; [reflexivity |].
        split; [constructor; assumption | split; assumption].
      * destruct IH as (-> & Hall & Hrest).
        split; [reflexivity | split; [constructor; assumption | exact Hrest]].
Qed.

(** X15.  However the typing goes, [_get_valid_rating] ends in one of two
    ways and changes nothing in the world: it returns a number from 1 to 10
    that is the first typed line to read as one, or, when no typed line
    does, it has used up every line and the end of the input is raised; no
    [ValueError] of [int] gets out. *)
Theorem rating_loop_ends_two_ways (s : Session) :
  world (snd (_get_valid_rating s)) = world s /\
  match fst (_get_valid_rating s) with
  | Ok n =>
      1 <= n <= 10 /\
      exists bad good rest,
        keyboard s = bad ++ good :: rest /\
        Forall (fun typed => valid_rating typed = None) bad /\
        valid_rating good = Some n /\
        keyboard (snd (_get_valid_rating s)) = rest
  | Raise e =>
      e = EOFError /\
      Forall (fun typed => valid_rating typed = None) (keyboard s) /\
      keyboard (snd (_get_valid_rating s)) = []
  end.
Proof.
  split.
  - revert s. change (quiet _get_valid_rating).
    unfold _get_valid_rating. quiet_steps.
  - destruct s as [w kb sc]. unfold _get_valid_rating, while_true.
    cbn [keyboard].
    pose proof (rating_loop_outcomes kb (S (length kb)) w sc ltac:(lia)) as H.
    cbn zeta in H.
    destruct (loop _ _ _) as [[v | e] s1]; cbn [fst snd] in *; [| exact H].
    split; [| exact H].
    destruct H as (bad & good & rest & _ & _ & Hgood & _).
    exact (valid_rating_range _ _ Hgood).
Qed.

Lemma rating_result (s s' : Session) (n : Z) :
  _get_valid_rating s = (Ok n, s') -> 1 <= n <= 10 /\ world s' = world s.
Proof.
  intros Hrun. split.
  - destruct s as [w kb sc]. unfold _get_valid_rating, while_true in Hrun.
    cbn [keyboard] in Hrun.
    pose proof (rating_loop_outcomes kb (S (length kb)) w sc ltac:(lia)) as H.
    cbn zeta in H. rewrite Hrun in H. cbn [fst] in H.
    destruct H as (bad & good & rest & _ & _ & Hgood & _).
    exact (valid_rating_range _ _ Hgood).
  - apply (quiet_run _get_valid_rating s s' (Ok n)); [| exact Hrun].
    unfold _get_valid_rating. quiet_steps.
Qed.

(** *** create_new_entry *)

Lemma pieces_are_texts (typed : string) (current : pyval) :
  is_texts current = true -> is_texts (pieces_or typed current) = true.
Proof.
  intros Hc. unfold pieces_or. destruct (String.eqb typed ""); [exact Hc |].
  cbn [is_texts]. induction (split_on "," typed) as [| piece l IH];
    [reflexivity | exact IH].
Qed.

Lemma or_empty_texts (v : pyval) :
  is_texts v = true -> is_texts (if truthy v then v else PyList []) = true.
Proof. intros Hv. destruct (truthy v); [exact Hv | reflexivity]. Qed.

Lemma say_run (l : line) (s s' : Session) (r : result unit) :
  say l s = (r, s') ->
  s' = mk_Session (world s) (keyboard s) (screen s ++ [l]).
Proof. intros [= _ <-]. reflexivity. Qed.

Ltac tstep H a s1 Hc :=
  apply tbind_ok in H; destruct H as (a & s1 & Hc & H).

Section Forms.
Context {L : Libs}.

Lemma add_entry_run (self after : JournalManager) (e : JournalEntry)
    (w w' : World) :
  add_entry self e w = (Ok after, w') ->
  after = set_entries (entries self ++ [e]) self /\
  w' = snd (save_entries (set_entries (entries self ++ [e]) self) w).
Proof.
  unfold add_entry, bind, ret.
  destruct (save_entries _ w) as [[[] | x] w1]; [| discriminate].
  intros [= <- <-]. split; reflexivity.
Qed.

(** What [create_new_entry] has done when it returns. *)
Lemma create_new_entry_run (jm jm' : JournalManager) (s s' : Session) :
  create_new_entry jm s = (Ok jm', s') ->
  exists (t c m forget : string) (r : Z) (tg tk : pyval) (sq : Session),
    let w0 := with_entropy (S (entropy (world s))) (world s) in
    let e :=
      mk_JournalEntry (PyStr t) (PyStr c) (PyStr m) (PyInt r)
        (if truthy tg then tg else PyList [])
        (if truthy tk then tk else PyList [])
        (if String.eqb forget "" then PyNone else PyStr forget)
        (strftime (clock (world s) (ticks (world s)))) in
    blank t = false /\ blank c = false /\ 1 <= r <= 10 /\
    is_texts tg = true /\ is_texts tk = true /\
    jm' = set_entries (entries jm ++ [e]) jm /\
    world s' =
      snd (save_entries (set_entries (entries jm ++ [e]) jm)
             (with_ticks (S (ticks w0)) w0)) /\
    keyboard s' = keyboard sq /\
    screen s' = screen sq ++ [Say "Entry saved successfully!"].
Proof.
  intros H. unfold create_new_entry in H.
  tstep H u1 s1 H1. apply say_run in H1.
  tstep H u2 s2 H2.
  tstep H2 quote s2a H2a. apply in_store_ok in H2a.
  destruct H2a as (w0 & Hq & Hs2a). apply say_run in H2.
  unfold get_random_quote, bind, draw, ret in Hq. injection Hq as _ Hw0.
  assert (Hw2 : world s2 = w0) by (subst s2 s2a; reflexivity).
  assert (Hw1 : world s1 = world s) by (subst s1; reflexivity).
  rewrite Hw1 in Hw0.
  clear H1 H2 Hs2a.
  tstep H first_title s3 H3.
  apply (quiet_run _ _ _ _ (quiet_input _)) in H3.
  tstep H t s4 H4.
  pose proof (while_rounds_post _ _ _ _ _ _ _ H4) as Ht.
  apply (quiet_run (while_ _ _ _)) in H4; [| quiet_steps].
  tstep H first_content s5 H5.
  apply (quiet_run _ _ _ _ (quiet_input _)) in H5.
  tstep H c s6 H6.
  pose proof (while_rounds_post _ _ _ _ _ _ _ H6) as Hc.
  apply (quiet_run (while_ _ _ _)) in H6; [| quiet_steps].
  tstep H m s7 H7.
  apply (quiet_run _ _ _ _ (quiet_input _)) in H7.
  tstep H r s8 H8. apply rating_result in H8. destruct H8 as [Hr H8].
  tstep H u9 s9 H9. apply say_run in H9.
  tstep H typed_tags s10 H10.
  apply (quiet_run _ _ _ _ (quiet_input _)) in H10.
  tstep H typed_tasks s11 H11.
  apply (quiet_run _ _ _ _ (quiet_input _)) in H11.
  tstep H forget s12 H12.
  apply (quiet_run _ _ _ _ (quiet_input _)) in H12.
  assert (Hw12 : world s12 = w0).
  { rewrite H12, H11, H10. subst s9. cbn [world].
    rewrite H8, H7, H6, H5, H4, H3. exact Hw2. }
  tstep H e s13 H13. apply in_store_ok in H13.
  destruct H13 as (w13 & He & Hs13).
  unfold JournalEntry_init, bind, datetime_now, ret in He.
  injection He as He Hw13.
  tstep H after s14 H14. apply in_store_ok in H14.
  destruct H14 as (w14 & Hadd & Hs14).
  apply add_entry_run in Hadd. destruct Hadd as [Hafter Hw14].
  tstep H u15 s15 H15. apply say_run in H15.
  injection H as Hjm' Hs'.
  exists t, c, m, forget, r, (pieces_or typed_tags (PyList [])),
    (pieces_or typed_tasks (PyList [])), s14.
  cbn zeta.
  assert (Hclock : clock (world s12) = clock (world s) /\
                   ticks (world s12) = ticks (world s)).
  { rewrite Hw12, <- Hw0. split; reflexivity. }
  destruct Hclock as [Hclock Hticks].
  rewrite Hclock, Hticks in He.
  split; [exact Ht |]. split; [exact Hc |]. split; [exact Hr |].
  split; [apply pieces_are_texts; reflexivity |].
  split; [apply pieces_are_texts; reflexivity |].
  split; [rewrite <- Hjm', Hafter, <- He; reflexivity |].
  split.
  { rewrite <- Hs', H15. cbn [world]. rewrite Hs14. cbn [world].
    rewrite Hw14, <- He. rewrite Hs13. cbn [world].
    rewrite <- Hw13, Hw12, <- Hw0. reflexivity. }
  rewrite <- Hs', H15. split; reflexivity.
Qed.


(** X16.  Whenever [create_new_entry] returns, the journal has grown by
    exactly one entry, put at the end, and that entry is well formed: title
    and content are texts that are not blank, the mood is a text, the
    rating a number from 1 to 10, tags and tasks are lists of texts, the
    thing to forget is a text or [None], and the date is the reading of
    the clock at the time of the call. *)
Theorem create_appends_form_entry (jm jm' : JournalManager)
    (s s' : Session) :
  create_new_entry jm s = (Ok jm', s') ->
  exists e,
    entries jm' = entries jm ++ [e] /\
    form_entry e = true /\
    (exists t, title e = PyStr t /\ strip t <> "") /\
    (exists c, content e = PyStr c /\ strip c <> "") /\
    date e = strftime (clock (world s) (ticks (world s))).
Proof.
  intros Hrun. apply create_new_entry_run in Hrun.
  destruct Hrun as (t & c & m & forget & r & tg & tk & sq & Hrun).
  cbn zeta in Hrun.
  destruct Hrun as (Ht & Hc & Hr & Htg & Htk & -> & _).
  eexists. split; [reflexivity |].
  split.
  { unfold form_entry.
    cbn [title content mood mood_rating tags completed_tasks
         forgettable_thing is_text is_rating andb].
    rewrite (or_empty_texts _ Htg), (or_empty_texts _ Htk).
    replace ((1 <=? r) && (r <=? 10)) with true
      by (symmetry; apply andb_true_iff; split; apply Z.leb_le; lia).
    destruct (String.eqb forget ""); reflexivity. }
  split.
  { exists t. split; [reflexivity |]. unfold blank in Ht.
    intros Hb. rewrite Hb in Ht. discriminate. }
  split.
  { exists c. split; [reflexivity |]. unfold blank in Hc.
    intros Hb. rewrite Hb in Hc. discriminate. }
  reflexivity.
Qed.


End Forms.

(** *** Steps that only print *)

Lemma prints_tret {A} (a : A) : prints (tret a).
Proof. intros [w kb sc]. exists a, []. rewrite app_nil_r. reflexivity. Qed.

Lemma prints_say (l : line) : prints (say l).
Proof. intros s. exists tt, [l]. reflexivity. Qed.

Lemma prints_tlift {A} (a : A) : prints (tlift (Ok a)).
Proof. intros [w kb sc]. exists a, []. rewrite app_nil_r. reflexivity. Qed.

Lemma prints_tbind {A B} (c : T A) (k : A -> T B) :
  prints c -> (forall a, prints (k a)) -> prints (tbind c k).
Proof.
  intros Hc Hk s. destruct (Hc s) as (a & l1 & Ha).
  destruct (Hk a (mk_Session (world s) (keyboard s) (screen s ++ l1)))
    as (b & l2 & Hb).
  exists b, (l1 ++ l2). unfold tbind. rewrite Ha, Hb.
  cbn [world keyboard screen]. rewrite app_assoc. reflexivity.
Qed.

Lemma prints_if {A} (b : bool) (c1 c2 : T A) :
  prints c1 -> prints c2 -> prints (if b then c1 else c2).
Proof. destruct b; auto. Qed.

Lemma prints_say_tasks (tasks : list pyval) (i : Z) : prints (say_tasks i tasks).
Proof.
  revert i. induction tasks as [| task rest IH]; intros i; cbn [say_tasks].
  - apply prints_tret.
  - apply prints_tbind; [apply prints_say | intros _; apply IH].
Qed.

Lemma all_str_texts (items : list pyval) :
  forallb is_text items = true -> exists names, all_str items = Ok names.
Proof.
  induction items as [| v items IH]; [exists []; reflexivity |].
  cbn [forallb]. intros H. apply andb_true_iff in H. destruct H as [Hv Hi].
  destruct v; try discriminate. destruct (IH Hi) as (names & Hn).
  cbn [all_str]. rewrite Hn. eauto.
Qed.

Lemma py_join_texts (sep : string) (v : pyval) :
  is_texts v = true -> exists joined, py_join sep v = Ok joined.
Proof.
  destruct v; try discriminate. cbn [is_texts]. intros H.
  destruct (all_str_texts _ H) as (names & Hn).
  unfold py_join. cbn [py_iter]. rewrite Hn. eauto.
Qed.

Ltac prints_steps :=
  repeat first
    [ apply prints_say | apply prints_tret | apply prints_tlift
    | apply prints_say_tasks
    | apply prints_tbind; [| intros ?]
    | apply prints_if ].

Lemma display_prints (e : JournalEntry) (show_full : bool) :
  form_entry e = true -> prints (display e show_full).
Proof.
  unfold form_entry. intros H.
  repeat (apply andb_true_iff in H; destruct H as [H ?]).
  destruct e as [t c m r tg tk fg d].
  cbn [title content mood mood_rating tags completed_tasks
       forgettable_thing] in *.
  destruct t, c, m, r, tk; try discriminate.
  destruct (py_join_texts ", " tg) as (joined & Hj); [assumption |].
  unfold display.
  cbn [title content mood mood_rating tags completed_tasks forgettable_thing
       date py_lt py_gt str_plus preview_of py_iter].
  rewrite Hj.
  destruct fg; try discriminate; cbn [truthy str_plus]; prints_steps.
Qed.

Lemma view_prints (jm : JournalManager) : prints (view_all_entries jm false).
Proof.
  unfold view_all_entries. destruct (entries jm); prints_steps.
Qed.

Lemma tbind_run {A B} (c : T A) (k : A -> T B) (s s1 : Session) (a : A) :
  c s = (Ok a, s1) -> tbind c k s = k a s1.
Proof. intros H. unfold tbind. rewrite H. reflexivity. Qed.

Lemma tbind_tret {A B} (a : A) (k : A -> T B) (s : Session) :
  tbind (tret a) k s = k a s.
Proof. reflexivity. Qed.

Lemma except_ok {A} (c h : T A) (s s' : Session) (a : A) :
  c s = (Ok a, s') -> except_ValueError c h s = (Ok a, s').
Proof. intros H. unfold except_ValueError. rewrite H. reflexivity. Qed.

Lemma picks_spec (typed : string) (es : list JournalEntry) (i : nat) :
  picks typed es = Some i ->
  exists n, py_int typed = Some n /\ n - 1 = Z.of_nat i /\
            (i < length es)%nat.
Proof.
  unfold picks, in_bounds. destruct (py_int typed) as [n |]; [| discriminate].
  destruct ((0 <=? n - 1) && (n - 1 <? Z.of_nat (length es))) eqn:Hb;
    [| discriminate].
  intros [= <-]. apply andb_true_iff in Hb. destruct Hb as [H0 H1].
  apply Z.leb_le in H0. apply Z.ltb_lt in H1.
  exists n. split; [reflexivity |]. split; lia.
Qed.

Lemma kept_texts (v : pyval) :
  is_texts v = true -> (if truthy v then v else PyList []) = v.
Proof.
  destruct v as [| | | | | l |]; try discriminate. intros _.
  destruct l; reflexivity.
Qed.

(** *** edit_existing_entry and delete_entry *)

Section Forms2.
Context {L : Libs}.

Lemma edit_chosen_keeping (jm : JournalManager) (w : World) (i : nat)
    (e : JournalEntry) (rest : list string) (sc : list line) :
  entries jm !! i = Some e ->
  form_entry e = true ->
  exists sc',
    edit_chosen jm (Z.of_nat i)
      (mk_Session w ("" :: "" :: "" :: "" :: "" :: "" :: "" :: rest) sc) =
    (Ok (set_entries
           (<[i := restamped e (strftime (clock w (ticks w)))]> (entries jm))
           jm),
     mk_Session
       (snd (save_entries
               (set_entries
                  (<[i := restamped e (strftime (clock w (ticks w)))]>
                     (entries jm)) jm)
               (with_ticks (S (ticks w)) w)))
       rest (sc' ++ [Say "Entry updated successfully!"])).
Proof.
  intros He Hform. unfold edit_chosen, entry_at.
  rewrite Nat2Z.id, He.
  pose proof Hform as Hf. unfold form_entry in Hf.
  repeat (apply andb_true_iff in Hf; destruct Hf as [Hf ?]).
  destruct (py_join_texts ", " (tags e)) as (jt & Hjt); [assumption |].
  destruct (py_join_texts ", " (completed_tasks e)) as (jk & Hjk);
    [assumption |].
  assert (Hslice : exists shown, py_slice_20 (content e) = Ok shown).
  { destruct (content e); try discriminate. eexists. reflexivity. }
  destruct Hslice as (shown & Hslice).
  cbn [tbind tret say world keyboard screen].
  match goal with
  | |- context [tbind (display e true) ?k ?s] =>
      destruct (display_prints e true Hform s) as (u & lines & Hd);
      cbn [world keyboard screen] in Hd; rewrite (tbind_run _ _ _ _ _ Hd)
  end.
  rewrite Hslice, Hjt, Hjk.
  unfold ask_new_rating, while_true.
  cbn [tbind tret say tlift input_with prompt_for world keyboard screen
       typed_or pieces_or String.eqb loop length].
  unfold tbind at 1. unfold in_store at 1.
  unfold JournalEntry_init, bind, datetime_now, ret.
  cbn [world keyboard screen].
  rewrite (kept_texts _ H1), (kept_texts _ H0).
  fold (restamped e (strftime (clock w (ticks w)))).
  unfold tbind at 1. unfold in_store at 1. cbn [world keyboard screen].
  rewrite edit_entry_in_range
    by (apply lookup_lt_Some in He; lia).
  rewrite Nat2Z.id.
  cbn [tbind fst snd say tret world keyboard screen].
  eexists. reflexivity.
Qed.

End Forms2.

Lemma lower_char_y (c : ascii) :
  lower_char c = "y"%char -> c = "y"%char \/ c = "Y"%char.
Proof.
  destruct c as [[] [] [] [] [] [] [] []]; vm_compute; intros H;
    first [discriminate H | left; reflexivity | right; reflexivity].
Qed.

Lemma lower_is_y (typed : string) :
  String.eqb (lower typed) "y" = true <-> typed = "y" \/ typed = "Y".
Proof.
  split.
  - intros H. apply String.eqb_eq in H.
    destruct typed as [| c [| c' rest]]; try discriminate.
    cbn [lower] in H. injection H as H.
    destruct (lower_char_y c H) as [-> | ->]; [left | right]; reflexivity.
  - intros [-> | ->]; reflexivity.
Qed.

Section Forms3.
Context {L : Libs}.

Lemma edit_form_nonempty (jm : JournalManager) :
  entries jm <> [] ->
  edit_existing_entry jm =
    tbind (view_all_entries jm false) (fun _ =>
      except_ValueError
        (tbind (input "Enter entry number to edit (0 to cancel): ")
           (fun typed =>
            tbind (to_int typed) (fun n =>
              let choice := n - 1 in
              if choice =? -1 then tret jm
              else if in_bounds choice (entries jm)
              then edit_chosen jm choice
              else tbind (say (Say "Invalid entry number!"))
                     (fun _ => tret jm))))
        (tbind (say (Say "Please enter a valid number!"))
           (fun _ => tret jm))).
Proof.
  intros Hne. unfold edit_existing_entry.
  destruct (entries jm); [congruence | reflexivity].
Qed.

(** X18.  Pressing Enter at every question of [edit_existing_entry]
    keeps the seven fields of the entry picked and still replaces the
    entry: the one put in its place carries the time of the edit as its
    date, so the date the entry was written on is lost.  The form returns,
    says "Entry updated successfully!" and has used the eight typed
    lines. *)
Theorem edit_keeping_all_restamps (jm : JournalManager) (s : Session)
    (i : nat) (e : JournalEntry) (number : string) (rest : list string) :
  picks number (entries jm) = Some i ->
  entries jm !! i = Some e ->
  form_entry e = true ->
  keyboard s = number :: "" :: "" :: "" :: "" :: "" :: "" :: "" :: rest ->
  exists s',
    edit_existing_entry jm s =
      (Ok (set_entries
             (<[i := restamped e
                       (strftime (clock (world s) (ticks (world s))))]>
                (entries jm)) jm), s') /\
    keyboard s' = rest /\
    exists before, screen s' = before ++ [Say "Entry updated successfully!"].
Proof.
  intros Hpick He Hform Hkb. destruct s as [w kb sc].
  cbn [keyboard world] in *. subst kb.
  apply picks_spec in Hpick. destruct Hpick as (n & Hn & Hi & _).
  rewrite edit_form_nonempty by (intros Hnil; rewrite Hnil in He; discriminate).
  destruct (view_prints jm (mk_Session w (number :: "" :: "" :: "" :: "" :: "" :: "" :: "" :: rest) sc))
    as (u & lines & Hv).
  cbn [world keyboard screen] in Hv. rewrite (tbind_run _ _ _ _ _ Hv).
  destruct (edit_chosen_keeping jm w i e rest
              ((sc ++ lines) ++
               [Ask "Enter entry number to edit (0 to cancel): "]) He Hform)
    as (sc' & Hrun).
  eexists. split; [| split; [| eexists]].
  - apply except_ok.
    cbn [tbind input prompt_for world keyboard screen].
    unfold to_int. rewrite Hn, tbind_tret. cbn zeta. rewrite Hi.
    replace (Z.of_nat i =? -1) with false by (symmetry; apply Z.eqb_neq; lia).
    replace (in_bounds (Z.of_nat i) (entries jm)) with true.
    2: { symmetry. unfold in_bounds. apply in_range_true.
         apply lookup_lt_Some in He. lia. }
    exact Hrun.
  - reflexivity.
  - reflexivity.
Qed.


Lemma delete_form_nonempty (jm : JournalManager) :
  entries jm <> [] ->
  App.delete_entry jm =
    tbind (view_all_entries jm false) (fun _ =>
      except_ValueError
        (tbind (input "Enter entry number to delete (0 to cancel): ")
           (fun typed =>
            tbind (to_int typed) (fun n =>
              let choice := n - 1 in
              if choice =? -1 then tret jm
              else if in_bounds choice (entries jm) then
                tbind (entry_at (entries jm) choice) (fun entry =>
                tbind (display entry true) (fun _ =>
                tbind
                  (input
                     "Are you sure you want to delete this entry? (y/n): ")
                  (fun confirm =>
                   if String.eqb (lower confirm) "y" then
                     tbind (in_store (Journal.delete_entry jm choice))
                       (fun answer =>
                        tbind
                          (if fst answer
                           then say (Say "Entry deleted successfully!")
                           else say (Say "Failed to delete entry!"))
                          (fun _ => tret (snd answer)))
                   else tret jm)))
              else tret jm)))
        (tbind (say (Say "Please enter a valid number!"))
           (fun _ => tret jm))).
Proof.
  intros Hne. unfold App.delete_entry.
  destruct (entries jm); [congruence | reflexivity].
Qed.

(** What both forms do with a typed entry number that picks no entry. *)
Lemma number_turned_down (jm : JournalManager) (typed : string)
    (chosen : Z -> T JournalManager) (other : T JournalManager)
    (complaint : string) (p : string) (w : World) (rest : list string)
    (sc : list line) :
  picks typed (entries jm) = None ->
  (forall s, exists lines,
     other s = (Ok jm, mk_Session (world s) (keyboard s)
                         (screen s ++ lines))) ->
  exists sc',
    except_ValueError
      (tbind (input p) (fun typed =>
         tbind (to_int typed) (fun n =>
           let choice := n - 1 in
           if choice =? -1 then tret jm
           else if in_bounds choice (entries jm) then chosen choice
           else other)))
      (tbind (say (Say complaint)) (fun _ => tret jm))
      (mk_Session w (typed :: rest) sc) =
    (Ok jm, mk_Session w rest sc').
Proof.
  intros Hpick Hother. unfold picks in Hpick.
  unfold except_ValueError.
  cbn [tbind input prompt_for world keyboard screen].
  unfold to_int. destruct (py_int typed) as [n |].
  - rewrite tbind_tret. cbn zeta.
    destruct (n - 1 =? -1); [eexists; reflexivity |].
    destruct (in_bounds (n - 1) (entries jm)); [discriminate |].
    destruct (Hother (mk_Session w rest (sc ++ [Ask p]))) as (lines & ->).
    eexists. reflexivity.
  - eexists. reflexivity.
Qed.

(** X19.  Typing 0, something that is no number, or a number that is not
    the number of an entry makes [edit_existing_entry] and the module's
    [delete_entry] return with the journal, its files and the rest of the
    world as they were, a single typed line used. *)
Theorem forms_turn_down_bad_numbers (jm : JournalManager) (s : Session)
    (typed : string) (rest : list string) :
  picks typed (entries jm) = None ->
  entries jm <> [] ->
  keyboard s = typed :: rest ->
  (exists sc,
     edit_existing_entry jm s = (Ok jm, mk_Session (world s) rest sc)) /\
  (exists sc,
     App.delete_entry jm s = (Ok jm, mk_Session (world s) rest sc)).
Proof.
  intros Hpick Hne Hkb. destruct s as [w kb sc].
  cbn [keyboard world] in *. subst kb.
  destruct (view_prints jm (mk_Session w (typed :: rest) sc))
    as (u & lines & Hv).
  cbn [world keyboard screen] in Hv.
  split.
  - rewrite (edit_form_nonempty _ Hne), (tbind_run _ _ _ _ _ Hv).
    apply (number_turned_down jm typed (edit_chosen jm)); [exact Hpick |].
    intros s. exists [Say "Invalid entry number!"]. reflexivity.
  - rewrite (delete_form_nonempty _ Hne), (tbind_run _ _ _ _ _ Hv).
    apply (number_turned_down jm typed
             (fun choice =>
                tbind (entry_at (entries jm) choice) (fun entry =>
                tbind (display entry true) (fun _ =>
                tbind
                  (input
                     "Are you sure you want to delete this entry? (y/n): ")
                  (fun confirm =>
                   if String.eqb (lower confirm) "y" then
                     tbind (in_store (Journal.delete_entry jm choice))
                       (fun answer =>
                        tbind
                          (if fst answer
                           then say (Say "Entry deleted successfully!")
                           else say (Say "Failed to delete entry!"))
                          (fun _ => tret (snd answer)))
                   else tret jm)))));
      [exact Hpick |].
    intros [w1 kb1 sc1]. exists []. rewrite app_nil_r. reflexivity.
Qed.

End Forms3.

(** *** display on any entry *)

Lemma shows_tret {A} (a : A) : shows (tret a).
Proof.
  intros [w kb sc]. exists (Ok a), []. rewrite app_nil_r. split; [reflexivity | exact I].
Qed.

Lemma shows_say (l : line) : shows (say l).
Proof. intros s. exists (Ok tt), [l]. split; [reflexivity | exact I]. Qed.

Lemma shows_tlift {A} (r : result A) : fails_by_type r -> shows (tlift r).
Proof.
  intros Hr [w kb sc]. exists r, []. rewrite app_nil_r.
  split; [reflexivity | exact Hr].
Qed.

Lemma shows_tbind {A B} (c : T A) (k : A -> T B) :
  shows c -> (forall a, shows (k a)) -> shows (tbind c k).
Proof.
  intros Hc Hk s. destruct (Hc s) as (r & l1 & Hr & Hkind).
  unfold tbind. rewrite Hr. destruct r as [a | e].
  - destruct (Hk a (mk_Session (world s) (keyboard s) (screen s ++ l1)))
      as (r2 & l2 & Hr2 & Hkind2).
    exists r2, (l1 ++ l2). rewrite Hr2. cbn [world keyboard screen].
    rewrite app_assoc. split; [reflexivity | exact Hkind2].
  - exists (Raise e), l1. split; [reflexivity | exact Hkind].
Qed.

Lemma shows_if {A} (b : bool) (c1 c2 : T A) :
  shows c1 -> shows c2 -> shows (if b then c1 else c2).
Proof. destruct b; auto. Qed.

Lemma shows_say_tasks (tasks : list pyval) (i : Z) : shows (say_tasks i tasks).
Proof.
  revert i. induction tasks as [| task rest IH]; intros i; cbn [say_tasks].
  - apply shows_tret.
  - apply shows_tbind; [apply shows_say | intros _; apply IH].
Qed.

Lemma py_lt_kind (v : pyval) (n : Z) : fails_by_type (py_lt v n).
Proof. destruct v; cbn; eauto. Qed.

Lemma py_gt_kind (v : pyval) (n : Z) : fails_by_type (py_gt v n).
Proof. destruct v; cbn; eauto. Qed.

Lemma str_plus_kind (v : pyval) : fails_by_type (str_plus v).
Proof. destruct v; cbn; eauto. Qed.

Lemma py_iter_kind (v : pyval) : fails_by_type (py_iter v).
Proof. destruct v; cbn; eauto. Qed.

Lemma all_str_kind (items : list pyval) : fails_by_type (all_str items).
Proof.
  induction items as [| v items IH]; [exact I |].
  destruct v; cbn [all_str]; try (cbn; eauto; fail).
  destruct (all_str items); cbn in *; eauto.
Qed.

Lemma py_join_kind (sep : string) (v : pyval) : fails_by_type (py_join sep v).
Proof.
  unfold py_join. pose proof (py_iter_kind v) as Hi.
  destruct (py_iter v) as [items |]; [| exact Hi].
  pose proof (all_str_kind items) as Ha.
  destruct (all_str items); [exact I | exact Ha].
Qed.

Lemma preview_of_kind (v : pyval) : fails_by_type (preview_of v).
Proof. destruct v; cbn; eauto. Qed.

Ltac shows_steps :=
  repeat first
    [ apply shows_say | apply shows_tret | apply shows_say_tasks
    | apply shows_tlift;
        first [ apply py_lt_kind | apply py_gt_kind | apply str_plus_kind
              | apply py_iter_kind | apply py_join_kind
              | apply preview_of_kind ]
    | apply shows_tbind; [| intros ?]
    | apply shows_if ].

Lemma display_shows (e : JournalEntry) (show_full : bool) :
  shows (display e show_full).
Proof. unfold display. shows_steps. Qed.

Lemma except_type_error {A} (c h : T A) (s s' : Session) (msg : string) :
  c s = (Raise (TypeError msg), s') ->
  except_ValueError c h s = (Raise (TypeError msg), s').
Proof. intros H. unfold except_ValueError. rewrite H. reflexivity. Qed.

Section Forms5.
Context {L : Libs}.

(** X20.  The delete form, once an entry is picked, shows it with
    [display] and only then asks its question.  If [display] returns (as
    it does for every entry the forms make), the entry is deleted exactly
    when the answer is [y] or [Y]: then it is removed, the journal saved
    and "Entry deleted successfully!" printed, while on any other answer,
    [yes] included, the journal and the world stay as they were.  If
    [display] raises, which it does only by a [TypeError] on an entry with
    a value it cannot show, the form ends with that exception before the
    question is asked: the answer is not read, nothing is deleted and the
    world is as it was. *)
Theorem delete_form_needs_y (jm : JournalManager) (s : Session) (i : nat)
    (e : JournalEntry) (number confirm : string) (rest : list string) :
  picks number (entries jm) = Some i ->
  entries jm !! i = Some e ->
  keyboard s = number :: confirm :: rest ->
  let deleted := set_entries (delete i (entries jm)) jm in
  exists asked,
    world asked = world s /\
    keyboard asked = confirm :: rest /\
    (form_entry e = true -> fst (display e true asked) = Ok tt) /\
    match display e true asked with
    | (Ok _, _) =>
        exists sc,
          ((confirm = "y" \/ confirm = "Y") /\
           App.delete_entry jm s =
             (Ok deleted,
              mk_Session (snd (save_entries deleted (world s))) rest
                (sc ++ [Say "Entry deleted successfully!"])))
          \/
          (~ (confirm = "y" \/ confirm = "Y") /\
           App.delete_entry jm s = (Ok jm, mk_Session (world s) rest sc))
    | (Raise x, failed) =>
        (exists msg, x = TypeError msg) /\
        App.delete_entry jm s = (Raise x, failed) /\
        world failed = world s /\
        keyboard failed = confirm :: rest
    end.
Proof.
  intros Hpick He Hkb deleted. destruct s as [w kb sc].
  cbn [keyboard world] in *. subst kb.
  apply picks_spec in Hpick. destruct Hpick as (n & Hn & Hi & Hlt).
  rewrite delete_form_nonempty
    by (intros Hnil; rewrite Hnil in He; discriminate).
  destruct (view_prints jm (mk_Session w (number :: confirm :: rest) sc))
    as (u & lines & Hv).
  cbn [world keyboard screen] in Hv. rewrite (tbind_run _ _ _ _ _ Hv).
  set (asked := mk_Session w (confirm :: rest)
                  ((sc ++ lines) ++
                   [Ask "Enter entry number to delete (0 to cancel): "])).
  exists asked. split; [reflexivity |]. split; [reflexivity |].
  split.
  { intros Hform.
    destruct (display_prints e true Hform asked) as ([] & lines' & ->).
    reflexivity. }
  assert (Hinner :
    tbind (input "Enter entry number to delete (0 to cancel): ")
      (fun typed =>
       tbind (to_int typed) (fun n =>
         let choice := n - 1 in
         if choice =? -1 then tret jm
         else if in_bounds choice (entries jm) then
           tbind (entry_at (entries jm) choice) (fun entry =>
           tbind (display entry true) (fun _ =>
           tbind
             (input "Are you sure you want to delete this entry? (y/n): ")
             (fun confirm =>
              if String.eqb (lower confirm) "y" then
                tbind (in_store (Journal.delete_entry jm choice))
                  (fun answer =>
                   tbind
                     (if fst answer
                      then say (Say "Entry deleted successfully!")
                      else say (Say "Failed to delete entry!"))
                     (fun _ => tret (snd answer)))
              else tret jm)))
         else tret jm))
      (mk_Session w (number :: confirm :: rest) (sc ++ lines)) =
    tbind (display e true) (fun _ =>
      tbind (input "Are you sure you want to delete this entry? (y/n): ")
        (fun confirm =>
         if String.eqb (lower confirm) "y" then
           tbind (in_store (Journal.delete_entry jm (Z.of_nat i)))
             (fun answer =>
              tbind
                (if fst answer
                 then say (Say "Entry deleted successfully!")
                 else say (Say "Failed to delete entry!"))
                (fun _ => tret (snd answer)))
         else tret jm)) asked).
  { cbn [tbind input prompt_for world keyboard screen].
    unfold to_int. rewrite Hn, tbind_tret. cbn zeta. rewrite Hi.
    replace (Z.of_nat i =? -1) with false by (symmetry; apply Z.eqb_neq; lia).
    replace (in_bounds (Z.of_nat i) (entries jm)) with true
      by (symmetry; unfold in_bounds; apply in_range_true; lia).
    unfold entry_at. rewrite Nat2Z.id, He, tbind_tret. reflexivity. }
  destruct (display_shows e true asked) as (r & lines' & Hd & Hkind).
  rewrite Hd. destruct r as [[] | x].
  - destruct (String.eqb (lower confirm) "y") eqn:Hy.
    + eexists. left. split; [apply lower_is_y; exact Hy |].
      apply except_ok. etransitivity; [exact Hinner |].
      rewrite (tbind_run _ _ _ _ _ Hd).
      cbn [tbind input prompt_for world keyboard screen asked]. rewrite Hy.
      unfold tbind at 1. unfold in_store at 1.
      cbn [world keyboard screen].
      rewrite delete_entry_in_range by lia. rewrite Nat2Z.id.
      cbn [tbind fst snd say tret world keyboard screen]. reflexivity.
    + eexists. right. split.
      { intros Hc. apply lower_is_y in Hc. congruence. }
      apply except_ok. etransitivity; [exact Hinner |].
      rewrite (tbind_run _ _ _ _ _ Hd).
      cbn [tbind input prompt_for world keyboard screen asked]. rewrite Hy.
      reflexivity.
  - destruct Hkind as [msg ->].
    split; [eexists; reflexivity |].
    split; [| split; reflexivity].
    apply except_type_error. etransitivity; [exact Hinner |].
    unfold tbind at 1. rewrite Hd. reflexivity.
Qed.

End Forms5.


(** *** authenticate_user *)

Lemma takes_tret {A} (a : A) : takes (tret a).
Proof. intros s. reflexivity. Qed.

Lemma takes_say (l : line) : takes (say l).
Proof. intros s. reflexivity. Qed.

Lemma takes_prompt_for (p : line) : takes (prompt_for p).
Proof.
  intros s. unfold prompt_for. destruct (keyboard s) eqn:Hkb; cbn; lia.
Qed.

Lemma takes_in_store {A} (c : M A) : takes (in_store c).
Proof.
  intros s. unfold in_store. destruct (c (world s)). reflexivity.
Qed.

Lemma takes_tbind {A B} (c : T A) (k : A -> T B) :
  takes c -> (forall a, takes (k a)) -> takes (tbind c k).
Proof.
  intros Hc Hk s. unfold tbind. specialize (Hc s).
  destruct (c s) as [[a | e] s1]; cbn [snd] in *; [| exact Hc].
  specialize (Hk a s1). lia.
Qed.

Lemma takes_if {A} (b : bool) (c1 c2 : T A) :
  takes c1 -> takes c2 -> takes (if b then c1 else c2).
Proof. destruct b; auto. Qed.

Ltac takes_steps :=
  repeat first
    [ apply takes_tret | apply takes_say | apply takes_prompt_for
    | apply takes_in_store
    | apply takes_tbind; [| intros ?]
    | apply takes_if ].

Lemma reads_prompt_for {B} (p : line) (k : string -> T (option B)) :
  (forall a, takes (k a)) -> reads (tbind (prompt_for p) k).
Proof.
  intros Hk [w kb sc] s'. unfold tbind, prompt_for. cbn [keyboard world screen].
  destruct kb as [| typed rest]; [discriminate |].
  intros Hrun. specialize (Hk typed (mk_Session w rest (sc ++ [p]))).
  rewrite Hrun in Hk. cbn [snd keyboard length] in *. lia.
Qed.

Lemma reads_after_say {B} (l : line) (c : T (option B)) :
  reads c -> reads (tbind (say l) (fun _ => c)).
Proof.
  intros Hc s s' Hrun. unfold tbind, say in Hrun.
  apply Hc in Hrun. exact Hrun.
Qed.

Lemma authenticate_round_reads : reads authenticate_round.
Proof.
  unfold authenticate_round.
  do 3 apply reads_after_say.
  apply (reads_prompt_for (B := option string)). intros choice.
  unfold input, getpass. takes_steps.
Qed.

Lemma authenticate_user_start (w : World) (kb : list string) (sc : list line) :
  authenticate_user (mk_Session w kb sc) =
    while_true authenticate_round
      (mk_Session w kb
         (((sc ++ [Say rule]) ++ [Say "PERSONAL JOURNAL LOGIN"]) ++
          [Say rule])).
Proof. reflexivity. Qed.

Lemma tbind_path_exists {B} (path : string) (k : bool -> T B)
    (w : World) (kb : list string) (sc : list line) :
  tbind (in_store (path_exists path)) k (mk_Session w kb sc) =
    k (bool_decide (is_Some (files w !! path))) (mk_Session w kb sc).
Proof. reflexivity. Qed.

Lemma round_sign_up (w : World) (u p : string) (rest : list string)
    (sc : list line) :
  files w !! user_file u = None ->
  write_faults w (user_file u) = None ->
  exists sc',
    authenticate_round (mk_Session w ("2" :: u :: p :: p :: rest) sc) =
      (Ok (Some (Some u)),
       mk_Session (with_files (<[user_file u := p]> (files w)) w) rest sc').
Proof.
  intros Hfile Hfault. unfold authenticate_round.
  cbn [tbind say input getpass prompt_for world keyboard screen].
  change (String.eqb "2" "1") with false.
  change (String.eqb "2" "2") with true. cbv iota.
  cbn [tbind say input getpass prompt_for world keyboard screen].
  rewrite tbind_path_exists.
  rewrite bool_decide_eq_false_2
    by (rewrite Hfile; intros [x Hx]; discriminate).
  cbn [tbind say input getpass prompt_for world keyboard screen].
  rewrite String.eqb_refl.
  unfold tbind at 1, in_store at 1, write_file. cbn [world keyboard screen].
  rewrite Hfault.
  cbn [tbind say tret world keyboard screen].
  eexists. reflexivity.
Qed.

Lemma round_login (w : World) (u q text : string) (rest : list string)
    (sc : list line) :
  files w !! user_file u = Some text ->
  read_faults w (user_file u) = false ->
  exists sc',
    authenticate_round (mk_Session w ("1" :: u :: q :: rest) sc) =
      if String.eqb q (strip (universal_newlines text))
      then (Ok (Some (Some u)), mk_Session w rest sc')
      else (Ok None, mk_Session w rest (sc' ++ [Say "Invalid password!"])).
Proof.
  intros Hfile Hfault. unfold authenticate_round.
  cbn [tbind say input getpass prompt_for world keyboard screen].
  change (String.eqb "1" "1") with true. cbv iota.
  cbn [tbind say input getpass prompt_for world keyboard screen].
  rewrite tbind_path_exists.
  rewrite bool_decide_eq_true_2 by (rewrite Hfile; eexists; reflexivity).
  unfold tbind at 1, in_store at 1, read_file. cbn [world keyboard screen].
  rewrite Hfault, Hfile.
  destruct (String.eqb q (strip (universal_newlines text)));
    cbn [tbind say tret world keyboard screen]; eexists; reflexivity.
Qed.

(** X21.  Signing up and logging in: choosing option 2 with a user name
    that has no file yet and the same password [p] typed twice returns the
    user name and leaves [p] in the user's file; from then on option 1 with
    that user name returns it exactly for the password
    [strip (universal_newlines p)], the file's text as [authenticate_user]
    reads it back, and for any other password it prints
    "Invalid password!" and shows the menu again.  So a password that
    begins or ends with a blank can be chosen and never logs in. *)
Theorem sign_up_then_login (s : Session) (u p : string)
    (rest : list string) :
  files (world s) !! user_file u = None ->
  write_faults (world s) (user_file u) = None ->
  read_faults (world s) (user_file u) = false ->
  keyboard s = "2" :: u :: p :: p :: rest ->
  exists s1,
    authenticate_user s = (Ok (Some u), s1) /\
    files (world s1) = <[user_file u := p]> (files (world s)) /\
    keyboard s1 = rest /\
    forall (q : string) (later : list string) (sc : list line),
      (q = strip (universal_newlines p) ->
       exists sc',
         authenticate_user (mk_Session (world s1) ("1" :: u :: q :: later) sc)
         = (Ok (Some u), mk_Session (world s1) later sc')) /\
      (q <> strip (universal_newlines p) ->
       exists sc',
         authenticate_user (mk_Session (world s1) ("1" :: u :: q :: later) sc)
         = while_true authenticate_round
             (mk_Session (world s1) later
                (sc' ++ [Say "Invalid password!"]))).
Proof.
  intros Hfile Hwrite Hread Hkb. destruct s as [w kb sc0].
  cbn [world keyboard] in *. subst kb.
  rewrite authenticate_user_start.
  rewrite (while_true_unfold _ _ authenticate_round_reads).
  destruct (round_sign_up w u p rest
              (((sc0 ++ [Say rule]) ++ [Say "PERSONAL JOURNAL LOGIN"]) ++
               [Say rule]) Hfile Hwrite) as (sc1 & ->).
  eexists. split; [reflexivity |].
  cbn [world keyboard screen files with_files].
  split; [reflexivity |]. split; [reflexivity |].
  intros q later sc.
  set (w1 := with_files (<[user_file u := p]> (files w)) w).
  destruct (round_login w1 u q p later
              (((sc ++ [Say rule]) ++ [Say "PERSONAL JOURNAL LOGIN"]) ++
               [Say rule])) as (sc' & Hround).
  { unfold w1. cbn [files with_files]. apply lookup_insert_eq. }
  { exact Hread. }
  split; intros Hq; exists sc';
    rewrite authenticate_user_start,
      (while_true_unfold _ _ authenticate_round_reads), Hround.
  - rewrite (proj2 (String.eqb_eq _ _) Hq). reflexivity.
  - rewrite (proj2 (String.eqb_neq _ _) Hq). reflexivity.
Qed.

Lemma spares_tret {A} (a : A) : spares_files (tret a).
Proof. intros s. reflexivity. Qed.

Lemma spares_say (l : line) : spares_files (say l).
Proof. intros s. reflexivity. Qed.

Lemma spares_quiet {A} (c : T A) : quiet c -> spares_files c.
Proof. intros Hq s. rewrite Hq. reflexivity. Qed.

Lemma spares_tbind {A B} (c : T A) (k : A -> T B) :
  spares_files c -> (forall a, spares_files (k a)) ->
  spares_files (tbind c k).
Proof.
  intros Hc Hk s. unfold tbind. specialize (Hc s).
  destruct (c s) as [[a | e] s1]; cbn [snd] in *; [| exact Hc].
  etransitivity; [exact Hc | apply Hk].
Qed.

Lemma spares_if {A} (b : bool) (c1 c2 : T A) :
  spares_files c1 -> spares_files c2 -> spares_files (if b then c1 else c2).
Proof. destruct b; auto. Qed.

Lemma spares_loop {A} (n : nat) (body : T (option A)) :
  spares_files body -> spares_files (loop n body).
Proof.
  intros Hb. induction n as [| n IH]; intros s; [reflexivity |].
  cbn [loop]. specialize (Hb s).
  destruct (body s) as [[[a |] | e] s1]; cbn [snd] in *; try exact Hb.
  etransitivity; [exact Hb | apply IH].
Qed.

Lemma spares_read_file (path : string) :
  spares_files (in_store (read_file path)).
Proof.
  intros s. unfold in_store, read_file.
  destruct (read_faults (world s) path); [reflexivity |].
  destruct (files (world s) !! path); reflexivity.
Qed.

(** Writing a file that is not there spares the files that are. *)
Lemma write_new_file_spares (path data : string) (w : World) :
  files w !! path = None ->
  files w ⊆ files (snd (write_file path data w)).
Proof.
  intros Hnew. unfold write_file.
  destruct (write_faults w path) as [[| n] |]; cbn [snd files with_files];
    solve [reflexivity | apply insert_subseteq; exact Hnew].
Qed.

Lemma sign_up_spares (u : string) :
  spares_files
    (tbind (in_store (path_exists (user_file u))) (fun found =>
       if found : bool then
         tbind (say (Say "Username already exists!")) (fun _ => tret None)
       else
         tbind (getpass "Choose password: ") (fun password =>
         tbind (getpass "Confirm password: ") (fun confirm =>
           if String.eqb password confirm then
             tbind (in_store (write_file (user_file u) password)) (fun _ =>
             tbind (say (Say "User created successfully!")) (fun _ =>
               tret (Some (Some u))))
           else
             tbind (say (Say "Passwords don't match!"))
               (fun _ => @tret (option (option string)) None))))).
Proof.
  intros [w kb sc]. rewrite tbind_path_exists. cbn [world].
  destruct (files w !! user_file u) as [text |] eqn:Hfile.
  - rewrite bool_decide_eq_true_2 by (eexists; reflexivity). reflexivity.
  - rewrite bool_decide_eq_false_2 by (intros [x Hx]; discriminate).
    destruct kb as [| p [| c rest]]; try reflexivity.
    cbn [tbind getpass prompt_for world keyboard screen].
    destruct (String.eqb p c); [| reflexivity].
    unfold tbind at 1, in_store at 1. cbn [world keyboard screen].
    pose proof (write_new_file_spares (user_file u) p w Hfile) as Hw.
    destruct (write_file (user_file u) p w) as [[[] | x] w1];
      cbn [snd] in Hw; exact Hw.
Qed.

Lemma authenticate_round_spares : spares_files authenticate_round.
Proof.
  unfold authenticate_round.
  do 3 (apply spares_tbind; [apply spares_say | intros _]).
  apply spares_tbind; [apply spares_quiet, quiet_input | intros choice].
  apply spares_if.
  - apply spares_tbind; [apply spares_quiet, quiet_input | intros username].
    apply spares_tbind; [apply spares_quiet, quiet_getpass | intros password].
    apply spares_tbind; [intros s; reflexivity | intros found].
    apply spares_if.
    + apply spares_tbind; [apply spares_read_file | intros text].
      apply spares_if; [apply spares_tret |].
      apply spares_tbind; [apply spares_say | intros _; apply spares_tret].
    + apply spares_tbind; [apply spares_say | intros _; apply spares_tret].
  - apply spares_if.
    + apply spares_tbind; [apply spares_quiet, quiet_input | intros username].
      apply sign_up_spares.
    + apply spares_if; [apply spares_tret |].
      apply spares_tbind; [apply spares_say | intros _; apply spares_tret].
Qed.

(** X22.  [authenticate_user] overwrites and removes nothing: whatever is
    typed and however the function ends, every file that was there before
    the call is there after it with the same content.  Signing up under
    the name of an existing user cannot replace that user's password. *)
Theorem authenticate_overwrites_nothing (s : Session) (path text : string) :
  files (world s) !! path = Some text ->
  files (world (snd (authenticate_user s))) !! path = Some text.
Proof.
  intros Hfile.
  assert (Hspares : spares_files authenticate_user).
  { unfold authenticate_user.
    do 3 (apply spares_tbind; [apply spares_say | intros _]).
    intros s0. unfold while_true.
    apply spares_loop, authenticate_round_spares. }
  exact (lookup_weaken _ _ _ _ Hfile (Hspares s)).
Qed.

(** *** What the forms leave in the journal *)

Lemma returns_tret {A} (a : A) (P : A -> Prop) : P a -> returns_only (tret a) P.
Proof. intros HP s a' s' [= <- _]. exact HP. Qed.

Lemma returns_tbind {A B} (c : T A) (k : A -> T B) (Q : A -> Prop)
    (P : B -> Prop) :
  returns_only c Q -> (forall a, Q a -> returns_only (k a) P) ->
  returns_only (tbind c k) P.
Proof.
  intros Hc Hk s b s' Hrun. apply tbind_ok in Hrun.
  destruct Hrun as (a & s1 & Ha & Hb). exact (Hk a (Hc _ _ _ Ha) _ _ _ Hb).
Qed.

Lemma returns_any {A} (c : T A) : returns_only c (fun _ => True).
Proof. intros s a s' _. exact I. Qed.

Lemma returns_then {A B} (c : T A) (k : A -> T B) (P : B -> Prop) :
  (forall a, returns_only (k a) P) -> returns_only (tbind c k) P.
Proof.
  intros Hk. apply (returns_tbind c k (fun _ => True));
    [apply returns_any | intros a _; apply Hk].
Qed.

Lemma returns_if {A} (b : bool) (c1 c2 : T A) (P : A -> Prop) :
  returns_only c1 P -> returns_only c2 P ->
  returns_only (if b then c1 else c2) P.
Proof. destruct b; auto. Qed.

Lemma returns_except {A} (c h : T A) (P : A -> Prop) :
  returns_only c P -> returns_only h P ->
  returns_only (except_ValueError c h) P.
Proof.
  intros Hc Hh s a s' Hrun. unfold except_ValueError in Hrun.
  destruct (c s) as [[a1 | e] s1] eqn:Hcs.
  - injection Hrun as <- _. exact (Hc _ _ _ Hcs).
  - destruct e; try discriminate. exact (Hh _ _ _ Hrun).
Qed.

Lemma returns_loop {A} (n : nat) (body : T (option A)) (P : A -> Prop) :
  returns_only body (fun o => forall a, o = Some a -> P a) ->
  returns_only (loop n body) P.
Proof.
  intros Hb. induction n as [| n IH]; intros s a s' Hrun; [discriminate |].
  cbn [loop] in Hrun.
  destruct (body s) as [[[a1 |] | e] s1] eqn:Hbs; try discriminate.
  - injection Hrun as <- _. exact (Hb _ _ _ Hbs a1 eq_refl).
  - exact (IH _ _ _ Hrun).
Qed.

Lemma returns_while_true {A} (body : T (option A)) (P : A -> Prop) :
  returns_only body (fun o => forall a, o = Some a -> P a) ->
  returns_only (while_true body) P.
Proof. intros Hb s. unfold while_true. apply returns_loop, Hb. Qed.

Lemma returns_tlift {A} (r : result A) (P : A -> Prop) :
  (forall a, r = Ok a -> P a) -> returns_only (tlift r) P.
Proof. intros HP s a s' [= -> _]. apply HP. reflexivity. Qed.

Lemma returns_in_store {A} (c : M A) (P : A -> Prop) :
  (forall w a w', c w = (Ok a, w') -> P a) -> returns_only (in_store c) P.
Proof.
  intros HP s a s' Hrun. apply in_store_ok in Hrun.
  destruct Hrun as (w' & Hc & _). exact (HP _ _ _ Hc).
Qed.

Lemma typed_or_text (typed : string) (v : pyval) :
  is_text v = true -> is_text (typed_or typed v) = true.
Proof. intros Hv. unfold typed_or. destruct (String.eqb typed ""); auto. Qed.

Lemma ask_new_rating_returns (e : JournalEntry) :
  is_rating (mood_rating e) = true ->
  returns_only (ask_new_rating e) (fun v => is_rating v = true).
Proof.
  intros He. unfold ask_new_rating. apply returns_while_true.
  apply returns_then. intros typed.
  apply returns_if; [apply returns_tret; intros a [= <-]; exact He |].
  apply returns_except.
  - apply returns_then. intros n.
    destruct ((1 <=? n) && (n <=? 10)) eqn:Hn.
    + apply returns_tret. intros a [= <-]. exact Hn.
    + apply returns_then. intros _. apply returns_tret. discriminate.
  - apply returns_then. intros _. apply returns_tret. discriminate.
Qed.

Section Forms4.
Context {L : Libs}.

Lemma edit_chosen_returns (jm : JournalManager) (choice : Z) :
  well_formed (entries jm) ->
  returns_only (edit_chosen jm choice)
    (fun jm' => well_formed (entries jm')).
Proof.
  intros Hjm. unfold edit_chosen.
  apply (returns_tbind _ _ (fun e => form_entry e = true)).
  { unfold entry_at. destruct (entries jm !! Z.to_nat choice) as [e |] eqn:He.
    - apply returns_tret.
      exact (proj1 (Forall_lookup _ _) Hjm _ _ He).
    - intros s a s'. discriminate. }
  intros e He. pose proof He as Hf. unfold form_entry in Hf.
  repeat (apply andb_true_iff in Hf; destruct Hf as [Hf ?]).
  do 3 (apply returns_then; intros _).
  apply returns_then; intros typed_title.
  apply returns_then; intros shown.
  apply returns_then; intros typed_content.
  apply returns_then; intros typed_mood.
  apply (returns_tbind _ _ (fun v => is_rating v = true));
    [apply ask_new_rating_returns; assumption | intros r Hr].
  apply returns_then; intros shown_tags.
  apply returns_then; intros typed_tags.
  apply returns_then; intros shown_tasks.
  apply returns_then; intros typed_tasks.
  apply returns_then; intros typed_thing.
  apply (returns_tbind _ _ (fun e' => form_entry e' = true)).
  { apply returns_in_store. intros w e' w'.
    unfold JournalEntry_init, bind, datetime_now, ret. intros [= <- _].
    unfold form_entry.
    cbn [title content mood mood_rating tags completed_tasks
         forgettable_thing].
    rewrite !typed_or_text by assumption. rewrite Hr.
    rewrite !or_empty_texts by (apply pieces_are_texts; assumption).
    unfold typed_or. destruct (String.eqb typed_thing ""); [| reflexivity].
    cbn [andb]. assumption. }
  intros e' He'.
  apply (returns_tbind _ _ (fun answer => well_formed (entries (snd answer)))).
  { apply returns_in_store. intros w answer w'. unfold edit_entry.
    destruct ((0 <=? choice) && _).
    - unfold bind, ret. destruct (save_entries _ w) as [[[] | x] w1];
        [| discriminate].
      intros [= <- _]. cbn [snd entries set_entries].
      apply Forall_insert; assumption.
    - intros [= <- _]. exact Hjm. }
  intros answer Hanswer. apply returns_then; intros _.
  apply returns_tret. exact Hanswer.
Qed.

Lemma edit_returns (jm : JournalManager) :
  well_formed (entries jm) ->
  returns_only (edit_existing_entry jm)
    (fun jm' => well_formed (entries jm')).
Proof.
  intros Hjm.
  assert (Hcase : entries jm = [] \/ entries jm <> [])
    by (destruct (entries jm); [left | right]; congruence).
  destruct Hcase as [Hnil | Hne].
  - unfold edit_existing_entry. rewrite Hnil.
    apply returns_then; intros _. apply returns_tret. exact Hjm.
  - rewrite (edit_form_nonempty _ Hne). apply returns_then; intros _.
    apply returns_except.
    + apply returns_then; intros typed. apply returns_then; intros n.
      cbn zeta. apply returns_if; [apply returns_tret; exact Hjm |].
      apply returns_if; [apply edit_chosen_returns; exact Hjm |].
      apply returns_then; intros _. apply returns_tret; exact Hjm.
    + apply returns_then; intros _. apply returns_tret; exact Hjm.
Qed.

Lemma delete_returns (jm : JournalManager) :
  well_formed (entries jm) ->
  returns_only (App.delete_entry jm)
    (fun jm' => well_formed (entries jm')).
Proof.
  intros Hjm.
  assert (Hcase : entries jm = [] \/ entries jm <> [])
    by (destruct (entries jm); [left | right]; congruence).
  destruct Hcase as [Hnil | Hne].
  - unfold App.delete_entry. rewrite Hnil.
    apply returns_then; intros _. apply returns_tret. exact Hjm.
  - rewrite (delete_form_nonempty _ Hne). apply returns_then; intros _.
    apply returns_except.
    + apply returns_then; intros typed. apply returns_then; intros n.
      cbn zeta. apply returns_if; [apply returns_tret; exact Hjm |].
      apply returns_if; [| apply returns_tret; exact Hjm].
      apply returns_then; intros entry. apply returns_then; intros _.
      apply returns_then; intros confirm.
      apply returns_if; [| apply returns_tret; exact Hjm].
      apply (returns_tbind _ _
               (fun answer => well_formed (entries (snd answer)))).
      { apply returns_in_store. intros w answer w'.
        unfold Journal.delete_entry.
        destruct ((0 <=? n - 1) && _).
        - unfold bind, ret. destruct (save_entries _ w) as [[[] | x] w1];
            [| discriminate].
          intros [= <- _]. cbn [snd entries set_entries].
          apply Forall_delete. exact Hjm.
        - intros [= <- _]. exact Hjm. }
      intros answer Hanswer. apply returns_then; intros _.
      apply returns_tret. exact Hanswer.
    + apply returns_then; intros _. apply returns_tret; exact Hjm.
Qed.


Lemma made_entry_form (t c m forget : string) (r : Z) (tg tk : pyval)
    (d : string) :
  1 <= r <= 10 -> is_texts tg = true -> is_texts tk = true ->
  form_entry
    (mk_JournalEntry (PyStr t) (PyStr c) (PyStr m) (PyInt r)
       (if truthy tg then tg else PyList [])
       (if truthy tk then tk else PyList [])
       (if String.eqb forget "" then PyNone else PyStr forget) d) = true.
Proof.
  intros Hr Htg Htk. unfold form_entry.
  cbn [title content mood mood_rating tags completed_tasks
       forgettable_thing is_text is_rating andb].
  rewrite (or_empty_texts _ Htg), (or_empty_texts _ Htk).
  replace ((1 <=? r) && (r <=? 10)) with true
    by (symmetry; apply andb_true_iff; split; apply Z.leb_le; lia).
  destruct (String.eqb forget ""); reflexivity.
Qed.

(** X23.  The forms keep the journal well formed: if every entry of the
    journal is as the forms make entries, so is every entry of the journal
    that [create_new_entry], [edit_existing_entry] or the module's
    [delete_entry] returns with, whatever was typed; and [display] of such
    an entry, in full or as a preview, returns normally. *)
Theorem forms_keep_journal_well_formed (jm jm' : JournalManager)
    (s s' : Session) :
  well_formed (entries jm) ->
  create_new_entry jm s = (Ok jm', s') \/
  edit_existing_entry jm s = (Ok jm', s') \/
  App.delete_entry jm s = (Ok jm', s') ->
  well_formed (entries jm') /\
  forall e show_full s0,
    e ∈ entries jm' -> fst (display e show_full s0) = Ok tt.
Proof.
  intros Hjm Hrun.
  assert (Hjm' : well_formed (entries jm')).
  { destruct Hrun as [Hrun | [Hrun | Hrun]].
    - apply create_new_entry_run in Hrun.
      destruct Hrun as (t & c & m & forget & r & tg & tk & sq & Hrun).
      cbn zeta in Hrun.
      destruct Hrun as (_ & _ & Hr & Htg & Htk & -> & _).
      cbn [entries set_entries]. apply Forall_app. split; [exact Hjm |].
      constructor; [| constructor].
      apply made_entry_form; assumption.
    - exact (edit_returns jm Hjm _ _ _ Hrun).
    - exact (delete_returns jm Hjm _ _ _ Hrun). }
  split; [exact Hjm' |].
  intros e show_full s0 He.
  pose proof (proj1 (list.Forall_forall _ _) Hjm' e He) as Hform.
  destruct (display_prints e show_full Hform s0) as ([] & lines & ->).
  reflexivity.
Qed.

End Forms4.

(** *** view_all_entries *)

Lemma view_full_nonempty (jm : JournalManager) :
  entries jm <> [] ->
  view_all_entries jm true =
    tbind (say (Table (table_rows 1 (entries jm)))) (fun _ =>
      except_ValueError
        (tbind (input "Enter entry number to view (0 to cancel): ")
           (fun typed =>
            tbind (to_int typed) (fun n =>
              let choice := n - 1 in
              if in_bounds choice (entries jm) then
                tbind (entry_at (entries jm) choice) (fun entry =>
                  display entry true)
              else tret tt)))
        (say (Say "Invalid input!"))).
Proof.
  intros Hne. unfold view_all_entries.
  destruct (entries jm); [congruence | reflexivity].
Qed.

(** X24.  [view_all_entries(show_full=True)] on a well-formed journal that
    is not empty prints the table, asks for a number and uses one typed
    line: for the number of an entry it prints what [display] prints for
    that entry in full; for a line that is no number it prints
    "Invalid input!"; for any other number, 0 and negative ones included,
    it prints nothing more.  It returns normally and leaves the world as
    it was. *)
Theorem view_shows_the_entry_picked (jm : JournalManager) (s : Session)
    (typed : string) (rest : list string) :
  well_formed (entries jm) ->
  entries jm <> [] ->
  keyboard s = typed :: rest ->
  exists lines,
    let asked :=
      mk_Session (world s) rest
        ((screen s ++ [Table (table_rows 1 (entries jm))]) ++
         [Ask "Enter entry number to view (0 to cancel): "]) in
    view_all_entries jm true s =
      (Ok tt, mk_Session (world s) rest (screen asked ++ lines)) /\
    match picks typed (entries jm) with
    | Some i =>
        exists e,
          entries jm !! i = Some e /\
          display e true asked =
            (Ok tt, mk_Session (world s) rest (screen asked ++ lines))
    | None =>
        lines = match py_int typed with
                | Some _ => []
                | None => [Say "Invalid input!"]
                end
    end.
Proof.
  intros Hjm Hne Hkb. destruct s as [w kb sc].
  cbn [world keyboard screen] in *. subst kb.
  rewrite (view_full_nonempty _ Hne).
  unfold picks, except_ValueError.
  cbn [tbind say input prompt_for world keyboard screen].
  unfold to_int. destruct (py_int typed) as [n |].
  - rewrite tbind_tret. cbn zeta.
    destruct (in_bounds (n - 1) (entries jm)) eqn:Hb.
    + unfold in_bounds in Hb. apply andb_true_iff in Hb.
      destruct Hb as [H0 H1]. apply Z.leb_le in H0. apply Z.ltb_lt in H1.
      destruct (lookup_lt_is_Some_2 (entries jm) (Z.to_nat (n - 1)))
        as (e & He); [lia |].
      unfold entry_at. rewrite He, tbind_tret.
      pose proof (proj1 (Forall_lookup _ _) Hjm _ _ He) as Hform.
      destruct (display_prints e true Hform
                  (mk_Session w rest
                     ((sc ++ [Table (table_rows 1 (entries jm))]) ++
                      [Ask "Enter entry number to view (0 to cancel): "])))
        as ([] & lines & Hd).
      cbn [world keyboard screen] in Hd.
      exists lines. cbn zeta. rewrite Hd. cbn [screen].
      split; [reflexivity |]. exists e. split; [reflexivity | exact Hd].
    + exists []. cbn zeta. cbn [screen]. rewrite app_nil_r.
      split; reflexivity.
  - exists [Say "Invalid input!"]. cbn zeta. split; reflexivity.
Qed.

End FormFacts.

(* ===================================================================== *)
(** ** The forms at a sample keyboard *)
(* ===================================================================== *)

Module FormScenarios.
Import Reference Samples MoreSamples FormFacts.

(** Two lines that are no rating, then a 7. *)
Lemma rating_is_first_valid_line_witness :
  App._get_valid_rating
    (typing (machine ann_key_file) ["seven"; "11"; " 7 "; "next"]) =
    (Ok 7,
     mk_Session (machine ann_key_file) ["next"]
       [App.rating_prompt; Say "Please enter a number!";
        App.rating_prompt; Say "Rating must be between 1-10!";
        App.rating_prompt]) /\
  1 <= 7 <= 10.
Proof.
  apply (rating_is_first_valid_line
           (typing (machine ann_key_file) ["seven"; "11"; " 7 "; "next"])
           ["seven"; "11"] " 7 " 7 ["next"]).
  - reflexivity.
  - repeat constructor.
  - vm_compute. reflexivity.
Defined.

(** [ann] writes about the rain. *)
Lemma create_appends_form_entry_witness :
  let s := typing (machine ann_key_file) rain_answers in
  App.create_new_entry (ann [entry_A]) s =
    (Ok (ann [entry_A; entry_rain]),
     snd (App.create_new_entry (ann [entry_A]) s)) /\
  exists e,
    entries (ann [entry_A; entry_rain]) = entries (ann [entry_A]) ++ [e] /\
    App.form_entry e = true /\
    (exists t, title e = PyStr t /\ strip t <> "") /\
    (exists c, content e = PyStr c /\ strip c <> "") /\
    date e = strftime (clock (world s) (ticks (world s))).
Proof.
  intros s.
  assert (Hrun : App.create_new_entry (ann [entry_A]) s =
                   (Ok (ann [entry_A; entry_rain]),
                    snd (App.create_new_entry (ann [entry_A]) s)))
    by (vm_compute; reflexivity).
  split; [exact Hrun |].
  exact (create_appends_form_entry _ _ _ _ Hrun).
Defined.


(** [ann] opens entry 2 for editing and presses Enter seven times. *)
Lemma edit_keeping_all_restamps_witness :
  let s :=
    typing (machine ann_key_file)
      ["2"; ""; ""; ""; ""; ""; ""; ""; "next"] in
  exists s',
    App.edit_existing_entry (ann [entry_A; entry_B]) s =
      (Ok (set_entries
             (<[1%nat := App.restamped entry_B
                           (strftime (clock (world s) (ticks (world s))))]>
                (entries (ann [entry_A; entry_B])))
             (ann [entry_A; entry_B])), s') /\
    keyboard s' = ["next"] /\
    exists before, screen s' = before ++ [Say "Entry updated successfully!"].
Proof.
  intros s.
  apply (edit_keeping_all_restamps (ann [entry_A; entry_B]) s 1 entry_B "2"
           ["next"]); reflexivity.
Defined.

(** [ann] has one entry and asks for entry 5. *)
Lemma forms_turn_down_bad_numbers_witness :
  let s := typing (machine ann_key_file) ["5"; "next"] in
  (exists sc,
     App.edit_existing_entry (ann [entry_A]) s =
       (Ok (ann [entry_A]), mk_Session (world s) ["next"] sc)) /\
  (exists sc,
     App.delete_entry (ann [entry_A]) s =
       (Ok (ann [entry_A]), mk_Session (world s) ["next"] sc)).
Proof.
  intros s.
  apply (forms_turn_down_bad_numbers (ann [entry_A]) s "5" ["next"]).
  - reflexivity.
  - discriminate.
  - reflexivity.
Defined.

(** [ann] picks entry 1 for deletion and answers [yes]. *)
Lemma delete_form_needs_y_witness :
  let jm := ann [entry_A; entry_B] in
  let s := typing (machine ann_key_file) ["1"; "yes"; "next"] in
  let deleted := set_entries (delete 0%nat (entries jm)) jm in
  exists asked,
    world asked = world s /\
    keyboard asked = ["yes"; "next"] /\
    (App.form_entry entry_A = true ->
     fst (App.display entry_A true asked) = Ok tt) /\
    match App.display entry_A true asked with
    | (Ok _, _) =>
        exists sc,
          (("yes" = "y" \/ "yes" = "Y") /\
           App.delete_entry jm s =
             (Ok deleted,
              mk_Session (snd (save_entries deleted (world s))) ["next"]
                (sc ++ [Say "Entry deleted successfully!"])))
          \/
          (~ ("yes" = "y" \/ "yes" = "Y") /\
           App.delete_entry jm s = (Ok jm, mk_Session (world s) ["next"] sc))
    | (Raise x, failed) =>
        (exists msg, x = TypeError msg) /\
        App.delete_entry jm s = (Raise x, failed) /\
        world failed = world s /\
        keyboard failed = ["yes"; "next"]
    end.
Proof.
  intros jm s.
  apply (delete_form_needs_y jm s 0 entry_A "1" "yes" ["next"]); reflexivity.
Defined.

(** Her answer [yes] deletes nothing, her answer [Y] does. *)
Example yes_is_not_y :
  let s := typing (machine ann_key_file) ["1"; "yes"] in
  let s' := typing (machine ann_key_file) ["1"; "Y"] in
  fst (App.delete_entry (ann [entry_A; entry_B]) s) =
    Ok (ann [entry_A; entry_B]) /\
  fst (App.delete_entry (ann [entry_A; entry_B]) s') = Ok (ann [entry_B]).
Proof. split; vm_compute; reflexivity. Qed.

(** [ann] signs up with a password that has a blank on either side. *)
Lemma sign_up_then_login_witness :
  let s :=
    typing (machine ann_key_file) ["2"; "ann"; " secret "; " secret "; "next"]
  in
  exists s1,
    App.authenticate_user s = (Ok (Some "ann"), s1) /\
    files (world s1) = <[App.user_file "ann" := " secret "]> (files (world s)) /\
    keyboard s1 = ["next"] /\
    forall (q : string) (later : list string) (sc : list line),
      (q = strip (App.universal_newlines " secret ") ->
       exists sc',
         App.authenticate_user
           (mk_Session (world s1) ("1" :: "ann" :: q :: later) sc)
         = (Ok (Some "ann"), mk_Session (world s1) later sc')) /\
      (q <> strip (App.universal_newlines " secret ") ->
       exists sc',
         App.authenticate_user
           (mk_Session (world s1) ("1" :: "ann" :: q :: later) sc)
         = while_true App.authenticate_round
             (mk_Session (world s1) later
                (sc' ++ [Say "Invalid password!"]))).
Proof.
  intros s.
  apply (sign_up_then_login s "ann" " secret " ["next"]); reflexivity.
Defined.

(** With that password she is locked out: typed again as it was chosen it
    is turned down, without the blanks it is taken. *)
Example padded_password_locks_out :
  let s := typing (machine ann_key_file) ["2"; "ann"; " secret "; " secret "] in
  let w1 := world (snd (App.authenticate_user s)) in
  fst (App.authenticate_user (typing w1 ["1"; "ann"; " secret "; "3"])) =
    Ok None /\
  fst (App.authenticate_user (typing w1 ["1"; "ann"; "secret"; "3"])) =
    Ok (Some "ann").
Proof. split; vm_compute; reflexivity. Qed.

(** Somebody signs up as [ann] again, then tries other things: her
    password file is as it was. *)
Lemma authenticate_overwrites_nothing_witness :
  let s :=
    typing (machine ann_account)
      ["2"; "ann"; "2"; "bob"; "pw"; "pw"] in
  files (world (snd (App.authenticate_user s))) !! "user_ann.txt" =
    Some "secret".
Proof.
  intros s.
  apply (authenticate_overwrites_nothing s "user_ann.txt" "secret").
  reflexivity.
Defined.

(** [ann] edits her second entry. *)
Lemma forms_keep_journal_well_formed_witness :
  App.well_formed (entries (ann [entry_A; entry_B_edited])) /\
  forall e show_full s0,
    e ∈ entries (ann [entry_A; entry_B_edited]) ->
    fst (App.display e show_full s0) = Ok tt.
Proof.
  apply (forms_keep_journal_well_formed
           (ann [entry_A; entry_B]) (ann [entry_A; entry_B_edited])
           (typing (machine ann_key_file) edit_answers)
           (snd (App.edit_existing_entry (ann [entry_A; entry_B])
                   (typing (machine ann_key_file) edit_answers)))).
  - repeat constructor.
  - right. left. vm_compute. reflexivity.
Defined.

(** [ann] looks at her second entry. *)
Lemma view_shows_the_entry_picked_witness :
  let jm := ann [entry_A; entry_B] in
  let s := typing (machine ann_key_file) ["2"; "next"] in
  exists lines,
    let asked :=
      mk_Session (world s) ["next"]
        ((screen s ++ [Table (App.table_rows 1 (entries jm))]) ++
         [Ask "Enter entry number to view (0 to cancel): "]) in
    App.view_all_entries jm true s =
      (Ok tt, mk_Session (world s) ["next"] (screen asked ++ lines)) /\
    match App.picks "2" (entries jm) with
    | Some i =>
        exists e,
          entries jm !! i = Some e /\
          App.display e true asked =
            (Ok tt, mk_Session (world s) ["next"] (screen asked ++ lines))
    | None =>
        lines = match py_int "2" with
                | Some _ => []
                | None => [Say "Invalid input!"]
                end
    end.
Proof.
  intros jm s.
  apply (view_shows_the_entry_picked jm s "2" ["next"]).
  - repeat constructor.
  - discriminate.
  - reflexivity.
Defined.

(** What she sees of it, and what a 0 and a word get her. *)
Example view_second_entry :
  let jm := ann [entry_A; entry_B] in
  let seen typed :=
    drop 2 (screen (snd (App.view_all_entries jm true
                           (typing (machine ann_key_file) [typed])))) in
  seen "2" =
    [ Say App.rule; SayWith "Title: {self.title}" [PyStr "B"];
      SayWith "Date: {self.date}" [PyStr "2024-03-09 18:30:00"];
      SayWith "Mood: {self.mood} (Rating: {self.mood_rating}/10)"
        [PyStr "sad"; PyInt 2];
      Say "You seem down. Remember: This too shall pass!";
      Say "Content:"; Say "second day";
      Say "Completed Tasks:"; SayWith "{i}. {task}" [PyInt 1; PyStr "laundry"];
      Say "Thing to Forget: the rain"; Say App.rule ] /\
  seen "0" = [] /\
  seen "two" = [Say "Invalid input!"].
Proof. split; [| split]; vm_compute; reflexivity. Qed.

(** An entry whose rating is the text [8], as a journal written by hand
    may hold: the delete form cannot show it, so it ends with the
    [TypeError] of [display] and deletes nothing, whatever the answer. *)
Example odd_entry_cannot_be_deleted :
  let odd :=
    mk_JournalEntry (PyStr "C") (PyStr "third day") (PyStr "calm")
      (PyStr "8") (PyList []) (PyList []) PyNone "2024-03-10 08:00:00" in
  let run :=
    App.delete_entry (ann [odd]) (typing (machine ann_key_file) ["1"; "y"]) in
  fst run = Raise (TypeError "'<' not supported between these instances") /\
  keyboard (snd run) = ["y"] /\
  world (snd run) = machine ann_key_file.
Proof. split; [| split]; vm_compute; reflexivity. Qed.

End FormScenarios.
